(** * OpenWrt test dashboard: report parsing, aggregation and filtering

    A shallow embedding of [src/js/devices.js] (class [DeviceManager]):
    [parseTestReport], [loadDevices], [updateStats] and [filterDevices],
    together with the parts of the JavaScript and DOM libraries they call
    ([parseInt], [parseFloat], [String.prototype.trim], [toLowerCase],
    [includes], [querySelector], [querySelectorAll], [getAttribute],
    [textContent]).  Of the code that shows the data, the parts that
    compute are embedded too: the status and the display name of
    [createDeviceRow], the grouping and the counts of [showTestDetails],
    [formatTestMessage], and [Utils.escapeHtml] and [Utils.parseAnsiCodes].

    Conventions of the embedding.
    - A JavaScript string is a [string]; each character stands for one code
      unit below 256 (the Latin-1 range).
    - A JavaScript value that is a string, [null] or [undefined] is a
      [jsstr]; an absent object property reads as [Undefined].
    - A JavaScript Number that holds a count is a [number]: [NaN], an
      infinity, or an integer.  Every integer that the arithmetic produces
      is a double: a result is rounded to 53 significant bits, to the
      nearest double with ties to the even one, and becomes an infinity
      beyond the range of the doubles ([roundDouble]).  The sign of zero
      is not represented.
    - A Number read by [parseFloat] is a [float]: [NaN], an infinity, or
      [FDec m e], which stands for the double nearest to the decimal value
      [m * 10^e] of the literal that was read; a literal beyond the range
      of the doubles reads as an infinity.
    - A call that can throw returns in the monad [exn].
    - Writes to the page (innerHTML, console) are not part of the model. *)

From Stdlib Require Import ZArith String Ascii List Bool Lia DecimalString.
From stdpp Require Import base option list.
From Equations Require Import Equations.
Import ListNotations.

Local Open Scope string_scope.
Local Open Scope Z_scope.

(** ** Exceptions *)

Inductive error : Type :=
| TypeError (message : string)
| Error (message : string).

Inductive exn (A : Type) : Type :=
| Ret (a : A)
| Throw (e : error).
Arguments Ret {A} a.
Arguments Throw {A} e.

#[global] Instance exn_ret : MRet exn := fun A a => Ret a.
#[global] Instance exn_bind : MBind exn := fun A B f m =>
  match m with
  | Ret a => f a
  | Throw e => Throw e
  end.

(** ** JavaScript values *)

Inductive jsstr : Type :=
| Undefined
| Null
| Str (s : string).

Inductive number : Type :=
| NaN
| Infinity (negative : bool)
| Num (z : Z).

Inductive float : Type :=
| FNaN
| FInfinity (negative : bool)
| FDec (m : Z) (e : Z).

(** ToBoolean on a string, [null] or [undefined]. *)
Definition truthy (v : jsstr) : bool :=
  match v with
  | Str EmptyString => false
  | Str _ => true
  | _ => false
  end.

(** [v || d] for a string default [d]. *)
Definition or_str (v : jsstr) (d : string) : string :=
  match v with
  | Str EmptyString => d
  | Str s => s
  | _ => d
  end.

(** [v === s] for a string [s]. *)
Definition strict_eq (v : jsstr) (s : string) : bool :=
  match v with
  | Str s' => String.eqb s' s
  | _ => false
  end.

(** The integer nearest to [z] that has at most 53 significant bits; of
    two that are equally near, the one whose significand is even.  The
    integers up to 2^53 in magnitude are kept. *)
Definition roundInt (z : Z) : Z :=
  let a := Z.abs z in
  if a <? 2 ^ 53 then z
  else
    let k := Z.log2 a - 52 in
    let q := a / 2 ^ k in
    let r := a mod 2 ^ k in
    let half := 2 ^ (k - 1) in
    let q' := if (half <? r) || ((r =? half) && Z.odd q) then q + 1 else q in
    Z.sgn z * (q' * 2 ^ k).

(** The Number for the integer [z]: the nearest double, an infinity when
    the rounded magnitude reaches 2^1024. *)
Definition roundDouble (z : Z) : number :=
  let v := roundInt z in
  if 2 ^ 1024 <=? Z.abs v then Infinity (z <? 0) else Num v.

(** [a + b]: [NaN] when a side is [NaN] or when the sides are opposite
    infinities; the sum of two integers is rounded. *)
Definition jsadd (a b : number) : number :=
  match a, b with
  | NaN, _ | _, NaN => NaN
  | Infinity s, Infinity s' => if Bool.eqb s s' then Infinity s else NaN
  | Infinity s, Num _ => Infinity s
  | Num _, Infinity s => Infinity s
  | Num x, Num y => roundDouble (x + y)
  end.

(** [a - b]: [NaN] when a side is [NaN] or when the sides are the same
    infinity; the difference of two integers is rounded. *)
Definition jssub (a b : number) : number :=
  match a, b with
  | NaN, _ | _, NaN => NaN
  | Infinity s, Infinity s' => if Bool.eqb s s' then NaN else Infinity s
  | Infinity s, Num _ => Infinity s
  | Num _, Infinity s => Infinity (negb s)
  | Num x, Num y => roundDouble (x - y)
  end.

(** [a > b]; false as soon as one side is [NaN]. *)
Definition jsgt (a b : number) : bool :=
  match a, b with
  | NaN, _ | _, NaN => false
  | Infinity s, Infinity s' => negb s && s'
  | Infinity s, Num _ => negb s
  | Num _, Infinity s => s
  | Num x, Num y => y <? x
  end.

(** [a == b] on numbers; [NaN] equals nothing. *)
Definition jseq (a b : number) : bool :=
  match a, b with
  | Num x, Num y => x =? y
  | Infinity s, Infinity s' => Bool.eqb s s'
  | _, _ => false
  end.

(** ** Strings *)

Definition code (c : ascii) : Z := Z.of_N (N_of_ascii c).

(** WhiteSpace and LineTerminator code units below 256. *)
Definition isWhiteSpace (c : ascii) : bool :=
  let n := code c in
  ((9 <=? n) && (n <=? 13)) || (n =? 32) || (n =? 160).

Fixpoint trimStart (s : string) : string :=
  match s with
  | EmptyString => EmptyString
  | String c r => if isWhiteSpace c then trimStart r else s
  end.

Fixpoint trimEnd (s : string) : string :=
  match s with
  | EmptyString => EmptyString
  | String c r =>
      match trimEnd r with
      | EmptyString => if isWhiteSpace c then EmptyString else String c EmptyString
      | r' => String c r'
      end
  end.

(** [String.prototype.trim]. *)
Definition trim (s : string) : string := trimEnd (trimStart s).

(** Lower case of one code unit: A-Z, and the Latin-1 capitals but the
    multiplication sign. *)
Definition lowerChar (c : ascii) : ascii :=
  let n := code c in
  if ((65 <=? n) && (n <=? 90)) || ((192 <=? n) && (n <=? 222) && negb (n =? 215))
  then ascii_of_N (Z.to_N (n + 32))
  else c.

Fixpoint lower (s : string) : string :=
  match s with
  | EmptyString => EmptyString
  | String c r => String (lowerChar c) (lower r)
  end.

(** [recv.toLowerCase()]: a method call, so it throws on [null] and
    [undefined]. *)
Definition toLowerCase (recv : jsstr) : exn string :=
  match recv with
  | Str s => Ret (lower s)
  | _ => Throw (TypeError "Cannot read properties of null or undefined (reading 'toLowerCase')")
  end.

Fixpoint startsWith (s t : string) {struct t} : bool :=
  match t, s with
  | EmptyString, _ => true
  | String b t', String a s' => Ascii.eqb a b && startsWith s' t'
  | String _ _, EmptyString => false
  end.

(** [s.includes(t)]. *)
Fixpoint includes (s t : string) : bool :=
  startsWith s t ||
  match s with
  | EmptyString => false
  | String _ s' => includes s' t
  end.

Fixpoint drop (n : nat) (s : string) : string :=
  match n, s with
  | O, _ => s
  | S n', String _ r => drop n' r
  | S _, EmptyString => EmptyString
  end.

(** ** Number parsing, after ECMAScript's parseInt and parseFloat *)

Definition digitValue (c : ascii) : option Z :=
  let n := code c in
  if (48 <=? n) && (n <=? 57) then Some (n - 48)
  else if (97 <=? n) && (n <=? 122) then Some (n - 87)
  else if (65 <=? n) && (n <=? 90) then Some (n - 55)
  else None.

Definition radixDigit (R : Z) (c : ascii) : option Z :=
  match digitValue c with
  | Some d => if d <? R then Some d else None
  | None => None
  end.

(** The longest prefix of radix-[R] digits, as digit values. *)
Fixpoint digitsPrefix (R : Z) (s : string) : list Z :=
  match s with
  | EmptyString => []
  | String c r =>
      match radixDigit R c with
      | Some d => d :: digitsPrefix R r
      | None => []
      end
  end.

Definition mathInt (R : Z) (ds : list Z) : Z :=
  fold_left (fun acc d => acc * R + d) ds 0.

(** [parseInt(string)] with no radix argument.  The digits are read exactly,
    as the engines do also where the standard would let them drop decimal
    digits after the 20th, and the value is rounded to a double. *)
Definition parseInt (input : string) : number :=
  let S0 := trimStart input in
  let sign := if startsWith S0 "-" then -1 else 1 in
  let S1 := if startsWith S0 "+" || startsWith S0 "-" then drop 1 S0 else S0 in
  let '(R, S2) :=
    if startsWith S1 "0x" || startsWith S1 "0X" then (16, drop 2 S1) else (10, S1) in
  match digitsPrefix R S2 with
  | [] => NaN
  | ds => roundDouble (sign * mathInt R ds)
  end.

(** The exponent part of a decimal literal: [e] or [E], an optional sign
    and at least one digit; 0 when there is none. *)
Definition exponentPart (s : string) : Z :=
  if startsWith s "e" || startsWith s "E" then
    let s1 := drop 1 s in
    let sign := if startsWith s1 "-" then -1 else 1 in
    let s2 := if startsWith s1 "+" || startsWith s1 "-" then drop 1 s1 else s1 in
    sign * mathInt 10 (digitsPrefix 10 s2)
  else 0.

(** The Number for the decimal value [m * 10^e]: an infinity when the value
    reaches [2^1024 - 2^970], from where the doubles round to an infinity. *)
Definition toFloat (m e : Z) : float :=
  let bound := 2 ^ 1024 - 2 ^ 970 in
  let beyond :=
    if 0 <=? e then bound <=? Z.abs m * 10 ^ e
    else bound * 10 ^ (- e) <=? Z.abs m in
  if beyond then FInfinity (m <? 0) else FDec m e.

(** [parseFloat(string)]: the longest prefix that is a StrDecimalLiteral. *)
Definition parseFloat (input : string) : float :=
  let S0 := trimStart input in
  let neg := startsWith S0 "-" in
  let S1 := if startsWith S0 "+" || startsWith S0 "-" then drop 1 S0 else S0 in
  if startsWith S1 "Infinity" then FInfinity neg
  else
    let ip := digitsPrefix 10 S1 in
    let S2 := drop (List.length ip) S1 in
    let fp := if startsWith S2 "." then digitsPrefix 10 (drop 1 S2) else [] in
    let S3 := if startsWith S2 "." then drop (S (List.length fp)) S2 else S2 in
    match (ip ++ fp)%list with
    | [] => FNaN
    | ds =>
        toFloat ((if neg then -1 else 1) * mathInt 10 ds)
                (exponentPart S3 - Z.of_nat (List.length fp))
    end.

(** ** The DOM *)

(** An element with its tag name, its attributes and its child nodes; a
    child is an element or a text node. *)
#[local] Unset Elimination Schemes.
Inductive element : Type :=
| Element (tagName : string) (attributes : list (string * string))
          (childNodes : list (element + string)).
#[local] Set Elimination Schemes.

(** A document is the list of its child nodes (the root element, for a
    well-formed document). *)
Definition document : Type := list (element + string).

Definition tagName (e : element) : string :=
  match e with Element t _ _ => t end.
Definition attributes (e : element) : list (string * string) :=
  match e with Element _ a _ => a end.
Definition childNodes (e : element) : list (element + string) :=
  match e with Element _ _ c => c end.

(** [e.getAttribute(name)]: the value, or [null]. *)
Definition getAttribute (e : element) (name : string) : jsstr :=
  match find (fun kv => String.eqb (fst kv) name) (attributes e) with
  | Some kv => Str (snd kv)
  | None => Null
  end.

(** The elements of a subtree, root first, in tree order. *)
Fixpoint subtree (e : element) : list element :=
  match e with
  | Element _ _ cs =>
      e :: flat_map (fun c => match c with
                              | inl e' => subtree e'
                              | inr _ => []
                              end) cs
  end.

Definition subtrees (cs : list (element + string)) : list element :=
  flat_map (fun c => match c with inl e => subtree e | inr _ => [] end) cs.

(** The proper descendants of an element, in tree order. *)
Definition descendants (e : element) : list element := subtrees (childNodes e).

(** Text of a subtree: the text nodes, concatenated in tree order. *)
Fixpoint textContent (e : element) : string :=
  match e with
  | Element _ _ cs =>
      fold_right (fun c acc => match c with
                               | inl e' => String.append (textContent e') acc
                               | inr t => String.append t acc
                               end) EmptyString cs
  end.

Definition hasTag (tag : string) (e : element) : bool := String.eqb (tagName e) tag.

(** [node.querySelectorAll(tag)] for a type selector, on the elements
    below [node]. *)
Definition querySelectorAll (below : list element) (tag : string) : list element :=
  List.filter (hasTag tag) below.

(** [node.querySelector(tag)]: the first match in tree order, or [null]. *)
Definition querySelector (below : list element) (tag : string) : option element :=
  head (querySelectorAll below tag).

(** ToBoolean on the result of [querySelector]. *)
Definition found (r : option element) : bool :=
  match r with
  | Some _ => true
  | None => false
  end.

(** A method call on the result of [querySelector]: throws on [null]. *)
Definition deref (recv : option element) (method : string) : exn element :=
  match recv with
  | Some e => Ret e
  | None => Throw (TypeError (String.append "Cannot read properties of null (reading '"
                                (String.append method "')")))
  end.

(** ** The data model *)

(** One testcase of a report; [message] and [details] are [Undefined]
    when the object has no such property. *)
Module TestCase.
Record t : Type := mk {
  classname : jsstr;
  name : jsstr;
  time : float;
  status : string;
  message : jsstr;
  details : jsstr
}.
Definition set_status (v : string) (tc : t) : t :=
  mk (classname tc) (name tc) (time tc) v (message tc) (details tc).
Definition set_message (v : jsstr) (tc : t) : t :=
  mk (classname tc) (name tc) (time tc) (status tc) v (details tc).
Definition set_details (v : jsstr) (tc : t) : t :=
  mk (classname tc) (name tc) (time tc) (status tc) (message tc) v.
End TestCase.

(** The object [parseTestReport] returns; [firmware_version] is
    [Undefined] when the property was never set. *)
Module TestReport.
Record t : Type := mk {
  tests : number;
  failures : number;
  errors : number;
  skipped : number;
  time : float;
  timestamp : jsstr;
  testcases : list TestCase.t;
  firmware_version : jsstr;
  passed : number
}.
End TestReport.

(** A device of the inventory.  [device] and [version_name] are the
    fields the inventory always gives; the others may be missing;
    [report] is [None] for [null] and before the first load. *)
Module Device.
Record t : Type := mk {
  device : string;
  name : jsstr;
  version_name : string;
  target : jsstr;
  proxy : jsstr;
  status : jsstr;
  report : option TestReport.t
}.
(** [device.report = r] *)
Definition set_report (r : option TestReport.t) (d : t) : t :=
  mk (device d) (name d) (version_name d) (target d) (proxy d) (status d) r.
End Device.

(** ** parseTestReport *)

(** [forEach] over a node list, for a callback that updates a captured
    variable. *)
Definition forEach {A S : Type} (l : list A) (f : S -> A -> S) (init : S) : S :=
  fold_left f l init.

(** [forEach] for a callback that can throw. *)
Fixpoint forEachM {A S : Type} (l : list A) (f : S -> A -> exn S) (init : S) : exn S :=
  match l with
  | [] => Ret init
  | x :: l' => s ← f init x; forEachM l' f s
  end.

(** The callback of [testcases.forEach], up to the [push]
    (devices.js, lines 122-142). *)
Definition parseTestcase (testcase : element) : exn TestCase.t :=
  let tc :=
    TestCase.mk (getAttribute testcase "classname")
                (getAttribute testcase "name")
                (parseFloat (or_str (getAttribute testcase "time") "0"))
                "passed" Undefined Undefined in
  if found (querySelector (descendants testcase) "failure") then
    let tc := TestCase.set_status "failed" tc in
    f ← deref (querySelector (descendants testcase) "failure") "getAttribute";
    let tc := TestCase.set_message (getAttribute f "message") tc in
    f' ← deref (querySelector (descendants testcase) "failure") "textContent";
    let failureText := textContent f' in
    Ret (if truthy (Str failureText)
         then TestCase.set_details (Str (trim failureText)) tc
         else tc)
  else if found (querySelector (descendants testcase) "error") then
    let tc := TestCase.set_status "error" tc in
    e ← deref (querySelector (descendants testcase) "error") "getAttribute";
    let tc := TestCase.set_message (getAttribute e "message") tc in
    e' ← deref (querySelector (descendants testcase) "error") "textContent";
    let errorText := textContent e' in
    Ret (if truthy (Str errorText)
         then TestCase.set_details (Str (trim errorText)) tc
         else tc)
  else if found (querySelector (descendants testcase) "skipped") then
    let tc := TestCase.set_status "skipped" tc in
    s ← deref (querySelector (descendants testcase) "skipped") "getAttribute";
    Ret (TestCase.set_message (getAttribute s "message") tc)
  else Ret tc.

(** The callback of [properties.forEach] (lines 109-113); the captured
    variable is [report.firmware_version]. *)
Definition readProperty (firmware_version : jsstr) (property : element) : jsstr :=
  if strict_eq (getAttribute property "name") "firmware_version"
  then getAttribute property "value"
  else firmware_version.

(** [parseTestReport] from the parsed document on (lines 92-147). *)
Definition parseDocument (xmlDoc : document) : exn (option TestReport.t) :=
  match querySelector (subtrees xmlDoc) "testsuite" with
  | None => Ret None
  | Some testsuite =>
      let tests := parseInt (or_str (getAttribute testsuite "tests") "0") in
      let failures := parseInt (or_str (getAttribute testsuite "failures") "0") in
      let errors := parseInt (or_str (getAttribute testsuite "errors") "0") in
      let skipped := parseInt (or_str (getAttribute testsuite "skipped") "0") in
      let time := parseFloat (or_str (getAttribute testsuite "time") "0") in
      let timestamp := getAttribute testsuite "timestamp" in
      let properties := querySelectorAll (subtrees xmlDoc) "property" in
      let firmware_version := forEach properties readProperty Undefined in
      let passed := jssub (jssub (jssub tests failures) errors) skipped in
      let testcases := querySelectorAll (subtrees xmlDoc) "testcase" in
      tcs ← forEachM testcases
             (fun acc testcase => tc ← parseTestcase testcase; Ret (acc ++ [tc])%list) [];
      Ret (Some (TestReport.mk tests failures errors skipped time timestamp
                               tcs firmware_version passed))
  end.

(** [parseTestReport(xmlText)]; [parseFromString] is the browser's
    [DOMParser] for "text/xml", which returns a document for every text. *)
Definition parseTestReport (parseFromString : string -> document) (xmlText : string)
  : exn (option TestReport.t) :=
  parseDocument (parseFromString xmlText).

(** ** DeviceManager *)

Module DeviceManager.
Record t : Type := mk {
  baseUrl : string;
  version : string;
  devicesData : list Device.t;
  filteredDevices : list Device.t;
  searchTerm : string;
  filterType : string
}.
Definition set_devicesData (ds : list Device.t) (m : t) : t :=
  mk (baseUrl m) (version m) ds (filteredDevices m) (searchTerm m) (filterType m).
End DeviceManager.

(** [getResourceUrl(path)] *)
Definition getResourceUrl (this : DeviceManager.t) (path : string) : string :=
  let versionPath :=
    if truthy (Str (DeviceManager.version this))
    then String.append (DeviceManager.version this) "/"
    else "" in
  String.append (DeviceManager.baseUrl this)
    (String.append "/" (String.append versionPath path)).

(** *** updateStats *)

Module Stats.
Record t : Type := mk {
  total : number;
  online : number;
  totalTests : number;
  passed : number;
  failed : number;
  skipped : number
}.
End Stats.

(** The callback of [devicesData.forEach] in [updateStats]
    (lines 163-170). *)
Definition addDevice (stats : Stats.t) (device : Device.t) : Stats.t :=
  match Device.report device with
  | Some report =>
      Stats.mk (Stats.total stats) (Stats.online stats)
        (jsadd (Stats.totalTests stats) (TestReport.tests report))
        (jsadd (Stats.passed stats) (TestReport.passed report))
        (jsadd (Stats.failed stats)
               (jsadd (TestReport.failures report) (TestReport.errors report)))
        (jsadd (Stats.skipped stats) (TestReport.skipped report))
  | None => stats
  end.

(** [updateStats()]: the statistics it computes and hands to the page. *)
Definition updateStats (this : DeviceManager.t) : Stats.t :=
  let devicesData := DeviceManager.devicesData this in
  let stats :=
    Stats.mk (Num (Z.of_nat (List.length devicesData)))
             (Num (Z.of_nat (List.length
                (List.filter (fun d => strict_eq (Device.status d) "online") devicesData))))
             (Num 0) (Num 0) (Num 0) (Num 0) in
  forEach devicesData addDevice stats.

(** *** filterDevices *)

(** [Array.prototype.filter] for a callback that can throw. *)
Fixpoint filterM {A : Type} (f : A -> exn bool) (l : list A) : exn (list A) :=
  match l with
  | [] => Ret []
  | x :: l' =>
      keep ← f x;
      rest ← filterM f l';
      Ret (if keep : bool then x :: rest else rest)
  end.

(** The callback of [devicesData.filter] (lines 238-253), with the
    short-circuit evaluation of [||] and [&&]. *)
Definition matchesDevice (searchTerm filterType : string) (device : Device.t) : exn bool :=
  id ← toLowerCase (Str (Device.device device));
  term ← toLowerCase (Str searchTerm);
  matchesSearch ←
    (if includes id term then Ret true
     else if truthy (Device.name device) then
       nm ← toLowerCase (Device.name device);
       term' ← toLowerCase (Str searchTerm);
       Ret (includes nm term')
     else Ret false);
  let matchesFilter :=
    String.eqb filterType "all" ||
    (String.eqb filterType "failed" &&
     match Device.report device with
     | Some report =>
         jsgt (TestReport.failures report) (Num 0) ||
         jsgt (TestReport.errors report) (Num 0)
     | None => false
     end) in
  Ret (matchesSearch && matchesFilter).

(** [filterDevices(searchTerm, filterType)] *)
Definition filterDevices (this : DeviceManager.t) (searchTerm filterType : string)
  : exn DeviceManager.t :=
  filtered ← filterM (matchesDevice searchTerm filterType) (DeviceManager.devicesData this);
  Ret (DeviceManager.mk (DeviceManager.baseUrl this) (DeviceManager.version this)
         (DeviceManager.devicesData this) filtered searchTerm filterType).

(** *** loadDevices *)

(** What [fetch] resolves with; [body] is what [text()] or [json()] then
    gives, a value or a rejection. *)
Record response (B : Type) : Type := mkResponse {
  ok : bool;
  status : Z;
  statusText : string;
  body : exn B
}.
Arguments mkResponse {B} ok status statusText body.
Arguments ok {B} r.
Arguments status {B} r.
Arguments statusText {B} r.
Arguments body {B} r.

(** The outcome of one [fetch]: a response, or a rejection. *)
Definition fetched (B : Type) : Type := exn (response B).

(** [try { m } catch (error) { h error }] *)
Definition try_catch {A : Type} (m : exn A) (h : error -> exn A) : exn A :=
  match m with
  | Ret a => Ret a
  | Throw e => h e
  end.

(** [Promise.all] over promises that have settled. *)
Fixpoint all {A : Type} (ps : list (exn A)) : exn (list A) :=
  match ps with
  | [] => Ret []
  | p :: ps' => a ← p; rest ← all ps'; Ret (a :: rest)
  end.

Definition showZ (z : Z) : string := NilZero.string_of_int (Z.to_int z).

Section Loading.

(** The browser's XML parser. *)
Variable parseFromString : string -> document.

(** The outcome of the report request of the [i]-th device, sent to a
    given URL. *)
Variable net : nat -> string -> fetched string.

Variable this : DeviceManager.t.

Definition reportUrl (device : Device.t) : string :=
  getResourceUrl this
    (String.append "results-"
      (String.append (Device.device device)
        (String.append "-"
          (String.append (Device.version_name device) "/report.xml")))).

(** The callback of [devicesData.map] (lines 40-59), run to its end. *)
Definition loadReport (i : nat) (device : Device.t) : exn Device.t :=
  try_catch
    (reportResponse ← net i (reportUrl device);
     if negb (ok reportResponse) then Ret (Device.set_report None device)
     else
       reportText ← body reportResponse;
       report ← parseTestReport parseFromString reportText;
       Ret (Device.set_report report device))
    (fun error => Ret (Device.set_report None device)).

(** The same callback between its suspension points: waiting for
    [fetch], waiting for [text()], or settled. *)
Inductive task : Type :=
| AwaitFetch (device : Device.t)
| AwaitText (device : Device.t) (reportResponse : response string)
| Settled (result : exn Device.t).

Definition settled (t : task) : bool :=
  match t with
  | Settled _ => true
  | _ => false
  end.

(** Resuming a task at its suspension point. *)
Definition resume (i : nat) (t : task) : task :=
  match t with
  | AwaitFetch device =>
      match net i (reportUrl device) with
      | Throw error => Settled (Ret (Device.set_report None device))
      | Ret reportResponse =>
          if negb (ok reportResponse)
          then Settled (Ret (Device.set_report None device))
          else AwaitText device reportResponse
      end
  | AwaitText device reportResponse =>
      match body reportResponse with
      | Throw error => Settled (Ret (Device.set_report None device))
      | Ret reportText =>
          match parseTestReport parseFromString reportText with
          | Throw error => Settled (Ret (Device.set_report None device))
          | Ret report => Settled (Ret (Device.set_report report device))
          end
      end
  | Settled r => Settled r
  end.

(** One step of the event loop: some task that is not settled resumes. *)
Inductive step : list task -> list task -> Prop :=
| step_resume (ts : list task) (i : nat) (t : task) :
    ts !! i = Some t ->
    settled t = false ->
    step ts (<[i := resume i t]> ts).

Inductive steps : list task -> list task -> Prop :=
| steps_refl ts : steps ts ts
| steps_step ts ts' ts'' : step ts ts' -> steps ts' ts'' -> steps ts ts''.

Definition result_of (t : task) : exn Device.t :=
  match t with
  | Settled r => r
  | _ => Throw (Error "pending")
  end.

(** [loadDevices()]: the manager afterwards and the statistics shown;
    the value returned to the caller is the manager's [devicesData].
    The callbacks write each report into a device object of [devicesData]
    (the objects [response.json()] made, all distinct) and return that
    object, so the list after [Promise.all] is the list of what they
    returned. *)
Definition loadDevices (inventory : fetched (list Device.t))
  : exn (DeviceManager.t * Stats.t) :=
  try_catch
    (inventoryResponse ← inventory;
     if negb (ok inventoryResponse) then
       Throw (Error (String.append "Failed to load devices.json: "
                       (String.append (showZ (status inventoryResponse))
                          (String.append " " (statusText inventoryResponse)))))
     else
       devicesData ← body inventoryResponse;
       devices ← all (imap loadReport devicesData);
       let this' := DeviceManager.set_devicesData devices this in
       let stats := updateStats this' in
       this'' ← filterDevices this' (DeviceManager.searchTerm this')
                                    (DeviceManager.filterType this');
       Ret (this'', stats))
    (fun error => Throw error).

End Loading.

(** ** Notions the properties are stated with *)

Definition isDigit (c : ascii) : bool := (48 <=? code c) && (code c <=? 57).

Fixpoint allDigits (s : string) : bool :=
  match s with
  | EmptyString => true
  | String c r => isDigit c && allDigits r
  end.

(** No decimal digit anywhere: the string is not numeric in any reading. *)
Fixpoint noDigit (s : string) : bool :=
  match s with
  | EmptyString => true
  | String c r => negb (isDigit c) && noDigit r
  end.

(** The value of a string of decimal digits, by positions. *)
Fixpoint decimalValue (s : string) : Z :=
  match s with
  | EmptyString => 0
  | String c r => (code c - 48) * 10 ^ Z.of_nat (String.length r) + decimalValue r
  end.

Definition digitString (s : string) : option Z :=
  match s with
  | EmptyString => None
  | _ => if allDigits s then Some (decimalValue s) else None
  end.

(** A numeric count: decimal digits with an optional sign, and its value. *)
Definition intLiteral (s : string) : option Z :=
  match s with
  | EmptyString => None
  | String c ds =>
      if Ascii.eqb c "-" then Z.opp <$> digitString ds
      else if Ascii.eqb c "+" then digitString ds
      else digitString s
  end.

(** [s] contains [t] as a substring, up to the case of letters. *)
Definition containsCI (s t : string) : Prop :=
  exists pre mid post, s = pre ++ mid ++ post /\ lower mid = lower t.

(** The sum of a list of JavaScript numbers as a loop computes it: from 0,
    adding the numbers in their order, each addition rounded. *)
Definition sumNumbers (l : list number) : number := fold_left jsadd l (Num 0).

(** The sum of a list of integers. *)
Definition sumZ (l : list Z) : Z := fold_right Z.add 0 l.

(** The largest magnitude up to which every integer is a double. *)
Definition maxExact : Z := 2 ^ 53.

(** An element with tag [tag] lies below [e]. *)
Definition hasMarker (tag : string) (e : element) : Prop :=
  exists m, In m (descendants e) /\ tagName m = tag.

(** [m] is the first element with tag [tag] in [l]. *)
Definition firstWith (tag : string) (l : list element) (m : element) : Prop :=
  exists before after,
    l = (before ++ m :: after)%list /\ tagName m = tag /\
    Forall (fun x => tagName x <> tag) before.

(** [m] is the last element of [l] that satisfies [p]. *)
Definition lastWith (p : element -> bool) (l : list element) (m : element) : Prop :=
  exists before after,
    l = (before ++ m :: after)%list /\ p m = true /\
    Forall (fun x => p x = false) after.

(** The document holds an element with tag [tag]. *)
Definition containsElement (tag : string) (xmlDoc : document) : Prop :=
  exists e, In e (subtrees xmlDoc) /\ tagName e = tag.

(** The number [n] is the integer [z] as a Number: the double nearest to
    [z], which is [z] itself up to 2^53 in magnitude. *)
Definition readsAs (n : number) (z : Z) : Prop :=
  n = roundDouble z /\ (Z.abs z <= maxExact -> n = Num z).

(** How a count is read from its attribute: 0 when the attribute is absent
    or empty; when it is numeric, its value as a Number; [NaN] when it
    has no digit. *)
Definition countReads (attr : jsstr) (n : number) : Prop :=
  match attr with
  | Str s =>
      (s = "" -> n = Num 0) /\
      (forall z, intLiteral s = Some z -> readsAs n z) /\
      (s <> "" -> noDigit s = true -> n = NaN)
  | _ => n = Num 0
  end.

(** The text spells an infinity: after leading white space, the word
    Infinity with an optional sign before it; the result tells whether
    the sign is a minus. *)
Definition spellsInfinity (s : string) : option bool :=
  let t := trimStart s in
  if startsWith t "Infinity" || startsWith t "+Infinity" then Some false
  else if startsWith t "-Infinity" then Some true
  else None.

(** How a duration is read: zero when the attribute is absent or empty;
    when it has no digit, [NaN], or the infinity that the text spells. *)
Definition timeReads (attr : jsstr) (t : float) : Prop :=
  match attr with
  | Str s =>
      (s = "" -> t = FDec 0 0) /\
      (s <> "" -> noDigit s = true ->
         t = match spellsInfinity s with
             | Some negative => FInfinity negative
             | None => FNaN
             end)
  | _ => t = FDec 0 0
  end.

(** A count attribute that is absent or numeric. *)
Definition absentOrNumeric (attr : jsstr) : Prop :=
  match attr with
  | Str s => exists z, intLiteral s = Some z
  | _ => True
  end.

(** The integer that a count attribute stands for when it is absent (0)
    or numeric. *)
Definition countValue (attr : jsstr) : option Z :=
  match attr with
  | Str s => intLiteral s
  | _ => Some 0
  end.

(** The four counts, the partial results of
    [tests - failures - errors - skipped] and those of
    [passed + failures + errors + skipped] are all at most 2^53 in
    magnitude, so that each of them is a double. *)
Definition exactlyComputed (t f e s : Z) : Prop :=
  Z.abs t <= maxExact /\ Z.abs f <= maxExact /\ Z.abs e <= maxExact /\
  Z.abs s <= maxExact /\
  Z.abs (t - f) <= maxExact /\ Z.abs (t - f - e) <= maxExact /\
  Z.abs (t - f - e - s) <= maxExact /\
  Z.abs (t - e - s) <= maxExact /\ Z.abs (t - s) <= maxExact.

(** A count attribute that is absent, empty or the numeral zero. *)
Definition absentOrZero (attr : jsstr) : Prop :=
  match attr with
  | Str s => s = "" \/ intLiteral s = Some 0
  | _ => True
  end.

(** ** Sample documents *)

(** The report of the scenario in the specification: three tests, one
    failure, one testcase with a failure marker. *)
Definition scenario_suite : element :=
  Element "testsuite"
    [("tests", "3"); ("failures", "1"); ("errors", "0"); ("skipped", "0")]
    [inl (Element "testcase" [("classname", "tests.test_base"); ("name", "test_boot")]
       [inl (Element "failure" [("message", "boom")] [])])].

Definition scenario_doc : document := [inl scenario_suite].

(** A suite whose [tests] count and [time] are words. *)
Definition words_suite : element :=
  Element "testsuite" [("tests", "abc"); ("time", "soon")] [].

Definition words_doc : document := [inl words_suite].

(** A suite that announces five tests and holds no testcase. *)
Definition five_suite : element := Element "testsuite" [("tests", "5")] [].

Definition five_doc : document := [inl five_suite].

(** A report with two firmware_version properties. *)
Definition first_property : element :=
  Element "property" [("name", "firmware_version"); ("value", "23.05.0")] [].

Definition second_property : element :=
  Element "property" [("name", "firmware_version"); ("value", "24.10.1")] [].

Definition two_versions_doc : document :=
  [inl (Element "testsuite" [("tests", "0")]
     [inl (Element "properties" [] [inl first_property; inl second_property])])].

(** A failure marker that holds only white space, and a skipped marker
    that holds a reason. *)
Definition blank_failure : element := Element "failure" [("message", "m")] [inr "   "].

Definition blank_failure_case : element :=
  Element "testcase" [("name", "t1")] [inl blank_failure].

Definition reasoned_skip : element :=
  Element "skipped" [("message", "m")] [inr " no wifi "].

Definition reasoned_skip_case : element :=
  Element "testcase" [("name", "t2")] [inl reasoned_skip].

Definition markers_doc : document :=
  [inl (Element "testsuite" [("tests", "2")]
     [inl blank_failure_case; inl reasoned_skip_case])].

(** ** Notions about testcases and properties *)

(** The status the first-match order failure, error, skipped gives. *)
Definition statusOf (testcase : element) (st : string) : Prop :=
  (hasMarker "failure" testcase -> st = "failed") /\
  (~ hasMarker "failure" testcase -> hasMarker "error" testcase -> st = "error") /\
  (~ hasMarker "failure" testcase -> ~ hasMarker "error" testcase ->
   hasMarker "skipped" testcase -> st = "skipped") /\
  (~ hasMarker "failure" testcase -> ~ hasMarker "error" testcase ->
   ~ hasMarker "skipped" testcase -> st = "passed").

(** The details a failure or error marker gives: its trimmed text, and no
    field at all when it has no text. *)
Definition detailsFrom (m : element) : jsstr :=
  match textContent m with
  | EmptyString => Undefined
  | text => Str (trim text)
  end.

(** Message and details come from the matched marker: the first failure
    element, else the first error element, else the first skipped element,
    which gives a message only. *)
Definition markerOf (testcase : element) (tc : TestCase.t) : Prop :=
  (forall m, firstWith "failure" (descendants testcase) m ->
     TestCase.message tc = getAttribute m "message" /\
     TestCase.details tc = detailsFrom m) /\
  (~ hasMarker "failure" testcase ->
   forall m, firstWith "error" (descendants testcase) m ->
     TestCase.message tc = getAttribute m "message" /\
     TestCase.details tc = detailsFrom m) /\
  (~ hasMarker "failure" testcase -> ~ hasMarker "error" testcase ->
   forall m, firstWith "skipped" (descendants testcase) m ->
     TestCase.message tc = getAttribute m "message" /\
     TestCase.details tc = Undefined) /\
  (~ hasMarker "failure" testcase -> ~ hasMarker "error" testcase ->
   ~ hasMarker "skipped" testcase ->
     TestCase.message tc = Undefined /\ TestCase.details tc = Undefined).

(** A property element named firmware_version. *)
Definition isFirmwareProperty (p : element) : bool :=
  match getAttribute p "name" with
  | Str n => String.eqb n "firmware_version"
  | _ => false
  end.

(** ** Notions about devices *)

Lemma jsstr_eq_dec (a b : jsstr) : {a = b} + {a <> b}.
Proof. decide equality. apply string_dec. Defined.

(** The number of devices whose status is "online". *)
Fixpoint onlineCount (ds : list Device.t) : Z :=
  match ds with
  | [] => 0
  | d :: ds' =>
      (if jsstr_eq_dec (Device.status d) (Str "online") then 1 else 0) + onlineCount ds'
  end.

(** The reports of the devices that have one, in order. *)
Definition reports (ds : list Device.t) : list TestReport.t := omap Device.report ds.

(** The device matches the search term: its identifier or its display
    name contains the term, up to case. *)
Definition searchMatches (d : Device.t) (term : string) : Prop :=
  containsCI (Device.device d) term \/
  exists n, Device.name d = Str n /\ containsCI n term.

(** The device matches the filter type. *)
Definition typeMatches (d : Device.t) (filterType : string) : Prop :=
  filterType = "all" \/
  (filterType = "failed" /\
   exists r, Device.report d = Some r /\
     (jsgt (TestReport.failures r) (Num 0) = true \/
      jsgt (TestReport.errors r) (Num 0) = true)).

(** What the filter callback returns when it does not throw. *)
Definition keepsDevice (searchTerm filterType : string) (d : Device.t) : bool :=
  (includes (lower (Device.device d)) (lower searchTerm) ||
   match Device.name d with
   | Str n => includes (lower n) (lower searchTerm)
   | _ => false
   end) &&
  (String.eqb filterType "all" ||
   (String.eqb filterType "failed" &&
    match Device.report d with
    | Some r => jsgt (TestReport.failures r) (Num 0) || jsgt (TestReport.errors r) (Num 0)
    | None => false
    end)).

(** ** Notions about loading *)

(** The report a device ends with, given the outcome of its request: the
    parsed body of a successful response, [null] in every other case. *)
Definition reportOutcome (parseFromString : string -> document) (outcome : fetched string)
  : option TestReport.t :=
  match outcome with
  | Ret reportResponse =>
      if ok reportResponse then
        match body reportResponse with
        | Ret reportText =>
            match parseTestReport parseFromString reportText with
            | Ret report => report
            | Throw _ => None
            end
        | Throw _ => None
        end
      else None
  | Throw _ => None
  end.

(** The request of a report failed: a transport error, a non-success
    response, a body that cannot be read, or a body that does not parse to
    a report. *)
Definition fetchFailed (parseFromString : string -> document) (outcome : fetched string)
  : Prop :=
  (exists e, outcome = Throw e) \/
  (exists reportResponse,
     outcome = Ret reportResponse /\
     (ok reportResponse = false \/
      (exists e, body reportResponse = Throw e) \/
      (exists reportText,
         body reportResponse = Ret reportText /\
         (parseTestReport parseFromString reportText = Ret None \/
          exists e, parseTestReport parseFromString reportText = Throw e)))).

(** The number of suspension points a task still has to pass. *)
Definition pending (t : task) : nat :=
  match t with
  | AwaitFetch _ => 2
  | AwaitText _ _ => 1
  | Settled _ => 0
  end.

Definition pendingAll (ts : list task) : nat := list_sum (pending <$> ts).

(** ** A sample load *)

(** Two devices; the report of the first is missing on the server (404),
    the second has the report of the scenario. *)
Definition sample_manager : DeviceManager.t :=
  DeviceManager.mk "https://example.org/openwrt-tests" "" [] [] "" "all".

Definition sample_devices : list Device.t :=
  [Device.mk "ar71xx-1" (Str "name:AR71xx") "v1" Undefined Undefined (Str "online") None;
   Device.mk "x86-64" Undefined "v1" Undefined Undefined (Str "offline") None].

Definition sample_inventory : response (list Device.t) :=
  mkResponse true 200 "OK" (Ret sample_devices).

Definition sample_net (i : nat) (url : string) : fetched string :=
  if String.eqb url "https://example.org/openwrt-tests/results-x86-64-v1/report.xml"
  then Ret (mkResponse true 200 "OK" (Ret "<testsuite .../>"))
  else Ret (mkResponse false 404 "Not Found" (Ret "")).

Definition sample_parser (xmlText : string) : document :=
  if String.eqb xmlText "<testsuite .../>" then scenario_doc else [].

(** A manager that holds one device whose report has a [tests] count that
    is not a number, and one device with the report of the scenario. *)
Definition words_report : TestReport.t :=
  TestReport.mk NaN (Num 0) (Num 0) (Num 0) FNaN Null [] Undefined NaN.

Definition scenario_result : TestReport.t :=
  TestReport.mk (Num 3) (Num 1) (Num 0) (Num 0) (FDec 0 0) Null
    [TestCase.mk (Str "tests.test_base") (Str "test_boot") (FDec 0 0)
                 "failed" (Str "boom") Undefined]
    Undefined (Num 2).

Definition mixed_manager : DeviceManager.t :=
  DeviceManager.mk "https://example.org/openwrt-tests" ""
    [Device.mk "ar71xx-1" (Str "name:AR71xx") "v1" Undefined Undefined (Str "online")
               (Some words_report);
     Device.mk "x86-64" Undefined "v1" Undefined Undefined (Str "offline")
               (Some scenario_result)]
    [] "" "all".

(** ** Utils: escapeHtml, parseAnsiCodes; formatTestMessage *)

(** [Utils.escapeHtml(text)]: the text is set as the content of a fresh
    element and read back as markup, which writes [&], [<], [>] and the
    no-break space as character references and every other character as
    it is. *)
Definition escapeChar (c : ascii) : string :=
  if Ascii.eqb c "&" then "&amp;"
  else if Ascii.eqb c "<" then "&lt;"
  else if Ascii.eqb c ">" then "&gt;"
  else if Ascii.eqb c "160" then "&nbsp;"
  else String c EmptyString.

Fixpoint escapeHtml (text : string) : string :=
  match text with
  | EmptyString => EmptyString
  | String c r => escapeChar c ++ escapeHtml r
  end.

(** The double quote, as a string. *)
Definition dq : string := String "034" EmptyString.

(** [s.split(sep)] for a separator of one character. *)
Fixpoint split (sep : ascii) (s : string) : list string :=
  match s with
  | EmptyString => [EmptyString]
  | String c r =>
      if Ascii.eqb c sep then EmptyString :: split sep r
      else match split sep r with
           | h :: t => String c h :: t
           | [] => [String c EmptyString]
           end
  end.

(** [Number(s)] on a string of decimal digits, the only strings the
    pattern of [parseAnsiCodes] hands over: the empty string is 0. *)
Definition toNumber (s : string) : number :=
  if allDigits s then roundDouble (mathInt 10 (digitsPrefix 10 s)) else NaN.

(** The longest prefix of digits and semicolons: what the starred class
    of [ansiRegex] takes. *)
Fixpoint codesPrefix (s : string) : string :=
  match s with
  | EmptyString => EmptyString
  | String c r =>
      if isDigit c || Ascii.eqb c ";" then String c (codesPrefix r) else EmptyString
  end.

(** A match of [ansiRegex] (the escape character, an opening bracket, a
    captured run of digits and semicolons, the letter m) at the start of
    [s]: the captured codes and the rest of the string after the match.
    The star takes the whole run of digits and semicolons; giving some
    back cannot help, since the character that must follow is [m]. *)
Definition matchAnsi (s : string) : option (string * string) :=
  match s with
  | String e (String b r) =>
      if Ascii.eqb e "027" && Ascii.eqb b "[" then
        match drop (String.length (codesPrefix r)) r with
        | String m rest => if Ascii.eqb m "m" then Some (codesPrefix r, rest) else None
        | EmptyString => None
        end
      else None
  | _ => None
  end.

Definition colors : list string :=
  ["black"; "red"; "green"; "yellow"; "blue"; "magenta"; "cyan"; "white"].

Definition brightColors : list string :=
  ["bright-black"; "bright-red"; "bright-green"; "bright-yellow"; "bright-blue";
   "bright-magenta"; "bright-cyan"; "bright-white"].

(** [table[i]] *)
Definition at_index (table : list string) (i : Z) : string :=
  nth (Z.to_nat i) table "undefined".

(** The opening tag written for a class. *)
Definition spanOpen (cls : string) : string :=
  "<span class=" ++ dq ++ "ansi-" ++ cls ++ dq ++ ">".

(** [openTags.reverse().map(() => "</span>").join("")] *)
Definition closeAll (openTags : list string) : string :=
  fold_right (fun _ acc => "</span>" ++ acc) EmptyString (rev openTags).

(** The body of the loop over the codes of one sequence (lines 704-745);
    the state is [result] and [openTags]. *)
Definition applyCode (st : string * list string) (code : number) : string * list string :=
  let '(result, openTags) := st in
  match code with
  | NaN | Infinity _ => st
  | Num z =>
      if z =? 0 then (result ++ closeAll openTags, [])
      else if z =? 1 then (result ++ spanOpen "bold", (openTags ++ ["bold"])%list)
      else if z =? 3 then (result ++ spanOpen "italic", (openTags ++ ["italic"])%list)
      else if z =? 4 then (result ++ spanOpen "underline", (openTags ++ ["underline"])%list)
      else if (30 <=? z) && (z <=? 37) then
        (result ++ spanOpen (at_index colors (z - 30)), (openTags ++ ["color"])%list)
      else if (90 <=? z) && (z <=? 97) then
        (result ++ spanOpen (at_index brightColors (z - 90)),
         (openTags ++ ["bright-color"])%list)
      else st
  end.

(** The replacement callback (lines 698-748): what replaces the match, and
    [openTags] afterwards. *)
Definition replacer (codes : string) (openTags : list string) : string * list string :=
  if truthy (Str codes)
  then fold_left applyCode (toNumber <$> split ";" codes) (EmptyString, openTags)
  else (EmptyString, openTags).

Lemma drop_length (n : nat) (s : string) :
  (String.length (drop n s) <= String.length s)%nat.
Proof.
  revert s; induction n as [|n IH]; intros [|c s]; simpl; try lia.
  specialize (IH s). lia.
Qed.

Lemma matchAnsi_shorter (s codes rest : string) :
  matchAnsi s = Some (codes, rest) -> (String.length rest < String.length s)%nat.
Proof.
  destruct s as [|e [|b r]]; try discriminate. simpl.
  destruct (Ascii.eqb e "027" && Ascii.eqb b "["); [|discriminate].
  pose proof (drop_length (String.length (codesPrefix r)) r) as H.
  destruct (drop _ r) as [|m rest']; [discriminate |].
  destruct (Ascii.eqb m "m"); [|discriminate]. intros [= _ <-]. simpl in H. lia.
Qed.

Definition inspect {A : Type} (a : A) : {b : A | a = b} := exist _ a eq_refl.

(** [html.replace(ansiRegex, callback)] with the global flag: the string
    is read from left to right; where the pattern matches, the callback's
    result is written and reading goes on after the match; elsewhere the
    character is copied. *)
Equations? replaceAnsi (s : string) (openTags : list string) : string * list string
  by wf (String.length s) lt :=
replaceAnsi EmptyString openTags := (EmptyString, openTags);
replaceAnsi (String c r) openTags with inspect (matchAnsi (String c r)) := {
  | exist _ (Some (codes, rest)) H =>
      let '(out, tags) := replacer codes openTags in
      let '(more, tags') := replaceAnsi rest tags in
      (out ++ more, tags')
  | exist _ None _ =>
      let '(more, tags') := replaceAnsi r openTags in
      (String c more, tags') }.
Proof.
  exact (matchAnsi_shorter (String c r) codes rest H).
Qed.

(** [Utils.parseAnsiCodes(text)] *)
Definition parseAnsiCodes (text : string) : string :=
  if truthy (Str text) then
    let '(html, openTags) := replaceAnsi text [] in
    html ++ closeAll openTags
  else EmptyString.

(** [formatTestMessage(message)] *)
Definition formatTestMessage (message : string) : string :=
  if truthy (Str message) then parseAnsiCodes (escapeHtml message) else EmptyString.

(** A message with bold red text and a reset. *)
Definition sample_message : string :=
  "boot " ++ String "027" "[1;31mFAILED" ++ String "027" "[0m <eof>".

(** ** Notions about markup *)

(** No character [c] in the string. *)
Fixpoint lacks (c : ascii) (s : string) : bool :=
  match s with
  | EmptyString => true
  | String x r => negb (Ascii.eqb x c) && lacks c r
  end.

(** The number of characters [c] in the string. *)
Fixpoint countChar (c : ascii) (s : string) : nat :=
  match s with
  | EmptyString => O
  | String x r => ((if Ascii.eqb x c then 1 else 0) + countChar c r)%nat
  end.

(** The tags of the string are well nested when read from depth [depth]:
    every [<] starts a tag, a closing one when a [/] follows; no closing
    tag comes at depth 0 and the end is reached at depth 0. *)
Fixpoint wellNested (depth : Z) (s : string) : bool :=
  match s with
  | EmptyString => depth =? 0
  | String c r =>
      if Ascii.eqb c "<" then
        if startsWith r "/" then (0 <? depth) && wellNested (depth - 1) r
        else wellNested (depth + 1) r
      else wellNested depth r
  end.

(** ** showTestDetails: the groups of testcases *)

(** [s.split(".").pop()] *)
Definition lastSegment (s : string) : string := List.last (split "." s) EmptyString.

(** The names every object inherits from [Object.prototype]: reading one
    of them on [groupedTests] gives a function (or the prototype itself),
    not [undefined]. *)
Definition objectPrototype : list string :=
  ["constructor"; "__defineGetter__"; "__defineSetter__"; "hasOwnProperty";
   "__lookupGetter__"; "__lookupSetter__"; "isPrototypeOf"; "propertyIsEnumerable";
   "toString"; "valueOf"; "__proto__"; "toLocaleString"].

Definition inherited (key : string) : bool := existsb (String.eqb key) objectPrototype.

(** The own property [key] of [groupedTests].  The object is the list of
    its own properties in the order of their creation; the order in which
    [Object.keys] lists them for display (keys that are array indices
    first, in ascending order) is not modelled. *)
Fixpoint own (key : string) (groupedTests : list (string * list TestCase.t))
  : option (list TestCase.t) :=
  match groupedTests with
  | [] => None
  | (k, tests) :: rest => if String.eqb k key then Some tests else own key rest
  end.

(** [groupedTests[key].push(test)] for an own property. *)
Fixpoint pushTo (key : string) (test : TestCase.t)
    (groupedTests : list (string * list TestCase.t)) : list (string * list TestCase.t) :=
  match groupedTests with
  | [] => []
  | (k, tests) :: rest =>
      if String.eqb k key then (k, (tests ++ [test])%list) :: rest
      else (k, tests) :: pushTo key test rest
  end.

(** The callback of [testcases.forEach] in [showTestDetails]
    (lines 409-415). *)
Definition groupTest (groupedTests : list (string * list TestCase.t)) (test : TestCase.t)
  : exn (list (string * list TestCase.t)) :=
  match TestCase.classname test with
  | Str classname =>
      let className := lastSegment classname in
      match own className groupedTests with
      | Some _ => Ret (pushTo className test groupedTests)
      | None =>
          if inherited className
          then Throw (TypeError "groupedTests[className].push is not a function")
          else Ret (groupedTests ++ [(className, [test])])%list
      end
  | _ => Throw (TypeError "Cannot read properties of null (reading 'split')")
  end.

(** The grouping of [showTestDetails] (lines 407-415). *)
Definition groupTests (testcases : list TestCase.t) : exn (list (string * list TestCase.t)) :=
  forEachM testcases groupTest [].

(** The three lists counted in the header of a class (lines 463-467). *)
Definition failedTests (tests : list TestCase.t) : list TestCase.t :=
  List.filter (fun t => String.eqb (TestCase.status t) "failed" ||
                        String.eqb (TestCase.status t) "error") tests.

Definition passedTests (tests : list TestCase.t) : list TestCase.t :=
  List.filter (fun t => String.eqb (TestCase.status t) "passed") tests.

Definition skippedTests (tests : list TestCase.t) : list TestCase.t :=
  List.filter (fun t => String.eqb (TestCase.status t) "skipped") tests.

(** The class a testcase is filed under. *)
Definition classKey (test : TestCase.t) : option string :=
  match TestCase.classname test with
  | Str classname => Some (lastSegment classname)
  | _ => None
  end.

Definition hasKey (key : string) (test : TestCase.t) : bool :=
  match classKey test with
  | Some k => String.eqb k key
  | None => false
  end.

(** A testcase that the grouping can file: its classname is a string whose
    last segment is not a name of [Object.prototype]. *)
Definition groupable (test : TestCase.t) : Prop :=
  exists key, classKey test = Some key /\ inherited key = false.

(** A report with a testcase element that has no classname attribute. *)
Definition nameless_doc : document :=
  [inl (Element "testsuite" [("tests", "1")]
     [inl (Element "testcase" [("name", "test_boot")] [])])].

Definition nameless_report : TestReport.t :=
  TestReport.mk (Num 1) (Num 0) (Num 0) (Num 0) (FDec 0 0) Null
    [TestCase.mk Null (Str "test_boot") (FDec 0 0) "passed" Undefined Undefined]
    Undefined (Num 1).

(** ** createDeviceRow: status and display name *)

Definition statusBadge (cls text : string) : string :=
  "<span class=" ++ dq ++ "status-badge " ++ cls ++ dq ++ ">" ++ text ++ "</span>".

(** [statusClass] and [statusBadge] of a row (lines 298-311). *)
Definition rowStatus (device : Device.t) : string * string :=
  match Device.report device with
  | Some report =>
      if jseq (TestReport.failures report) (Num 0) && jseq (TestReport.errors report) (Num 0)
      then ("status-pass", statusBadge "pass" "All Tests Passed")
      else ("status-failures", statusBadge "failures" "Tests Failed")
  | None => ("status-loading", statusBadge "loading" "No Data")
  end.

(** [s.replace(pattern, replacement)] for a string pattern: the first
    occurrence only. *)
Fixpoint replaceFirst (s pattern replacement : string) : string :=
  if startsWith s pattern then replacement ++ drop (String.length pattern) s
  else match s with
       | EmptyString => EmptyString
       | String c r => String c (replaceFirst r pattern replacement)
       end.

(** [displayName] of a row (lines 345-346). *)
Definition displayName (device : Device.t) : string :=
  let deviceName := or_str (Device.name device) (Device.device device) in
  trim (replaceFirst deviceName "name:" "").

(** What the grouping keeps true of the testcases seen so far: one
    property per class, none empty, each holding the testcases of its
    class in their order, and a property for every class seen. *)
Definition grouped (seen : list TestCase.t) (g : list (string * list TestCase.t)) : Prop :=
  List.NoDup (map fst g) /\
  (forall k ts, In (k, ts) g ->
     ts <> [] /\ ts = List.filter (hasKey k) seen /\ inherited k = false) /\
  (forall tc k, In tc seen -> classKey tc = Some k -> In k (map fst g)).

(** A report whose counts are integers that are not negative, with no more
    failures, errors and skipped tests together than tests, and whose
    passed count is the difference the parser computes. *)
Definition consistentReport (r : TestReport.t) : Prop :=
  exists t f e s,
    TestReport.tests r = Num t /\ TestReport.failures r = Num f /\
    TestReport.errors r = Num e /\ TestReport.skipped r = Num s /\
    TestReport.passed r = Num (t - f - e - s) /\
    0 <= f /\ 0 <= e /\ 0 <= s /\ f + e + s <= t.

(** The integer a number holds; 0 for [NaN] and the infinities. *)
Definition valueOf (n : number) : Z :=
  match n with
  | Num z => z
  | _ => 0
  end.

(** A number that is neither [NaN] nor an infinity. *)
Definition finite (n : number) : Prop := exists z, n = Num z.

(** What may follow the digits of a count without changing how it is
    read: nothing, or a character that is neither a digit nor the letter
    that would make a hexadecimal prefix. *)
Definition stopsNumber (rest : string) : bool :=
  match rest with
  | EmptyString => true
  | String c _ => negb (isDigit c) && negb (Ascii.eqb c "x") && negb (Ascii.eqb c "X")
  end.

(** A suite whose counts are followed by other text. *)
Definition wordy_suite : element :=
  Element "testsuite" [("tests", "3 tests"); ("failures", "1.0")] [].

Definition wordy_doc : document := [inl wordy_suite].

(** A suite whose [tests] count, 2^53 + 1, is not a double. *)
Definition large_suite : element :=
  Element "testsuite" [("tests", "9007199254740993")] [].

Definition large_doc : document := [inl large_suite].

(** A suite whose [tests] count is 2^53 + 2, with one failure and one
    error. *)
Definition uneven_suite : element :=
  Element "testsuite"
    [("tests", "9007199254740994"); ("failures", "1"); ("errors", "1")] [].

Definition uneven_doc : document := [inl uneven_suite].

(** A count that is an integer and not negative. *)
Definition natural (n : number) : Prop := exists z, n = Num z /\ 0 <= z.

(** A device whose report counts [n] tests, all passed. *)
Definition deviceWith (id : string) (n : Z) : Device.t :=
  Device.mk id Undefined "v1" Undefined Undefined (Str "online")
    (Some (TestReport.mk (Num n) (Num 0) (Num 0) (Num 0) (FDec 0 0) Null []
             Undefined (Num n))).

(** Three devices whose reports count 2^53 tests, one test and one test. *)
Definition uneven_devices : list Device.t :=
  [deviceWith "a" 9007199254740992; deviceWith "b" 1; deviceWith "c" 1].

Definition uneven_manager (devices : list Device.t) : DeviceManager.t :=
  DeviceManager.mk "https://example.org/openwrt-tests" "" devices [] "" "all".

(** * Properties *)

(** ** Strings *)

Lemma startsWith_app (s t : string) :
  startsWith s t = true <-> exists post, s = t ++ post.
Proof.
  revert s; induction t as [|b t IH]; intros s; simpl.
  - split; [intros _; exists s; reflexivity | reflexivity].
  - destruct s as [|a s]; simpl.
    + split; [discriminate | intros [post H]; discriminate].
    + rewrite andb_true_iff, Ascii.eqb_eq, IH. split.
      * intros [-> [post ->]]. exists post; reflexivity.
      * intros [post H]. injection H as -> ->. split; [reflexivity | eexists; reflexivity].
Qed.

Lemma includes_app (s t : string) :
  includes s t = true <-> exists pre post, s = pre ++ t ++ post.
Proof.
  induction s as [|a s IH].
  - simpl. rewrite orb_false_r, startsWith_app. split.
    + intros [post H]. exists EmptyString, post. exact H.
    + intros [pre [post H]]. destruct pre; simpl in H; [eauto | discriminate].
  - simpl. rewrite orb_true_iff, startsWith_app, IH. split.
    + intros [[post H] | [pre [post H]]].
      * exists EmptyString, post. exact H.
      * exists (String a pre), post. simpl. rewrite H. reflexivity.
    + intros [pre [post H]]. destruct pre as [|b pre]; simpl in H.
      * left. eauto.
      * right. injection H as -> ->. eauto.
Qed.

Lemma lower_app (a b : string) : lower (a ++ b) = lower a ++ lower b.
Proof. induction a as [|c a IH]; simpl; [reflexivity | rewrite IH; reflexivity]. Qed.

Lemma lower_split (s x y : string) :
  lower s = x ++ y -> exists a b, s = a ++ b /\ lower a = x /\ lower b = y.
Proof.
  revert s; induction x as [|c x IH]; intros s H; simpl in H.
  - exists EmptyString, s. auto.
  - destruct s as [|d s]; simpl in H; [discriminate |].
    injection H as Hc Hs. destruct (IH _ Hs) as (a & b & -> & Ha & Hb).
    exists (String d a), b. simpl. rewrite Hc, Ha. auto.
Qed.

(** [includes] on the lower-cased strings decides containment up to case. *)
Lemma includes_lower (s t : string) :
  includes (lower s) (lower t) = true <-> containsCI s t.
Proof.
  rewrite includes_app. split.
  - intros (pre & post & H).
    apply lower_split in H as (a & r & -> & Ha & Hr).
    apply lower_split in Hr as (m & b & -> & Hm & Hb).
    exists a, m, b. auto.
  - intros (pre & mid & post & -> & Hm).
    exists (lower pre), (lower post). rewrite !lower_app, Hm. reflexivity.
Qed.

Lemma containsCI_empty (s : string) : containsCI s "".
Proof. exists EmptyString, EmptyString, s. auto. Qed.

(** ** Reading numbers *)

Ltac split_cmp :=
  repeat (match goal with
          | |- context [?a <=? ?b] => destruct (Z.leb_spec a b)
          | |- context [?a <? ?b] => destruct (Z.ltb_spec a b)
          | |- context [?a =? ?b] => destruct (Z.eqb_spec a b)
          | H : context [?a <=? ?b] |- _ => destruct (Z.leb_spec a b)
          | H : context [?a <? ?b] |- _ => destruct (Z.ltb_spec a b)
          | H : context [?a =? ?b] |- _ => destruct (Z.eqb_spec a b)
          end; simpl in *);
  try reflexivity; try congruence; try lia.

Lemma isDigit_range (c : ascii) : isDigit c = true <-> 48 <= code c <= 57.
Proof. unfold isDigit. split; intros H; split_cmp. Qed.

Lemma radixDigit_digit (c : ascii) :
  isDigit c = true -> radixDigit 10 c = Some (code c - 48).
Proof.
  rewrite isDigit_range. intros H. unfold radixDigit, digitValue.
  split_cmp.
Qed.

Lemma radixDigit_other (c : ascii) :
  isDigit c = false -> radixDigit 10 c = None.
Proof.
  unfold isDigit, radixDigit, digitValue. intros H. split_cmp.
Qed.

Lemma eqb_code (a b : ascii) : code a <> code b -> Ascii.eqb a b = false.
Proof. intros H. destruct (Ascii.eqb_spec a b); [subst; congruence | reflexivity]. Qed.

Lemma digit_not_space (c : ascii) : isDigit c = true -> isWhiteSpace c = false.
Proof. rewrite isDigit_range. intros H. unfold isWhiteSpace. split_cmp. Qed.

Lemma digit_not_char (c k : ascii) :
  isDigit c = true -> isDigit k = false -> Ascii.eqb c k = false.
Proof.
  intros Hc Hk. destruct (Ascii.eqb_spec c k); [subst; congruence | reflexivity].
Qed.

Lemma allDigits_no_hex (s : string) (x : ascii) :
  allDigits s = true -> isDigit x = false -> startsWith s (String "0" (String x "")) = false.
Proof.
  intros H Hx. destruct s as [|a [|b r]]; simpl in *; rewrite ?andb_false_r; try reflexivity.
  apply andb_true_iff in H as [_ H]. apply andb_true_iff in H as [Hb _].
  rewrite (digit_not_char b x Hb Hx). rewrite andb_false_r. reflexivity.
Qed.

Lemma mathInt_digits (s : string) (acc : Z) :
  allDigits s = true ->
  fold_left (fun a d => a * 10 + d) (digitsPrefix 10 s) acc
  = acc * 10 ^ Z.of_nat (String.length s) + decimalValue s.
Proof.
  revert acc; induction s as [|c r IH]; intros acc H; simpl in H.
  - simpl. lia.
  - apply andb_true_iff in H as [Hc Hr].
    cbn [digitsPrefix]. rewrite (radixDigit_digit c Hc). cbn [fold_left].
    rewrite (IH _ Hr). cbn [String.length decimalValue].
    rewrite Nat2Z.inj_succ, Z.pow_succ_r by lia. ring.
Qed.

Lemma digitsPrefix_digits (s : string) (v : Z) :
  digitString s = Some v ->
  exists d ds, digitsPrefix 10 s = d :: ds /\ mathInt 10 (d :: ds) = v /\
               startsWith s "0x" = false /\ startsWith s "0X" = false /\
               trimStart s = s /\ startsWith s "-" = false /\ startsWith s "+" = false.
Proof.
  unfold digitString. destruct s as [|c r]; [discriminate |].
  destruct (allDigits (String c r)) eqn:H; [|discriminate]. intros [= <-].
  pose proof H as H'. simpl in H'. apply andb_true_iff in H' as [Hc Hr].
  exists (code c - 48), (digitsPrefix 10 r). repeat split.
  - cbn [digitsPrefix]. rewrite (radixDigit_digit c Hc). reflexivity.
  - unfold mathInt. replace (code c - 48 :: digitsPrefix 10 r) with (digitsPrefix 10 (String c r)).
    + rewrite mathInt_digits by exact H. rewrite Z.mul_0_l, Z.add_0_l. reflexivity.
    + cbn [digitsPrefix]. rewrite (radixDigit_digit c Hc). reflexivity.
  - apply allDigits_no_hex; [exact H | reflexivity].
  - apply allDigits_no_hex; [exact H | reflexivity].
  - cbn [trimStart]. rewrite (digit_not_space c Hc). reflexivity.
  - simpl. rewrite (digit_not_char c "-" Hc eq_refl). reflexivity.
  - simpl. rewrite (digit_not_char c "+" Hc eq_refl). reflexivity.
Qed.

(** ** Rounding *)

Lemma roundInt_exact (z : Z) : Z.abs z <= maxExact -> roundInt z = z.
Proof.
  unfold maxExact, roundInt. intros H.
  destruct (Z.ltb_spec (Z.abs z) (2 ^ 53)) as [_ | Hge]; [reflexivity |].
  assert (E : z = 2 ^ 53 \/ z = - 2 ^ 53) by lia.
  destruct E as [-> | ->]; vm_compute; reflexivity.
Qed.

(** An integer of magnitude up to 2^53 is a double. *)
Lemma roundDouble_exact (z : Z) : Z.abs z <= maxExact -> roundDouble z = Num z.
Proof.
  intros H. unfold roundDouble. rewrite (roundInt_exact z H).
  destruct (Z.leb_spec (2 ^ 1024) (Z.abs z)) as [Hbig | _]; [| reflexivity].
  exfalso. unfold maxExact in H.
  assert (2 ^ 53 < 2 ^ 1024) by (apply Z.pow_lt_mono_r; lia). lia.
Qed.

Lemma roundDouble_readsAs (z : Z) : readsAs (roundDouble z) z.
Proof. split; [reflexivity | apply roundDouble_exact]. Qed.

Lemma roundDouble_not_NaN (z : Z) : roundDouble z <> NaN.
Proof. unfold roundDouble. destruct (_ <=? _); discriminate. Qed.

Lemma jsadd_exact (x y : Z) :
  Z.abs (x + y) <= maxExact -> jsadd (Num x) (Num y) = Num (x + y).
Proof. apply roundDouble_exact. Qed.

Lemma jssub_exact (x y : Z) :
  Z.abs (x - y) <= maxExact -> jssub (Num x) (Num y) = Num (x - y).
Proof. apply roundDouble_exact. Qed.

(** [parseInt] reads a numeric count as the double nearest to its value. *)
Lemma parseInt_intLiteral (s : string) (z : Z) :
  intLiteral s = Some z -> parseInt s = roundDouble z.
Proof.
  unfold intLiteral. destruct s as [|c ds]; [discriminate |].
  destruct (Ascii.eqb_spec c "-") as [-> | Hm].
  - destruct (digitString ds) as [v|] eqn:Hv; [|discriminate]. intros [= <-].
    destruct (digitsPrefix_digits ds v Hv) as (d & l & Hp & Hval & Hx & HX & _).
    unfold parseInt. cbn [trimStart]. change (isWhiteSpace "-") with false. cbv iota.
    change (startsWith (String "-" ds) "-") with true.
    rewrite orb_true_r. cbn [drop]. rewrite Hx, HX. cbn [orb]. cbv iota beta.
    rewrite Hp, Hval. f_equal; lia.
  - destruct (Ascii.eqb_spec c "+") as [-> | Hp'].
    + intros Hv.
      destruct (digitsPrefix_digits ds z Hv) as (d & l & Hp & Hval & Hx & HX & _).
      unfold parseInt. cbn [trimStart]. change (isWhiteSpace "+") with false. cbv iota.
      change (startsWith (String "+" ds) "-") with false.
      change (startsWith (String "+" ds) "+") with true.
      cbn [orb drop]. rewrite Hx, HX. cbn [orb]. cbv iota beta.
      rewrite Hp, Hval. f_equal; lia.
    + intros Hv.
      destruct (digitsPrefix_digits _ z Hv) as (d & l & Hp & Hval & Hx & HX & Ht & Hm' & Hpl).
      unfold parseInt. rewrite Ht, Hm', Hpl. cbn [orb]. rewrite Hx, HX. cbn [orb].
      cbv iota beta. rewrite Hp, Hval. f_equal; lia.
Qed.

Lemma noDigit_trimStart (s : string) : noDigit s = true -> noDigit (trimStart s) = true.
Proof.
  induction s as [|c r IH]; simpl; [reflexivity |]. intros H.
  destruct (isWhiteSpace c); [apply IH; apply andb_true_iff in H; tauto | exact H].
Qed.

Lemma noDigit_drop (n : nat) (s : string) : noDigit s = true -> noDigit (drop n s) = true.
Proof.
  revert s; induction n as [|n IH]; intros s H; [exact H |].
  destruct s as [|c r]; [reflexivity |]. simpl in *.
  apply IH. apply andb_true_iff in H; tauto.
Qed.

Lemma noDigit_prefix (s : string) : noDigit s = true -> digitsPrefix 10 s = [].
Proof.
  destruct s as [|c r]; [reflexivity |]. simpl. intros H.
  apply andb_true_iff in H as [Hc _]. apply negb_true_iff in Hc.
  rewrite (radixDigit_other c Hc). reflexivity.
Qed.

Lemma noDigit_no_zero (s t : string) :
  noDigit s = true -> startsWith s (String "0" t) = false.
Proof.
  destruct s as [|c r]; [reflexivity |]. simpl. intros H.
  apply andb_true_iff in H as [Hc _]. apply negb_true_iff in Hc.
  destruct (Ascii.eqb_spec c "0") as [-> | _]; [discriminate | reflexivity].
Qed.

(** [parseInt] of a string without a digit is [NaN]. *)
Lemma parseInt_noDigit (s : string) : noDigit s = true -> parseInt s = NaN.
Proof.
  intros H. unfold parseInt.
  pose proof (noDigit_trimStart s H) as H0.
  set (S0 := trimStart s) in *.
  set (S1 := if startsWith S0 "+" || startsWith S0 "-" then drop 1 S0 else S0).
  assert (H1 : noDigit S1 = true).
  { unfold S1. destruct (startsWith S0 "+" || startsWith S0 "-");
      [apply noDigit_drop |]; exact H0. }
  rewrite !(noDigit_no_zero S1) by exact H1. cbn [orb].
  rewrite (noDigit_prefix S1 H1). reflexivity.
Qed.

(** Where [parseFloat] looks for the word Infinity: behind the sign. *)
Lemma spellsInfinity_sign (s : string) :
  let S0 := trimStart s in
  let S1 := if startsWith S0 "+" || startsWith S0 "-" then drop 1 S0 else S0 in
  spellsInfinity s
  = if startsWith S1 "Infinity" then Some (startsWith S0 "-") else None.
Proof.
  unfold spellsInfinity. destruct (trimStart s) as [|c r]; [reflexivity |].
  cbn [startsWith].
  destruct (Ascii.eqb_spec c "+") as [-> | Hp].
  { cbn. destruct (startsWith r "Infinity"); reflexivity. }
  destruct (Ascii.eqb_spec c "-") as [-> | Hm].
  { cbn. destruct (startsWith r "Infinity"); reflexivity. }
  cbn [andb orb]. rewrite orb_false_r.
  destruct (Ascii.eqb c "I" && startsWith r "nfinity"); reflexivity.
Qed.

(** [parseFloat] of a string without a digit is [NaN], or the infinity
    that the string spells. *)
Lemma parseFloat_noDigit (s : string) :
  noDigit s = true ->
  parseFloat s = match spellsInfinity s with
                 | Some negative => FInfinity negative
                 | None => FNaN
                 end.
Proof.
  intros H. rewrite spellsInfinity_sign. unfold parseFloat.
  pose proof (noDigit_trimStart s H) as H0.
  set (S0 := trimStart s) in *.
  set (S1 := if startsWith S0 "+" || startsWith S0 "-" then drop 1 S0 else S0).
  assert (H1 : noDigit S1 = true).
  { unfold S1. destruct (startsWith S0 "+" || startsWith S0 "-");
      [apply noDigit_drop |]; exact H0. }
  cbv zeta. fold S1.
  destruct (startsWith S1 "Infinity"); [reflexivity |].
  rewrite (noDigit_prefix S1 H1). change (drop (List.length (@nil Z)) S1) with S1.
  destruct (startsWith S1 ".").
  - rewrite (noDigit_prefix (drop 1 S1)) by (apply noDigit_drop; exact H1). reflexivity.
  - reflexivity.
Qed.

(** ** The exception monad *)

Lemma forEachM_Forall2 {A B : Type} (f : A -> exn B) (l : list A) (acc : list B) :
  (forall x, exists y, f x = Ret y) ->
  exists ys, forEachM l (fun acc x => y ← f x; Ret (acc ++ [y])%list) acc = Ret (acc ++ ys)%list
             /\ Forall2 (fun x y => f x = Ret y) l ys.
Proof.
  intros Hf. revert acc; induction l as [|x l IH]; intros acc.
  - exists []. rewrite app_nil_r. split; [reflexivity | constructor].
  - destruct (Hf x) as [y Hy]. destruct (IH (acc ++ [y])%list) as (ys & Hys & HF).
    exists (y :: ys). split.
    + cbn [forEachM]. rewrite Hy. cbn. rewrite Hys, <- app_assoc. reflexivity.
    + constructor; assumption.
Qed.

Lemma filterM_filter {A : Type} (f : A -> exn bool) (p : A -> bool) (l : list A) :
  (forall x, f x = Ret (p x)) -> filterM f l = Ret (List.filter p l).
Proof.
  intros Hf. induction l as [|x l IH]; [reflexivity |].
  cbn [filterM List.filter]. rewrite Hf, IH. cbn. destruct (p x); reflexivity.
Qed.

Lemma all_Ret {A : Type} (l : list A) : all (Ret <$> l) = Ret l.
Proof.
  induction l as [|x l IH]; [reflexivity |].
  cbn [fmap list_fmap all]. cbn. rewrite IH. reflexivity.
Qed.

(** ** The DOM *)

Lemma hasTag_true (tag : string) (e : element) : hasTag tag e = true <-> tagName e = tag.
Proof. unfold hasTag. apply String.eqb_eq. Qed.

Lemma hasTag_false (tag : string) (e : element) : hasTag tag e = false <-> tagName e <> tag.
Proof. unfold hasTag. apply String.eqb_neq. Qed.

Lemma querySelector_first (l : list element) (tag : string) (m : element) :
  querySelector l tag = Some m <-> firstWith tag l m.
Proof.
  unfold querySelector, querySelectorAll, firstWith. induction l as [|x l IH]; simpl.
  - split; [discriminate | intros (b & a & H & _); destruct b; discriminate].
  - destruct (hasTag tag x) eqn:Hx; simpl.
    + split.
      * intros [= ->]. exists [], l. rewrite hasTag_true in Hx. auto.
      * intros (b & a & H & Ht & Hb). destruct b as [|y b]; simpl in H.
        -- injection H as -> _. reflexivity.
        -- injection H as -> _. inversion Hb; subst.
           rewrite hasTag_true in Hx. contradiction.
    + rewrite IH. split.
      * intros (b & a & -> & Ht & Hb). exists (x :: b), a. repeat split; auto.
        constructor; [rewrite <- hasTag_false; exact Hx | exact Hb].
      * intros (b & a & H & Ht & Hb). destruct b as [|y b]; simpl in H.
        -- injection H as -> _. rewrite <- hasTag_true in Ht. congruence.
        -- injection H as -> ->. inversion Hb; subst. eauto.
Qed.

Lemma querySelector_None (l : list element) (tag : string) :
  querySelector l tag = None <-> ~ exists e, In e l /\ tagName e = tag.
Proof.
  unfold querySelector, querySelectorAll. induction l as [|x l IH]; simpl.
  - split; [intros _ (e & [] & _) | reflexivity].
  - destruct (hasTag tag x) eqn:Hx; simpl.
    + split; [discriminate |]. intros H. exfalso. apply H. exists x.
      rewrite hasTag_true in Hx. auto.
    + rewrite IH. rewrite hasTag_false in Hx. split.
      * intros H (e & [<- | He] & Ht); [contradiction | apply H; eauto].
      * intros H (e & He & Ht). apply H. eauto.
Qed.

Lemma found_querySelector (l : list element) (tag : string) :
  found (querySelector l tag) = true <-> exists e, In e l /\ tagName e = tag.
Proof.
  destruct (querySelector l tag) as [m|] eqn:H; simpl.
  - apply querySelector_first in H as (b & a & -> & Ht & _). split; [|reflexivity].
    intros _. exists m. split; [apply in_or_app; right; left; reflexivity | exact Ht].
  - apply querySelector_None in H. split; [discriminate | contradiction].
Qed.

(** ** parseTestReport *)

(** The testcase callback never throws: each [querySelector] result it
    calls a method on was tested just before. *)
Lemma parseTestcase_total (testcase : element) : exists tc, parseTestcase testcase = Ret tc.
Proof.
  unfold parseTestcase.
  destruct (querySelector (descendants testcase) "failure"); [cbn; eauto |].
  destruct (querySelector (descendants testcase) "error"); [cbn; eauto |].
  destruct (querySelector (descendants testcase) "skipped"); cbn; eauto.
Qed.

Lemma parseDocument_None (xmlDoc : document) :
  querySelector (subtrees xmlDoc) "testsuite" = None -> parseDocument xmlDoc = Ret None.
Proof. intros H. unfold parseDocument. rewrite H. reflexivity. Qed.

Lemma parseDocument_Some (xmlDoc : document) (testsuite : element) :
  querySelector (subtrees xmlDoc) "testsuite" = Some testsuite ->
  exists tcs,
    parseDocument xmlDoc =
      Ret (Some (TestReport.mk
        (parseInt (or_str (getAttribute testsuite "tests") "0"))
        (parseInt (or_str (getAttribute testsuite "failures") "0"))
        (parseInt (or_str (getAttribute testsuite "errors") "0"))
        (parseInt (or_str (getAttribute testsuite "skipped") "0"))
        (parseFloat (or_str (getAttribute testsuite "time") "0"))
        (getAttribute testsuite "timestamp")
        tcs
        (forEach (querySelectorAll (subtrees xmlDoc) "property") readProperty Undefined)
        (jssub (jssub (jssub
           (parseInt (or_str (getAttribute testsuite "tests") "0"))
           (parseInt (or_str (getAttribute testsuite "failures") "0")))
           (parseInt (or_str (getAttribute testsuite "errors") "0")))
           (parseInt (or_str (getAttribute testsuite "skipped") "0"))))) /\
    Forall2 (fun e tc => parseTestcase e = Ret tc)
            (querySelectorAll (subtrees xmlDoc) "testcase") tcs.
Proof.
  intros H. unfold parseDocument. rewrite H.
  destruct (forEachM_Forall2 parseTestcase (querySelectorAll (subtrees xmlDoc) "testcase") []
              parseTestcase_total) as (tcs & Htcs & HF).
  exists tcs. split; [|exact HF]. cbv zeta. rewrite Htcs. reflexivity.
Qed.

(** Parsing a document never throws. *)
Lemma parseDocument_total (xmlDoc : document) : exists o, parseDocument xmlDoc = Ret o.
Proof.
  destruct (querySelector (subtrees xmlDoc) "testsuite") as [ts|] eqn:H.
  - destruct (parseDocument_Some xmlDoc ts H) as (tcs & -> & _). eauto.
  - rewrite (parseDocument_None xmlDoc H). eauto.
Qed.

Lemma parseInt_countReads (attr : jsstr) : countReads attr (parseInt (or_str attr "0")).
Proof.
  destruct attr as [| |s]; [vm_compute; reflexivity | vm_compute; reflexivity |].
  unfold countReads. split; [| split].
  - intros ->. vm_compute. reflexivity.
  - intros z Hz. destruct s; [discriminate |]. cbn [or_str].
    rewrite (parseInt_intLiteral _ z Hz). apply roundDouble_readsAs.
  - intros Hs Hd. destruct s; [congruence |]. apply parseInt_noDigit. exact Hd.
Qed.

Lemma parseFloat_timeReads (attr : jsstr) : timeReads attr (parseFloat (or_str attr "0")).
Proof.
  destruct attr as [| |s]; [vm_compute; reflexivity | vm_compute; reflexivity |].
  unfold timeReads. split.
  - intros ->. vm_compute. reflexivity.
  - intros Hs Hd. destruct s; [congruence |]. apply parseFloat_noDigit. exact Hd.
Qed.

Lemma absentOrZero_reads (attr : jsstr) :
  absentOrZero attr -> parseInt (or_str attr "0") = Num 0.
Proof.
  intros H. pose proof (parseInt_countReads attr) as R.
  destruct attr as [| |s]; try exact R.
  destruct R as (R0 & Rz & _). destruct H as [H | H]; [auto |].
  apply (Rz 0 H). unfold maxExact. simpl. lia.
Qed.

Lemma countValue_reads (attr : jsstr) (z : Z) :
  countValue attr = Some z -> Z.abs z <= maxExact ->
  parseInt (or_str attr "0") = Num z.
Proof.
  intros H Hb. pose proof (parseInt_countReads attr) as R.
  destruct attr as [| |s]; cbn [countValue countReads] in *.
  - injection H as <-. exact R.
  - injection H as <-. exact R.
  - destruct R as (_ & Rz & _). apply (Rz z H). exact Hb.
Qed.

(** Counts of magnitude up to 2^51 are computed exactly. *)
Lemma small_exactlyComputed (t f e s : Z) :
  Z.abs t <= 2 ^ 51 -> Z.abs f <= 2 ^ 51 -> Z.abs e <= 2 ^ 51 -> Z.abs s <= 2 ^ 51 ->
  exactlyComputed t f e s.
Proof. unfold exactlyComputed, maxExact. lia. Qed.

(** So are counts that are not negative, with no more failures, errors
    and skipped tests together than tests, and at most 2^53 tests. *)
Lemma consistent_exactlyComputed (t f e s : Z) :
  0 <= f -> 0 <= e -> 0 <= s -> f + e + s <= t -> t <= 2 ^ 53 ->
  exactlyComputed t f e s.
Proof. unfold exactlyComputed, maxExact. lia. Qed.

Lemma querySelectorAll_nil (l : list element) (tag : string) :
  (~ exists e, In e l /\ tagName e = tag) -> querySelectorAll l tag = [].
Proof.
  intros H. unfold querySelectorAll. induction l as [|x l IH]; [reflexivity |].
  simpl. destruct (hasTag tag x) eqn:Hx.
  - exfalso. apply H. exists x. rewrite hasTag_true in Hx. simpl. auto.
  - apply IH. intros (e & He & Ht). apply H. exists e. simpl. auto.
Qed.

(** The scenario of the specification: three tests and one failure give
    passed = 2, and the testcase with the failure marker is "failed" with
    the message "boom". *)
Example scenario_report :
  parseDocument scenario_doc =
  Ret (Some (TestReport.mk (Num 3) (Num 1) (Num 0) (Num 0) (FDec 0 0) Null
               [TestCase.mk (Str "tests.test_base") (Str "test_boot") (FDec 0 0)
                            "failed" (Str "boom") Undefined]
               Undefined (Num 2))).
Proof. vm_compute. reflexivity. Qed.

(** C1 (as amended): for every document, parsing returns without throwing;
    when the document holds a testsuite element, the result is a report in
    which each of tests, failures, errors and skipped is 0 if its attribute
    is absent or empty; if the attribute is numeric, the double nearest to
    its integer value, which is that value itself whenever its magnitude
    is at most 2^53; and NaN (not 0) if the attribute holds no digit; time
    is zero if its attribute is absent or empty, and, if the attribute
    holds no digit, NaN (not zero), except that it is an infinity when the
    text spells one: the word Infinity after optional white space and an
    optional sign. *)
Theorem parse_counts_lenient (xmlDoc : document) :
  exists result,
    parseDocument xmlDoc = Ret result /\
    forall testsuite,
      firstWith "testsuite" (subtrees xmlDoc) testsuite ->
      exists r,
        result = Some r /\
        countReads (getAttribute testsuite "tests") (TestReport.tests r) /\
        countReads (getAttribute testsuite "failures") (TestReport.failures r) /\
        countReads (getAttribute testsuite "errors") (TestReport.errors r) /\
        countReads (getAttribute testsuite "skipped") (TestReport.skipped r) /\
        timeReads (getAttribute testsuite "time") (TestReport.time r).
Proof.
  destruct (querySelector (subtrees xmlDoc) "testsuite") as [ts|] eqn:H.
  - destruct (parseDocument_Some xmlDoc ts H) as (tcs & -> & _).
    eexists. split; [reflexivity |]. intros testsuite Hts.
    apply querySelector_first in Hts. assert (testsuite = ts) as -> by congruence.
    eexists. split; [reflexivity |]. cbn [TestReport.tests TestReport.failures
      TestReport.errors TestReport.skipped TestReport.time].
    repeat split; try apply parseInt_countReads; apply parseFloat_timeReads.
  - rewrite (parseDocument_None xmlDoc H). eexists. split; [reflexivity |].
    intros testsuite Hts. apply querySelector_first in Hts. congruence.
Qed.

(** C1, as stated, fails: a document whose testsuite has tests="abc" and
    time="soon" parses to a report whose tests is NaN and whose time is
    NaN, not 0; and a document whose testsuite has the numeric attribute
    tests="9007199254740993" parses to a report whose tests is
    9007199254740992, not the attribute's integer value. *)
Lemma parse_counts_words_not_zero :
  (exists r,
     parseDocument words_doc = Ret (Some r) /\
     getAttribute words_suite "tests" = Str "abc" /\
     TestReport.tests r = NaN /\ TestReport.tests r <> Num 0 /\
     TestReport.time r = FNaN /\ TestReport.time r <> FDec 0 0) /\
  (exists r,
     parseDocument large_doc = Ret (Some r) /\
     getAttribute large_suite "tests" = Str "9007199254740993" /\
     intLiteral "9007199254740993" = Some 9007199254740993 /\
     TestReport.tests r = Num 9007199254740992 /\
     TestReport.tests r <> Num 9007199254740993).
Proof.
  split.
  - eexists. split; [vm_compute; reflexivity |]. cbn.
    repeat split; try reflexivity; discriminate.
  - eexists. split; [vm_compute; reflexivity |].
    cbn [TestReport.tests].
    split; [reflexivity |]. split; [vm_compute; reflexivity |].
    split; [reflexivity | discriminate].
Qed.

(** C2 (as amended): for every document whose first testsuite element has
    each of the count attributes tests, failures, errors and skipped
    absent or numeric, and such that the four counts and the partial
    results of tests - failures - errors - skipped and of
    passed + failures + errors + skipped are at most 2^53 in magnitude
    (as they are when each count is at most 2^51 in magnitude, and when
    the counts are not negative with failures + errors + skipped <= tests
    <= 2^53), parsing yields a report with
    passed + failures + errors + skipped == tests. *)
Theorem passed_identity (xmlDoc : document) (testsuite : element) (t f e s : Z) :
  firstWith "testsuite" (subtrees xmlDoc) testsuite ->
  countValue (getAttribute testsuite "tests") = Some t ->
  countValue (getAttribute testsuite "failures") = Some f ->
  countValue (getAttribute testsuite "errors") = Some e ->
  countValue (getAttribute testsuite "skipped") = Some s ->
  exactlyComputed t f e s ->
  exists r,
    parseDocument xmlDoc = Ret (Some r) /\
    jseq (jsadd (jsadd (jsadd (TestReport.passed r) (TestReport.failures r))
                       (TestReport.errors r))
                (TestReport.skipped r))
         (TestReport.tests r) = true.
Proof.
  intros Hts Ht Hf He Hs (Bt & Bf & Be & Bs & B1 & B2 & B3 & B4 & B5).
  apply querySelector_first in Hts.
  destruct (parseDocument_Some xmlDoc testsuite Hts) as (tcs & -> & _).
  eexists. split; [reflexivity |].
  cbn [TestReport.tests TestReport.failures TestReport.errors TestReport.skipped
       TestReport.passed].
  rewrite (countValue_reads _ t Ht Bt), (countValue_reads _ f Hf Bf),
    (countValue_reads _ e He Be), (countValue_reads _ s Hs Bs).
  rewrite !jssub_exact by assumption.
  assert (E1 : t - f - e - s + f = t - e - s) by lia.
  assert (E2 : t - e - s + e = t - s) by lia.
  assert (E3 : t - s + s = t) by lia.
  rewrite (jsadd_exact (t - f - e - s) f), E1 by (rewrite E1; assumption).
  rewrite (jsadd_exact (t - e - s) e), E2 by (rewrite E2; assumption).
  rewrite (jsadd_exact (t - s) s), E3 by (rewrite E3; assumption).
  cbn [jseq]. apply Z.eqb_refl.
Qed.

(** C2, as stated, fails: in a document whose testsuite has the numeric
    attributes tests="9007199254740994", failures="1" and errors="1" and
    no skipped attribute, parsing yields passed = 9007199254740991, and
    passed + failures + errors + skipped == tests is false. *)
Lemma passed_identity_not_exact :
  firstWith "testsuite" (subtrees uneven_doc) uneven_suite /\
  absentOrNumeric (getAttribute uneven_suite "tests") /\
  absentOrNumeric (getAttribute uneven_suite "failures") /\
  absentOrNumeric (getAttribute uneven_suite "errors") /\
  absentOrNumeric (getAttribute uneven_suite "skipped") /\
  exists r,
    parseDocument uneven_doc = Ret (Some r) /\
    TestReport.passed r = Num 9007199254740991 /\
    jseq (jsadd (jsadd (jsadd (TestReport.passed r) (TestReport.failures r))
                       (TestReport.errors r))
                (TestReport.skipped r))
         (TestReport.tests r) = false.
Proof.
  split; [apply querySelector_first; reflexivity |].
  split; [exists 9007199254740994; vm_compute; reflexivity |].
  split; [exists 1; reflexivity |].
  split; [exists 1; reflexivity |].
  split; [exact I |].
  eexists. split; [vm_compute; reflexivity |].
  split; vm_compute; reflexivity.
Qed.

Lemma scenario_first : firstWith "testsuite" (subtrees scenario_doc) scenario_suite.
Proof. apply querySelector_first. reflexivity. Qed.

Lemma passed_identity_witness :
  exists r,
    parseDocument scenario_doc = Ret (Some r) /\
    jseq (jsadd (jsadd (jsadd (TestReport.passed r) (TestReport.failures r))
                       (TestReport.errors r))
                (TestReport.skipped r))
         (TestReport.tests r) = true.
Proof.
  apply (passed_identity scenario_doc scenario_suite 3 1 0 0 scenario_first);
    try reflexivity.
  unfold exactlyComputed, maxExact. simpl. lia.
Defined.

(** C3 (as amended): parsing returns null exactly when the document holds
    no testsuite element; a document with a testsuite element and no
    testcase element yields a report (not null) with an empty testcase
    sequence, in which tests is 0 when the tests attribute is absent, empty
    or zero, and passed is 0 when that holds of all four count
    attributes. *)
Theorem parse_null_iff_no_testsuite (xmlDoc : document) :
  (parseDocument xmlDoc = Ret None <-> ~ containsElement "testsuite" xmlDoc) /\
  (forall testsuite,
     firstWith "testsuite" (subtrees xmlDoc) testsuite ->
     ~ containsElement "testcase" xmlDoc ->
     exists r,
       parseDocument xmlDoc = Ret (Some r) /\
       TestReport.testcases r = [] /\
       (absentOrZero (getAttribute testsuite "tests") -> TestReport.tests r = Num 0) /\
       (absentOrZero (getAttribute testsuite "tests") ->
        absentOrZero (getAttribute testsuite "failures") ->
        absentOrZero (getAttribute testsuite "errors") ->
        absentOrZero (getAttribute testsuite "skipped") ->
        TestReport.passed r = Num 0)).
Proof.
  split.
  - unfold containsElement. rewrite <- querySelector_None.
    destruct (querySelector (subtrees xmlDoc) "testsuite") as [ts|] eqn:H.
    + destruct (parseDocument_Some xmlDoc ts H) as (tcs & -> & _).
      split; discriminate.
    + rewrite (parseDocument_None xmlDoc H). split; reflexivity.
  - intros testsuite Hts Hnone. apply querySelector_first in Hts.
    destruct (parseDocument_Some xmlDoc testsuite Hts) as (tcs & -> & HF).
    rewrite (querySelectorAll_nil _ _ Hnone) in HF. inversion HF; subst.
    eexists. split; [reflexivity |]. cbn [TestReport.testcases TestReport.tests
      TestReport.passed]. repeat split.
    + apply absentOrZero_reads.
    + intros Ht Hf He Hs.
      rewrite (absentOrZero_reads _ Ht), (absentOrZero_reads _ Hf),
        (absentOrZero_reads _ He), (absentOrZero_reads _ Hs). reflexivity.
Qed.

(** C3, as stated, fails: a document whose testsuite element has tests="5"
    and no testcase child parses to a report with tests = 5 and
    passed = 5, not 0. *)
Lemma parse_five_tests_no_testcase :
  exists r,
    parseDocument five_doc = Ret (Some r) /\
    childNodes five_suite = [] /\
    TestReport.testcases r = [] /\
    TestReport.tests r = Num 5 /\ TestReport.tests r <> Num 0 /\
    TestReport.passed r = Num 5 /\ TestReport.passed r <> Num 0.
Proof.
  eexists. split; [vm_compute; reflexivity |]. cbn.
  repeat split; try reflexivity; discriminate.
Qed.

(** ** Testcases *)

Lemma hasMarker_found (tag : string) (e : element) :
  hasMarker tag e <-> found (querySelector (descendants e) tag) = true.
Proof. unfold hasMarker. rewrite found_querySelector. reflexivity. Qed.

Lemma no_marker (tag : string) (e : element) :
  ~ hasMarker tag e <-> querySelector (descendants e) tag = None.
Proof. unfold hasMarker. rewrite querySelector_None. reflexivity. Qed.

Ltac marker_cases testcase :=
  destruct (querySelector (descendants testcase) "failure") as [f|] eqn:Hf;
  [| destruct (querySelector (descendants testcase) "error") as [e|] eqn:He;
     [| destruct (querySelector (descendants testcase) "skipped") as [k|] eqn:Hk ] ].

Ltac absurd_marker :=
  match goal with
  | H : ~ hasMarker ?tag ?e, E : querySelector (descendants ?e) ?tag = Some _ |- _ =>
      apply no_marker in H; congruence
  | H : hasMarker ?tag ?e, E : querySelector (descendants ?e) ?tag = None |- _ =>
      apply hasMarker_found in H; rewrite E in H; discriminate
  | H : firstWith ?tag (descendants ?e) _, E : querySelector (descendants ?e) ?tag = None |- _ =>
      apply querySelector_first in H; congruence
  end.

Lemma truthy_status (m : element) (v : string) (tc : TestCase.t) :
  TestCase.status tc = v ->
  TestCase.status
    (if truthy (Str (textContent m))
     then TestCase.set_details (Str (trim (textContent m))) tc
     else tc) = v.
Proof. intros H. destruct (truthy (Str (textContent m))); exact H. Qed.

Lemma parseTestcase_status (testcase : element) (tc : TestCase.t) :
  parseTestcase testcase = Ret tc -> statusOf testcase (TestCase.status tc).
Proof.
  unfold parseTestcase, statusOf. marker_cases testcase;
    cbn [found deref mbind exn_bind]; intros [= <-];
    repeat split; intros; try absurd_marker;
    try (apply truthy_status); reflexivity.
Qed.

Lemma truthy_details (m : element) (tc : TestCase.t) :
  TestCase.details tc = Undefined ->
  TestCase.details
    (if truthy (Str (textContent m))
     then TestCase.set_details (Str (trim (textContent m))) tc
     else tc) = detailsFrom m.
Proof.
  intros H. unfold detailsFrom. destruct (textContent m); [exact H | reflexivity].
Qed.

Lemma truthy_message (m : element) (v : jsstr) (tc : TestCase.t) :
  TestCase.message tc = v ->
  TestCase.message
    (if truthy (Str (textContent m))
     then TestCase.set_details (Str (trim (textContent m))) tc
     else tc) = v.
Proof. intros H. destruct (truthy (Str (textContent m))); exact H. Qed.

Lemma parseTestcase_marker (testcase : element) (tc : TestCase.t) :
  parseTestcase testcase = Ret tc -> markerOf testcase tc.
Proof.
  unfold parseTestcase, markerOf. marker_cases testcase;
    cbn [found deref mbind exn_bind]; intros [= <-];
    repeat split; intros; try absurd_marker; try reflexivity;
    repeat match goal with
           | H : firstWith _ _ _ |- _ => apply querySelector_first in H
           end;
    try match goal with
        | H : querySelector ?l ?t = Some ?a, H' : querySelector ?l ?t = Some ?b |- _ =>
            assert (a = b) as -> by congruence
        end;
    try (apply truthy_message; reflexivity);
    try (apply truthy_details; reflexivity);
    reflexivity.
Qed.

Lemma parseDocument_testcases (xmlDoc : document) (r : TestReport.t) :
  parseDocument xmlDoc = Ret (Some r) ->
  Forall2 (fun e tc => parseTestcase e = Ret tc)
          (querySelectorAll (subtrees xmlDoc) "testcase") (TestReport.testcases r).
Proof.
  intros H. destruct (querySelector (subtrees xmlDoc) "testsuite") as [ts|] eqn:Hts.
  - destruct (parseDocument_Some xmlDoc ts Hts) as (tcs & E & HF).
    rewrite E in H. injection H as <-. exact HF.
  - rewrite (parseDocument_None xmlDoc Hts) in H. discriminate.
Qed.

(** C7: in every parsed report the testcases are the document's testcase
    elements in order, and the status of each is fixed by the first-match
    order: "failed" if a failure element is present, otherwise "error" if
    an error element is present, otherwise "skipped" if a skipped element
    is present, otherwise "passed". *)
Theorem status_first_match (xmlDoc : document) (r : TestReport.t) :
  parseDocument xmlDoc = Ret (Some r) ->
  Forall2 (fun testcase tc => statusOf testcase (TestCase.status tc))
          (querySelectorAll (subtrees xmlDoc) "testcase") (TestReport.testcases r).
Proof.
  intros H. apply parseDocument_testcases in H.
  induction H; constructor; [apply parseTestcase_status; assumption | assumption].
Qed.

Lemma status_first_match_witness :
  Forall2 (fun testcase tc => statusOf testcase (TestCase.status tc))
          (querySelectorAll (subtrees markers_doc) "testcase")
          [TestCase.mk Null (Str "t1") (FDec 0 0) "failed" (Str "m") (Str "");
           TestCase.mk Null (Str "t2") (FDec 0 0) "skipped" (Str "m") Undefined].
Proof.
  apply (status_first_match markers_doc
           (TestReport.mk (Num 2) (Num 0) (Num 0) (Num 0) (FDec 0 0) Null
              [TestCase.mk Null (Str "t1") (FDec 0 0) "failed" (Str "m") (Str "");
               TestCase.mk Null (Str "t2") (FDec 0 0) "skipped" (Str "m") Undefined]
              Undefined (Num 2))).
  vm_compute. reflexivity.
Defined.

(** C9 (as amended): in every parsed report, the message of a testcase is
    the message attribute of its matched marker (the first failure element,
    else the first error element, else the first skipped element) and of no
    other element; for a failure or error marker the details are the
    marker's text content trimmed of surrounding white space, present as
    soon as the text content itself is not empty (so an empty string when
    the text is white space only) and omitted when the text content is
    empty; a skipped marker gives no details; a testcase without marker has
    neither message nor details. *)
Theorem message_details_from_marker (xmlDoc : document) (r : TestReport.t) :
  parseDocument xmlDoc = Ret (Some r) ->
  Forall2 markerOf (querySelectorAll (subtrees xmlDoc) "testcase") (TestReport.testcases r).
Proof.
  intros H. apply parseDocument_testcases in H.
  induction H; constructor; [apply parseTestcase_marker; assumption | assumption].
Qed.

Lemma message_details_from_marker_witness :
  Forall2 markerOf (querySelectorAll (subtrees markers_doc) "testcase")
          [TestCase.mk Null (Str "t1") (FDec 0 0) "failed" (Str "m") (Str "");
           TestCase.mk Null (Str "t2") (FDec 0 0) "skipped" (Str "m") Undefined].
Proof.
  apply (message_details_from_marker markers_doc
           (TestReport.mk (Num 2) (Num 0) (Num 0) (Num 0) (FDec 0 0) Null
              [TestCase.mk Null (Str "t1") (FDec 0 0) "failed" (Str "m") (Str "");
               TestCase.mk Null (Str "t2") (FDec 0 0) "skipped" (Str "m") Undefined]
              Undefined (Num 2))).
  vm_compute. reflexivity.
Defined.

(** C9, as stated, fails twice: a failure marker whose text is white space
    only has an empty trimmed text, yet details is present (the empty
    string); a skipped marker with the text " no wifi " is the matched
    marker, yet details is omitted instead of being "no wifi". *)
Lemma details_blank_and_skipped :
  exists tc1 tc2,
    parseTestcase blank_failure_case = Ret tc1 /\
    firstWith "failure" (descendants blank_failure_case) blank_failure /\
    trim (textContent blank_failure) = "" /\
    TestCase.details tc1 = Str "" /\ TestCase.details tc1 <> Undefined /\
    parseTestcase reasoned_skip_case = Ret tc2 /\
    firstWith "skipped" (descendants reasoned_skip_case) reasoned_skip /\
    trim (textContent reasoned_skip) = "no wifi" /\
    TestCase.details tc2 = Undefined /\ TestCase.details tc2 <> Str "no wifi".
Proof.
  eexists. eexists.
  split; [vm_compute; reflexivity |].
  split; [apply querySelector_first; reflexivity |].
  split; [reflexivity |]. split; [reflexivity |]. split; [discriminate |].
  split; [vm_compute; reflexivity |].
  split; [apply querySelector_first; reflexivity |].
  split; [reflexivity |]. split; [reflexivity | discriminate].
Qed.

(** ** Properties of a report *)

Lemma readProperty_match (v : jsstr) (p : element) :
  isFirmwareProperty p = true -> readProperty v p = getAttribute p "value".
Proof.
  unfold isFirmwareProperty, readProperty, strict_eq. intros H.
  destruct (getAttribute p "name"); try discriminate. rewrite H. reflexivity.
Qed.

Lemma readProperty_other (v : jsstr) (p : element) :
  isFirmwareProperty p = false -> readProperty v p = v.
Proof.
  unfold isFirmwareProperty, readProperty, strict_eq. intros H.
  destruct (getAttribute p "name"); try reflexivity. rewrite H. reflexivity.
Qed.

Lemma forEach_readProperty_others (l : list element) (v : jsstr) :
  Forall (fun x => isFirmwareProperty x = false) l -> forEach l readProperty v = v.
Proof.
  unfold forEach. intros H. revert v. induction H as [|x l Hx _ IH]; intros v.
  - reflexivity.
  - cbn [fold_left]. rewrite (readProperty_other v x Hx). apply IH.
Qed.

(** The loop over the properties keeps the value of the last match. *)
Lemma forEach_readProperty_last (l : list element) (v : jsstr) (p : element) :
  lastWith isFirmwareProperty l p -> forEach l readProperty v = getAttribute p "value".
Proof.
  intros (before & after & -> & Hp & Hafter). unfold forEach.
  rewrite fold_left_app. cbn [fold_left].
  rewrite (readProperty_match _ p Hp).
  apply forEach_readProperty_others. exact Hafter.
Qed.

Lemma parseDocument_firmware (xmlDoc : document) (r : TestReport.t) :
  parseDocument xmlDoc = Ret (Some r) ->
  TestReport.firmware_version r =
    forEach (querySelectorAll (subtrees xmlDoc) "property") readProperty Undefined.
Proof.
  intros H. destruct (querySelector (subtrees xmlDoc) "testsuite") as [ts|] eqn:Hts.
  - destruct (parseDocument_Some xmlDoc ts Hts) as (tcs & E & _).
    rewrite E in H. injection H as <-. reflexivity.
  - rewrite (parseDocument_None xmlDoc Hts) in H. discriminate.
Qed.

(** C8 (as amended): in every parsed report, when the document holds one
    or more property elements with name "firmware_version",
    firmware_version is the value attribute of the last such property in
    document order (null if that property has no value attribute); when
    the document holds none, the firmware_version field is absent. *)
Theorem firmware_version_last (xmlDoc : document) (r : TestReport.t) :
  parseDocument xmlDoc = Ret (Some r) ->
  (forall p,
     lastWith isFirmwareProperty (querySelectorAll (subtrees xmlDoc) "property") p ->
     TestReport.firmware_version r = getAttribute p "value") /\
  (Forall (fun p => isFirmwareProperty p = false)
          (querySelectorAll (subtrees xmlDoc) "property") ->
   TestReport.firmware_version r = Undefined).
Proof.
  intros H. rewrite (parseDocument_firmware xmlDoc r H). split.
  - intros p Hp. apply forEach_readProperty_last. exact Hp.
  - apply forEach_readProperty_others.
Qed.

Lemma firmware_version_last_witness :
  (forall p,
     lastWith isFirmwareProperty (querySelectorAll (subtrees two_versions_doc) "property") p ->
     Str "24.10.1" = getAttribute p "value") /\
  (Forall (fun p => isFirmwareProperty p = false)
          (querySelectorAll (subtrees two_versions_doc) "property") ->
   Str "24.10.1" = Undefined).
Proof.
  apply (firmware_version_last two_versions_doc
           (TestReport.mk (Num 0) (Num 0) (Num 0) (Num 0) (FDec 0 0) Null []
              (Str "24.10.1") (Num 0))).
  vm_compute. reflexivity.
Defined.

(** C8, as stated, fails: with two firmware_version properties, of values
    "23.05.0" then "24.10.1", the report's firmware_version is "24.10.1",
    the value of the second, not the value of the first. *)
Lemma firmware_version_not_first :
  exists r,
    parseDocument two_versions_doc = Ret (Some r) /\
    querySelectorAll (subtrees two_versions_doc) "property"
      = [first_property; second_property] /\
    isFirmwareProperty first_property = true /\
    getAttribute first_property "value" = Str "23.05.0" /\
    TestReport.firmware_version r = Str "24.10.1" /\
    TestReport.firmware_version r <> getAttribute first_property "value".
Proof.
  eexists. split; [vm_compute; reflexivity |]. cbn [TestReport.firmware_version].
  repeat split; try reflexivity. discriminate.
Qed.

(** ** updateStats *)

Lemma onlineCount_filter (ds : list Device.t) :
  Z.of_nat (List.length (List.filter (fun d => strict_eq (Device.status d) "online") ds))
  = onlineCount ds.
Proof.
  induction ds as [|d ds IH]; [reflexivity |].
  cbn [List.filter onlineCount]. rewrite <- IH.
  destruct (jsstr_eq_dec (Device.status d) (Str "online")) as [E | N].
  - rewrite E. cbn [strict_eq]. rewrite String.eqb_refl. cbn [List.length]. lia.
  - destruct (Device.status d) as [| |s]; cbn [strict_eq]; try lia.
    destruct (String.eqb_spec s "online"); [subst; congruence | lia].
Qed.

(** The loop of [updateStats] adds to each counter, in the order of the
    list, the values of the reports. *)
Lemma forEach_addDevice (ds : list Device.t) (t o a b c d : number) :
  forEach ds addDevice (Stats.mk t o a b c d) =
  Stats.mk t o
    (fold_left jsadd (TestReport.tests <$> reports ds) a)
    (fold_left jsadd (TestReport.passed <$> reports ds) b)
    (fold_left jsadd ((fun r => jsadd (TestReport.failures r) (TestReport.errors r))
                        <$> reports ds) c)
    (fold_left jsadd (TestReport.skipped <$> reports ds) d).
Proof.
  unfold forEach, reports. revert a b c d.
  induction ds as [|x ds IH]; intros a b c d.
  - reflexivity.
  - cbn [fold_left]. unfold addDevice at 2. cbn [omap list_omap].
    destruct (Device.report x) as [r|].
    + cbn [Stats.total Stats.online Stats.totalTests Stats.passed Stats.failed Stats.skipped].
      rewrite IH. reflexivity.
    + apply IH.
Qed.

(** [updateStats] in closed form. *)
Lemma updateStats_eq (this : DeviceManager.t) :
  updateStats this =
    Stats.mk
      (Num (Z.of_nat (List.length (DeviceManager.devicesData this))))
      (Num (onlineCount (DeviceManager.devicesData this)))
      (sumNumbers (TestReport.tests <$> reports (DeviceManager.devicesData this)))
      (sumNumbers (TestReport.passed <$> reports (DeviceManager.devicesData this)))
      (sumNumbers ((fun r => jsadd (TestReport.failures r) (TestReport.errors r))
                     <$> reports (DeviceManager.devicesData this)))
      (sumNumbers (TestReport.skipped <$> reports (DeviceManager.devicesData this))).
Proof.
  unfold updateStats. rewrite forEach_addDevice, onlineCount_filter. reflexivity.
Qed.

Lemma natural_sum (l : list number) :
  Forall natural l -> 0 <= sumZ (valueOf <$> l).
Proof.
  induction 1 as [|n l (z & -> & Hz) _ IH]; cbn [fmap list_fmap sumZ fold_right valueOf].
  - lia.
  - fold (sumZ (valueOf <$> l)). lia.
Qed.

Lemma fold_jsadd_exact (l : list number) (a : Z) :
  0 <= a -> Forall natural l -> a + sumZ (valueOf <$> l) <= maxExact ->
  fold_left jsadd l (Num a) = Num (a + sumZ (valueOf <$> l)).
Proof.
  intros Ha Hl. revert a Ha.
  induction Hl as [|n l (z & -> & Hz) Hl IH]; intros a Ha Hb;
    cbn [fmap list_fmap sumZ fold_right valueOf fold_left] in *.
  - f_equal. lia.
  - fold (sumZ (valueOf <$> l)) in *. pose proof (natural_sum l Hl) as Hs.
    rewrite jsadd_exact by lia. rewrite IH by lia. f_equal. lia.
Qed.

(** A sum of counts that are not negative is exact up to 2^53. *)
Lemma sumNumbers_exact (l : list number) :
  Forall natural l -> sumZ (valueOf <$> l) <= maxExact ->
  sumNumbers l = Num (sumZ (valueOf <$> l)).
Proof.
  intros Hl Hb. unfold sumNumbers. rewrite (fold_jsadd_exact l 0) by (assumption || lia).
  reflexivity.
Qed.

Lemma onlineCount_app (a b : list Device.t) :
  onlineCount (a ++ b)%list = onlineCount a + onlineCount b.
Proof. induction a as [|x a IH]; cbn [app onlineCount]; lia. Qed.

(** C5 (as amended): for every device list the statistics are computed
    (the function is total): total is the length of the list, online the
    number of devices whose status is "online", and totalTests, passed,
    failed and skipped are the sums, over the devices that have a report,
    of tests, passed, failures + errors and skipped, as JavaScript adds
    them from 0 in the order of the list, every addition rounded to a
    double; each of them is the exact sum whenever the values added are
    integers that are not negative and the exact sum is at most 2^53; a
    device without report adds nothing to these four but counts in total
    and online; on the empty list every field is 0. *)
Theorem updateStats_sums (this : DeviceManager.t) :
  updateStats this =
    Stats.mk
      (Num (Z.of_nat (List.length (DeviceManager.devicesData this))))
      (Num (onlineCount (DeviceManager.devicesData this)))
      (sumNumbers (TestReport.tests <$> reports (DeviceManager.devicesData this)))
      (sumNumbers (TestReport.passed <$> reports (DeviceManager.devicesData this)))
      (sumNumbers ((fun r => jsadd (TestReport.failures r) (TestReport.errors r))
                     <$> reports (DeviceManager.devicesData this)))
      (sumNumbers (TestReport.skipped <$> reports (DeviceManager.devicesData this))) /\
  (forall field total,
     In (field, total)
        [(TestReport.tests, Stats.totalTests); (TestReport.passed, Stats.passed);
         (TestReport.skipped, Stats.skipped)] ->
     Forall (fun r => natural (field r)) (reports (DeviceManager.devicesData this)) ->
     sumZ ((fun r => valueOf (field r)) <$> reports (DeviceManager.devicesData this))
       <= maxExact ->
     total (updateStats this)
     = Num (sumZ ((fun r => valueOf (field r))
                    <$> reports (DeviceManager.devicesData this)))) /\
  (Forall (fun r => natural (TestReport.failures r) /\ natural (TestReport.errors r))
          (reports (DeviceManager.devicesData this)) ->
   sumZ ((fun r => valueOf (TestReport.failures r) + valueOf (TestReport.errors r))
           <$> reports (DeviceManager.devicesData this)) <= maxExact ->
   Stats.failed (updateStats this)
   = Num (sumZ ((fun r => valueOf (TestReport.failures r) + valueOf (TestReport.errors r))
                  <$> reports (DeviceManager.devicesData this)))) /\
  (forall before d after,
     DeviceManager.devicesData this = (before ++ d :: after)%list ->
     Device.report d = None ->
     forall rest, rest = updateStats (DeviceManager.set_devicesData (before ++ after) this) ->
     Stats.totalTests (updateStats this) = Stats.totalTests rest /\
     Stats.passed (updateStats this) = Stats.passed rest /\
     Stats.failed (updateStats this) = Stats.failed rest /\
     Stats.skipped (updateStats this) = Stats.skipped rest /\
     (exists n, Stats.total rest = Num n /\ Stats.total (updateStats this) = Num (n + 1)) /\
     (exists n, Stats.online rest = Num n /\
        Stats.online (updateStats this) =
        Num (n + if jsstr_eq_dec (Device.status d) (Str "online") then 1 else 0))) /\
  (DeviceManager.devicesData this = [] ->
   updateStats this = Stats.mk (Num 0) (Num 0) (Num 0) (Num 0) (Num 0) (Num 0)).
Proof.
  split; [apply updateStats_eq |]. split; [| split; [| split]].
  - intros field total Hin Hnat Hb. rewrite updateStats_eq.
    assert (E : forall f : TestReport.t -> number,
               Forall (fun r => natural (f r)) (reports (DeviceManager.devicesData this)) ->
               sumZ ((fun r => valueOf (f r)) <$> reports (DeviceManager.devicesData this))
                 <= maxExact ->
               sumNumbers (f <$> reports (DeviceManager.devicesData this))
               = Num (sumZ ((fun r => valueOf (f r))
                              <$> reports (DeviceManager.devicesData this)))).
    { intros f Hf Hs.
      rewrite sumNumbers_exact; rewrite <- ?list_fmap_compose; try assumption.
      - reflexivity.
      - apply Forall_fmap. exact Hf. }
    destruct Hin as [[= <- <-] | [[= <- <-] | [[= <- <-] | []]]];
      cbn [Stats.totalTests Stats.passed Stats.skipped]; apply E; assumption.
  - intros Hnat Hb. rewrite updateStats_eq. cbn [Stats.failed].
    set (rs := reports (DeviceManager.devicesData this)) in *.
    assert (E : (fun r => jsadd (TestReport.failures r) (TestReport.errors r)) <$> rs
                = (fun r => Num (valueOf (TestReport.failures r) + valueOf (TestReport.errors r)))
                    <$> rs).
    { clear -Hnat Hb. induction Hnat as [|r l [(f & Ef & Hf) (e & Ee & He)] Hl IH];
        [reflexivity |].
      cbn [fmap list_fmap sumZ fold_right] in *.
      rewrite Ef, Ee in *. cbn [valueOf] in *.
      assert (Hrest : 0 <= sumZ ((fun r => valueOf (TestReport.failures r)
                                         + valueOf (TestReport.errors r)) <$> l)).
      { clear -Hl. induction Hl as [|r l [(f & Ef & Hf) (e & Ee & He)] _ IH];
          cbn [fmap list_fmap sumZ fold_right]; [lia |].
        rewrite Ef, Ee. cbn [valueOf].
        fold (sumZ ((fun r => valueOf (TestReport.failures r)
                            + valueOf (TestReport.errors r)) <$> l)). lia. }
      fold (sumZ ((fun r => valueOf (TestReport.failures r)
                          + valueOf (TestReport.errors r)) <$> l)) in Hb.
      rewrite jsadd_exact by lia. f_equal. apply IH. lia. }
    rewrite E. rewrite sumNumbers_exact; rewrite <- ?list_fmap_compose.
    + reflexivity.
    + apply Forall_fmap. clear -Hnat.
      induction Hnat as [|r l [(f & Ef & Hf) (e & Ee & He)] _ IH]; constructor; [| exact IH].
      cbn. rewrite Ef, Ee. cbn [valueOf]. exists (f + e). split; [reflexivity | lia].
    + exact Hb.
  - intros before d after E Hd rest ->. rewrite !updateStats_eq, E.
    cbn [DeviceManager.set_devicesData DeviceManager.devicesData Stats.total Stats.online
         Stats.totalTests Stats.passed Stats.failed Stats.skipped].
    assert (reports (before ++ d :: after)%list = reports (before ++ after)%list) as ->.
    { unfold reports. rewrite !omap_app. cbn [omap list_omap]. rewrite Hd. reflexivity. }
    repeat split.
    + eexists. split; [reflexivity |]. f_equal. rewrite !length_app. cbn [List.length]. lia.
    + eexists. split; [reflexivity |]. f_equal. rewrite !onlineCount_app.
      cbn [onlineCount]. lia.
  - intros E. unfold updateStats. rewrite E. reflexivity.
Qed.

(** C5, as stated, fails: for three devices whose reports count 2^53 tests,
    1 test and 1 test, totalTests is 9007199254740992, not the sum
    9007199254740994 of the three counts; with the same devices in the
    reverse order totalTests is 9007199254740994. *)
Lemma updateStats_sum_rounded :
  TestReport.tests <$> reports uneven_devices
    = [Num 9007199254740992; Num 1; Num 1] /\
  9007199254740992 + 1 + 1 = 9007199254740994 /\
  Stats.totalTests (updateStats (uneven_manager uneven_devices))
    = Num 9007199254740992 /\
  Stats.totalTests (updateStats (uneven_manager uneven_devices))
    <> Num 9007199254740994 /\
  Stats.totalTests (updateStats (uneven_manager (rev uneven_devices)))
    = Num 9007199254740994.
Proof.
  split; [reflexivity |]. split; [reflexivity |].
  split; [vm_compute; reflexivity |].
  split; [vm_compute; discriminate |].
  vm_compute. reflexivity.
Qed.

(** ** filterDevices *)

Lemma includes_empty (s : string) : includes s "" = true.
Proof. destruct s; reflexivity. Qed.

Lemma includes_in_empty (t : string) : includes "" t = true -> t = "".
Proof. destruct t; [reflexivity | discriminate]. Qed.

(** The filter callback never throws: [toLowerCase] is called on the name
    only after the name was found truthy. *)
Lemma matchesDevice_keeps (searchTerm filterType : string) (d : Device.t) :
  matchesDevice searchTerm filterType d = Ret (keepsDevice searchTerm filterType d).
Proof.
  unfold matchesDevice, keepsDevice. cbn [toLowerCase mbind exn_bind].
  destruct (includes (lower (Device.device d)) (lower searchTerm)) eqn:Hid;
    [reflexivity |].
  destruct (Device.name d) as [| |[|c n]]; try reflexivity.
  cbn [truthy orb lower].
  destruct (includes "" (lower searchTerm)) eqn:E; [|reflexivity].
  apply includes_in_empty in E. rewrite E, includes_empty in Hid. discriminate.
Qed.

Lemma keepsDevice_spec (searchTerm filterType : string) (d : Device.t) :
  keepsDevice searchTerm filterType d = true <->
  searchMatches d searchTerm /\ typeMatches d filterType.
Proof.
  unfold keepsDevice, searchMatches, typeMatches.
  rewrite andb_true_iff, !orb_true_iff, andb_true_iff, !String.eqb_eq, includes_lower.
  assert (match Device.name d with
          | Str n => includes (lower n) (lower searchTerm)
          | _ => false
          end = true <-> exists n, Device.name d = Str n /\ containsCI n searchTerm) as Hn.
  { destruct (Device.name d) as [| |n].
    - split; [discriminate | intros (n & H & _); discriminate].
    - split; [discriminate | intros (n & H & _); discriminate].
    - rewrite includes_lower. split; [eauto |]. intros (n' & [= <-] & H). exact H. }
  assert (match Device.report d with
          | Some r => jsgt (TestReport.failures r) (Num 0) || jsgt (TestReport.errors r) (Num 0)
          | None => false
          end = true <->
          exists r, Device.report d = Some r /\
            (jsgt (TestReport.failures r) (Num 0) = true \/
             jsgt (TestReport.errors r) (Num 0) = true)) as Hr.
  { destruct (Device.report d) as [r|].
    - rewrite orb_true_iff. split; [eauto |]. intros (r' & [= <-] & H). exact H.
    - split; [discriminate | intros (r & H & _); discriminate]. }
  tauto.
Qed.

Lemma filterDevices_keeps (this : DeviceManager.t) (searchTerm filterType : string) :
  filterDevices this searchTerm filterType =
  Ret (DeviceManager.mk (DeviceManager.baseUrl this) (DeviceManager.version this)
         (DeviceManager.devicesData this)
         (List.filter (keepsDevice searchTerm filterType) (DeviceManager.devicesData this))
         searchTerm filterType).
Proof.
  unfold filterDevices.
  rewrite (filterM_filter _ (keepsDevice searchTerm filterType))
    by apply matchesDevice_keeps.
  reflexivity.
Qed.

Lemma filter_sublist {A : Type} (p : A -> bool) (l : list A) : sublist (List.filter p l) l.
Proof.
  induction l as [|x l IH]; [constructor |].
  cbn [List.filter]. destruct (p x); constructor; exact IH.
Qed.

(** C6: for every device list, search term and filter type, filtering
    returns (without throwing) exactly the devices that match the search
    term (identifier or display name contains it up to case; the empty term
    matches all) and match the type ("all": no condition; "failed": a
    report with failures > 0 or errors > 0, so never a device without
    report), in the order of the input list. *)
Theorem filterDevices_exact (this : DeviceManager.t) (searchTerm filterType : string) :
  exists this' keep,
    filterDevices this searchTerm filterType = Ret this' /\
    (forall d, keep d = true <-> searchMatches d searchTerm /\ typeMatches d filterType) /\
    DeviceManager.filteredDevices this' = List.filter keep (DeviceManager.devicesData this) /\
    sublist (DeviceManager.filteredDevices this') (DeviceManager.devicesData this) /\
    (forall d, In d (DeviceManager.filteredDevices this') <->
               In d (DeviceManager.devicesData this) /\
               searchMatches d searchTerm /\ typeMatches d filterType) /\
    DeviceManager.devicesData this' = DeviceManager.devicesData this /\
    (forall d, searchMatches d "") /\
    (forall d, typeMatches d "all") /\
    (forall d, Device.report d = None -> ~ typeMatches d "failed").
Proof.
  eexists. exists (keepsDevice searchTerm filterType).
  split; [apply filterDevices_keeps |]. cbn [DeviceManager.filteredDevices
    DeviceManager.devicesData].
  split; [apply keepsDevice_spec |]. split; [reflexivity |].
  split; [apply filter_sublist |].
  split; [intros d; rewrite filter_In, keepsDevice_spec; reflexivity |].
  split; [reflexivity |].
  split; [intros d; left; apply containsCI_empty |].
  split; [intros d; left; reflexivity |].
  intros d Hd [H | (_ & r & Hr & _)]; [discriminate | congruence].
Qed.

(** C10: for every device list, search term and filter type, filtering
    does not throw, and a device whose name is absent or null is in the
    result exactly when it is in the list, its identifier contains the
    term up to case, and the type condition holds. *)
Theorem filterDevices_without_name (this : DeviceManager.t) (searchTerm filterType : string) :
  exists this',
    filterDevices this searchTerm filterType = Ret this' /\
    forall d,
      Device.name d = Undefined \/ Device.name d = Null ->
      (In d (DeviceManager.filteredDevices this') <->
       In d (DeviceManager.devicesData this) /\
       containsCI (Device.device d) searchTerm /\ typeMatches d filterType).
Proof.
  eexists. split; [apply filterDevices_keeps |].
  cbn [DeviceManager.filteredDevices]. intros d Hn.
  rewrite filter_In, keepsDevice_spec. unfold searchMatches.
  assert (containsCI (Device.device d) searchTerm \/
          (exists n, Device.name d = Str n /\ containsCI n searchTerm) <->
          containsCI (Device.device d) searchTerm) as Hs.
  { split; [|auto]. intros [H | (n & Hs & _)]; [exact H |].
    destruct Hn as [Hn | Hn]; congruence. }
  tauto.
Qed.

(** ** loadDevices *)

Section LoadingProperties.

Variable parseFromString : string -> document.
Variable net : nat -> string -> fetched string.
Variable this : DeviceManager.t.

Local Abbreviation loadReport' := (loadReport parseFromString net this).
Local Abbreviation resume' := (resume parseFromString net this).
Local Abbreviation step' := (step parseFromString net this).
Local Abbreviation steps' := (steps parseFromString net this).
Local Abbreviation reportUrl' := (reportUrl this).

(** The callback never rejects, and the report it sets depends on the
    outcome of its own request only. *)
Lemma loadReport_outcome (i : nat) (d : Device.t) :
  loadReport' i d =
  Ret (Device.set_report (reportOutcome parseFromString (net i (reportUrl' d))) d).
Proof.
  unfold loadReport, reportOutcome, try_catch.
  destruct (net i (reportUrl' d)) as [resp | e]; cbn [mbind exn_bind]; [|reflexivity].
  destruct (ok resp); cbn [negb]; [|reflexivity].
  destruct (body resp) as [text | e]; cbn [mbind exn_bind]; [|reflexivity].
  destruct (parseTestReport parseFromString text) as [r | e]; reflexivity.
Qed.

(** Two resumptions bring a task that starts to its end. *)
Lemma resume_twice (i : nat) (d : Device.t) :
  resume' i (resume' i (AwaitFetch d)) = Settled (loadReport' i d).
Proof.
  rewrite loadReport_outcome. unfold reportOutcome. cbn [resume].
  destruct (net i (reportUrl' d)) as [resp | e]; [|reflexivity].
  destruct (ok resp); cbn [negb]; [|reflexivity].
  cbn [resume].
  destruct (body resp) as [text | e]; [|reflexivity].
  destruct (parseTestReport parseFromString text) as [r | e]; reflexivity.
Qed.

Lemma resume_settles (i : nat) (t : task) :
  resume' i (resume' i (resume' i t)) = resume' i (resume' i t).
Proof.
  destruct t as [d | d resp | r]; [| | reflexivity].
  - rewrite resume_twice. reflexivity.
  - cbn [resume]. destruct (body resp) as [text | e]; [|reflexivity].
    destruct (parseTestReport parseFromString text); reflexivity.
Qed.

Lemma resume_settled (i : nat) (t : task) : settled t = true -> resume' i t = t.
Proof. destruct t; try discriminate. reflexivity. Qed.

Lemma resume_pending (i : nat) (t : task) :
  settled t = false -> (pending (resume' i t) < pending t)%nat.
Proof.
  destruct t as [d | d resp | r]; try discriminate; intros _; cbn [resume].
  - destruct (net i (reportUrl' d)) as [resp | e]; [|cbn; lia].
    destruct (negb (ok resp)); cbn; lia.
  - destruct (body resp) as [text | e]; [|cbn; lia].
    destruct (parseTestReport parseFromString text); cbn; lia.
Qed.

(** What every reachable state satisfies: each task, run to its end, gives
    what the callback gives for the device of its position. *)
Definition on_course (devices : list Device.t) (ts : list task) : Prop :=
  List.length ts = List.length devices /\
  forall i t d, ts !! i = Some t -> devices !! i = Some d ->
                resume' i (resume' i t) = Settled (loadReport' i d).

Lemma on_course_init (devices : list Device.t) : on_course devices (AwaitFetch <$> devices).
Proof.
  split; [apply length_fmap |]. intros i t d Ht Hd.
  rewrite list_lookup_fmap, Hd in Ht. injection Ht as <-. apply resume_twice.
Qed.

Lemma on_course_step (devices : list Device.t) (ts ts' : list task) :
  on_course devices ts -> step' ts ts' -> on_course devices ts'.
Proof.
  intros [Hlen Hinv] Hstep. destruct Hstep as [ts i t Hi Hs]. split.
  - rewrite length_insert. exact Hlen.
  - intros j t' d Hj Hd. destruct (decide (i = j)) as [<- | Hne].
    + rewrite list_lookup_insert_eq in Hj by (eapply lookup_lt_Some; exact Hi).
      injection Hj as <-. rewrite resume_settles. eapply Hinv; eassumption.
    + rewrite list_lookup_insert_ne in Hj by exact Hne. eapply Hinv; eassumption.
Qed.

Lemma on_course_steps (devices : list Device.t) (ts ts' : list task) :
  on_course devices ts -> steps' ts ts' -> on_course devices ts'.
Proof.
  intros H Hsteps. induction Hsteps as [| ts ts' ts'' Hstep _ IH]; [exact H |].
  apply IH. eapply on_course_step; eassumption.
Qed.

(** Whatever the order in which the tasks resume', once all have settled
    each holds what its own callback gives. *)
Lemma settled_on_course (devices : list Device.t) (ts : list task) :
  on_course devices ts -> Forall (fun t => settled t = true) ts ->
  ts = imap (fun i d => Settled (loadReport' i d)) devices.
Proof.
  intros [Hlen Hinv] Hall. apply list_eq. intros i.
  rewrite list_lookup_imap.
  destruct (ts !! i) as [t|] eqn:Ht.
  - destruct (devices !! i) as [d|] eqn:Hd.
    + cbn. f_equal. rewrite <- (Hinv i t d Ht Hd).
      rewrite Forall_forall in Hall.
      assert (settled t = true) as Hs.
      { apply Hall. eapply list_elem_of_lookup_2. exact Ht. }
      rewrite !(resume_settled i t Hs). reflexivity.
    + apply lookup_lt_Some in Ht. apply lookup_ge_None in Hd. lia.
  - destruct (devices !! i) as [d|] eqn:Hd; [|reflexivity].
    apply lookup_lt_Some in Hd. apply lookup_ge_None in Ht. lia.
Qed.

Lemma pendingAll_insert (ts : list task) (i : nat) (t t' : task) :
  ts !! i = Some t -> (pending t' < pending t)%nat ->
  (pendingAll (<[i := t']> ts) < pendingAll ts)%nat.
Proof.
  unfold pendingAll. intros Hi Hlt. revert i Hi.
  induction ts as [|x ts IH]; intros i Hi; [discriminate |].
  destruct i as [|i]; simpl in *.
  - injection Hi as ->. lia.
  - specialize (IH i Hi). apply Nat.add_lt_mono_l. exact IH.
Qed.

Lemma step_pending (ts ts' : list task) :
  step' ts ts' -> (pendingAll ts' < pendingAll ts)%nat.
Proof.
  intros [ts0 i t Hi Hs]. eapply pendingAll_insert; [exact Hi |].
  apply resume_pending. exact Hs.
Qed.

Lemma unsettled_steps (ts : list task) :
  ~ Forall (fun t => settled t = true) ts -> exists ts', step' ts ts'.
Proof.
  intros H. apply not_Forall_Exists in H; [|intros t; apply bool_dec].
  apply Exists_exists in H as (t & Hin & Hs).
  apply list_elem_of_lookup_1 in Hin as [i Hi].
  exists (<[i := resume' i t]> ts). constructor; [exact Hi |].
  cbn in Hs. destruct (settled t); congruence.
Qed.

(** The tasks always come to an end: from every state some run reaches a
    state where all have settled. *)
Lemma steps_to_settled (ts : list task) :
  exists ts', steps' ts ts' /\ Forall (fun t => settled t = true) ts'.
Proof.
  remember (pendingAll ts) as n eqn:Hn. revert ts Hn.
  induction n as [n IH] using lt_wf_ind. intros ts ->.
  destruct (decide (Forall (fun t => settled t = true) ts)) as [Hall | Hnot].
  - exists ts. split; [constructor | exact Hall].
  - destruct (unsettled_steps ts Hnot) as [ts1 Hstep].
    destruct (IH (pendingAll ts1) (step_pending _ _ Hstep) ts1 eq_refl)
      as (ts' & Hsteps & Hall).
    exists ts'. split; [econstructor; eassumption | exact Hall].
Qed.

End LoadingProperties.

Lemma imap_Ret {A B : Type} (g : nat -> A -> B) (l : list A) :
  imap (fun i x => Ret (g i x)) l = Ret <$> imap g l.
Proof. rewrite fmap_imap. apply imap_ext. reflexivity. Qed.

Lemma loadDevices_ok (parseFromString : string -> document)
    (net : nat -> string -> fetched string) (this : DeviceManager.t)
    (inventoryResponse : response (list Device.t)) (devices : list Device.t) :
  ok inventoryResponse = true ->
  body inventoryResponse = Ret devices ->
  loadDevices parseFromString net this (Ret inventoryResponse) =
  let loaded :=
    imap (fun i d =>
            Device.set_report
              (reportOutcome parseFromString (net i (reportUrl this d))) d) devices in
  Ret (DeviceManager.mk (DeviceManager.baseUrl this) (DeviceManager.version this) loaded
         (List.filter (keepsDevice (DeviceManager.searchTerm this)
                                   (DeviceManager.filterType this)) loaded)
         (DeviceManager.searchTerm this) (DeviceManager.filterType this),
       updateStats (DeviceManager.set_devicesData loaded this)).
Proof.
  intros Hok Hbody. unfold loadDevices, try_catch. cbn [mbind exn_bind].
  rewrite Hok, Hbody. cbn [negb mbind exn_bind].
  rewrite (imap_ext _ (fun i d => Ret (Device.set_report
             (reportOutcome parseFromString (net i (reportUrl this d))) d)))
    by (intros; apply loadReport_outcome).
  rewrite imap_Ret, all_Ret. cbn [mbind exn_bind].
  rewrite filterDevices_keeps. reflexivity.
Qed.

(** A failing inventory request rejects the whole load. *)
Lemma loadDevices_inventory_failure (parseFromString : string -> document)
    (net : nat -> string -> fetched string) (this : DeviceManager.t) :
  (forall e, loadDevices parseFromString net this (Throw e) = Throw e) /\
  loadDevices parseFromString net this (Ret (mkResponse false 404 "Not Found" (Ret [])))
    = Throw (Error "Failed to load devices.json: 404 Not Found").
Proof. split; reflexivity. Qed.

(** C4: for every list of per-device report outcomes, when the inventory
    request succeeds [loadDevices] resolves, with every device of the
    inventory present, in order and unchanged but for its report; the
    report of a device depends on the outcome of its own request only: it
    is null when that request failed (transport error, non-success
    response, unreadable or unparsable body), and it stays the same when
    the outcomes of the other devices change; the tasks always settle, and
    in whatever order they resume they end in this same list. *)
Theorem loadDevices_isolates_failures (parseFromString : string -> document)
    (net : nat -> string -> fetched string) (this : DeviceManager.t)
    (inventoryResponse : response (list Device.t)) (devices : list Device.t) :
  ok inventoryResponse = true ->
  body inventoryResponse = Ret devices ->
  exists this' stats,
    loadDevices parseFromString net this (Ret inventoryResponse) = Ret (this', stats) /\
    stats = updateStats this' /\
    List.length (DeviceManager.devicesData this') = List.length devices /\
    (forall i d,
       devices !! i = Some d ->
       exists d',
         DeviceManager.devicesData this' !! i = Some d' /\
         d' = Device.set_report (Device.report d') d /\
         Device.report d' = reportOutcome parseFromString (net i (reportUrl this d)) /\
         (fetchFailed parseFromString (net i (reportUrl this d)) ->
          Device.report d' = None) /\
         (forall net',
            net' i (reportUrl this d) = net i (reportUrl this d) ->
            exists this2 stats2,
              loadDevices parseFromString net' this (Ret inventoryResponse)
                = Ret (this2, stats2) /\
              DeviceManager.devicesData this2 !! i = Some d')) /\
    (exists ts,
       steps parseFromString net this (AwaitFetch <$> devices) ts /\
       Forall (fun t => settled t = true) ts) /\
    (forall ts,
       steps parseFromString net this (AwaitFetch <$> devices) ts ->
       Forall (fun t => settled t = true) ts ->
       result_of <$> ts = Ret <$> DeviceManager.devicesData this').
Proof.
  intros Hok Hbody. eexists. eexists.
  split; [apply (loadDevices_ok _ _ _ _ _ Hok Hbody) |].
  cbn [DeviceManager.devicesData]. split; [reflexivity |].
  split; [apply length_imap |]. split; [| split].
  - intros i d Hd. eexists. split; [rewrite list_lookup_imap, Hd; reflexivity |].
    cbn [Device.set_report Device.report Device.device Device.name Device.version_name
         Device.target Device.proxy Device.status].
    split; [destruct d; reflexivity |]. split; [reflexivity |]. split.
    + unfold fetchFailed, reportOutcome.
      intros [[e ->] | (resp & -> & [Hno | [[e He] | (text & Ht & [Hp | [e Hp]])]])].
      * reflexivity.
      * rewrite Hno. reflexivity.
      * rewrite He. destruct (ok resp); reflexivity.
      * rewrite Ht, Hp. destruct (ok resp); reflexivity.
      * rewrite Ht, Hp. destruct (ok resp); reflexivity.
    + intros net' Hnet. eexists. eexists.
      split; [apply (loadDevices_ok _ _ _ _ _ Hok Hbody) |].
      cbn [DeviceManager.devicesData]. rewrite list_lookup_imap, Hd.
      cbn [fmap option_fmap option_map]. rewrite Hnet. reflexivity.
  - apply steps_to_settled.
  - intros ts Hsteps Hall.
    rewrite (settled_on_course parseFromString net this devices ts
               (on_course_steps _ _ _ _ _ _ (on_course_init _ _ _ devices) Hsteps) Hall).
    rewrite !fmap_imap. apply imap_ext. intros i d _. cbn.
    apply loadReport_outcome.
Qed.

Lemma loadDevices_isolates_failures_witness :
  exists this' stats,
    loadDevices sample_parser sample_net sample_manager (Ret sample_inventory)
      = Ret (this', stats) /\
    Device.device <$> DeviceManager.devicesData this' = ["ar71xx-1"; "x86-64"] /\
    (fun d => TestReport.passed <$> Device.report d) <$> DeviceManager.devicesData this'
      = [None; Some (Num 2)] /\
    Stats.totalTests stats = Num 3.
Proof.
  destruct (loadDevices_isolates_failures sample_parser sample_net sample_manager
              sample_inventory sample_devices eq_refl eq_refl)
    as (this' & stats & Hload & _).
  exists this', stats. split; [exact Hload |].
  vm_compute in Hload. injection Hload as <- <-.
  vm_compute. repeat split; reflexivity.
Defined.

(** * Further properties of the code *)

(** ** Testcases of a report *)

Lemma parseTestcase_fields (testcase : element) (tc : TestCase.t) :
  parseTestcase testcase = Ret tc ->
  TestCase.classname tc = getAttribute testcase "classname" /\
  TestCase.name tc = getAttribute testcase "name" /\
  (TestCase.status tc = "passed" \/ TestCase.status tc = "failed" \/
   TestCase.status tc = "error" \/ TestCase.status tc = "skipped") /\
  (TestCase.status tc = "passed" ->
   TestCase.message tc = Undefined /\ TestCase.details tc = Undefined) /\
  (TestCase.status tc = "skipped" -> TestCase.details tc = Undefined).
Proof.
  unfold parseTestcase. marker_cases testcase;
    cbn [found deref mbind exn_bind]; intros [= <-];
    repeat match goal with
           | |- context [textContent ?m] => destruct (textContent m)
           end; cbn;
    repeat split; auto; intros; congruence.
Qed.

(** X1: in every parsed report the testcases are the testcase elements of
    the whole document (wherever they stand, also outside the first
    testsuite), one for one and in document order: same number, same
    classname and same name at every position. *)
Theorem testcases_in_document_order (xmlDoc : document) (r : TestReport.t) :
  parseDocument xmlDoc = Ret (Some r) ->
  List.length (TestReport.testcases r)
    = List.length (querySelectorAll (subtrees xmlDoc) "testcase") /\
  TestCase.classname <$> TestReport.testcases r
    = (fun e => getAttribute e "classname") <$> querySelectorAll (subtrees xmlDoc) "testcase" /\
  TestCase.name <$> TestReport.testcases r
    = (fun e => getAttribute e "name") <$> querySelectorAll (subtrees xmlDoc) "testcase".
Proof.
  intros H. apply parseDocument_testcases in H.
  induction H as [|e tc es tcs Hp _ IH]; [repeat split |].
  destruct IH as (Hl & Hc & Hn).
  destruct (parseTestcase_fields e tc Hp) as (Ec & En & _).
  cbn [List.length fmap list_fmap]. cbn [fmap] in Hc, Hn.
  rewrite Hl, Hc, Hn, Ec, En. repeat split.
Qed.

Lemma testcases_in_document_order_witness :
  List.length (TestReport.testcases scenario_result)
    = List.length (querySelectorAll (subtrees scenario_doc) "testcase") /\
  TestCase.classname <$> TestReport.testcases scenario_result
    = (fun e => getAttribute e "classname")
        <$> querySelectorAll (subtrees scenario_doc) "testcase" /\
  TestCase.name <$> TestReport.testcases scenario_result
    = (fun e => getAttribute e "name") <$> querySelectorAll (subtrees scenario_doc) "testcase".
Proof.
  apply (testcases_in_document_order scenario_doc scenario_result).
  vm_compute. reflexivity.
Defined.

(** X2: in every parsed report each testcase has one of the four statuses
    "passed", "failed", "error", "skipped"; a passed testcase has neither
    message nor details, and a skipped one has no details. *)
Theorem testcase_status_range (xmlDoc : document) (r : TestReport.t) :
  parseDocument xmlDoc = Ret (Some r) ->
  Forall (fun tc =>
            (TestCase.status tc = "passed" \/ TestCase.status tc = "failed" \/
             TestCase.status tc = "error" \/ TestCase.status tc = "skipped") /\
            (TestCase.status tc = "passed" ->
             TestCase.message tc = Undefined /\ TestCase.details tc = Undefined) /\
            (TestCase.status tc = "skipped" -> TestCase.details tc = Undefined))
         (TestReport.testcases r).
Proof.
  intros H. apply parseDocument_testcases in H.
  induction H as [|e tc es tcs Hp _ IH]; constructor; [|exact IH].
  destruct (parseTestcase_fields e tc Hp) as (_ & _ & H). exact H.
Qed.

Lemma testcase_status_range_witness :
  Forall (fun tc =>
            (TestCase.status tc = "passed" \/ TestCase.status tc = "failed" \/
             TestCase.status tc = "error" \/ TestCase.status tc = "skipped") /\
            (TestCase.status tc = "passed" ->
             TestCase.message tc = Undefined /\ TestCase.details tc = Undefined) /\
            (TestCase.status tc = "skipped" -> TestCase.details tc = Undefined))
         (TestReport.testcases scenario_result).
Proof.
  apply (testcase_status_range scenario_doc scenario_result).
  vm_compute. reflexivity.
Defined.

(** ** Counts that are not numbers *)

Lemma jssub_NaN (a b : number) : a = NaN \/ b = NaN -> jssub a b = NaN.
Proof. intros [-> | ->]; destruct a || destruct b; reflexivity. Qed.

Lemma jsadd_NaN (a b : number) : a = NaN \/ b = NaN -> jsadd a b = NaN.
Proof. intros [-> | ->]; destruct a || destruct b; reflexivity. Qed.

Lemma jssub_finite (a b : number) : a <> NaN -> finite b -> jssub a b <> NaN.
Proof.
  intros Ha [y ->]. destruct a as [| neg | x]; cbn [jssub];
    [congruence | discriminate | apply roundDouble_not_NaN].
Qed.

Lemma jsadd_finite (a b : number) : a <> NaN -> finite b -> jsadd a b <> NaN.
Proof.
  intros Ha [y ->]. destruct a as [| neg | x]; cbn [jsadd];
    [congruence | discriminate | apply roundDouble_not_NaN].
Qed.

Lemma parseDocument_passed (xmlDoc : document) (r : TestReport.t) :
  parseDocument xmlDoc = Ret (Some r) ->
  TestReport.passed r =
    jssub (jssub (jssub (TestReport.tests r) (TestReport.failures r))
                 (TestReport.errors r))
          (TestReport.skipped r).
Proof.
  intros H. destruct (querySelector (subtrees xmlDoc) "testsuite") as [ts|] eqn:Hts.
  - destruct (parseDocument_Some xmlDoc ts Hts) as (tcs & E & _).
    rewrite E in H. injection H as <-. reflexivity.
  - rewrite (parseDocument_None xmlDoc Hts) in H. discriminate.
Qed.

(** X3: in every parsed report, passed is NaN whenever one of tests,
    failures, errors, skipped is NaN; it is not NaN when the four counts
    are integers (so that, with no count NaN, it can be NaN only when a
    count is an infinity); and when passed is NaN the check
    passed + failures + errors + skipped == tests is false: one count that
    is not a number spoils the derived count. *)
Theorem passed_not_a_number (xmlDoc : document) (r : TestReport.t) :
  parseDocument xmlDoc = Ret (Some r) ->
  (TestReport.tests r = NaN \/ TestReport.failures r = NaN \/
   TestReport.errors r = NaN \/ TestReport.skipped r = NaN ->
   TestReport.passed r = NaN) /\
  (finite (TestReport.tests r) /\ finite (TestReport.failures r) /\
   finite (TestReport.errors r) /\ finite (TestReport.skipped r) ->
   TestReport.passed r <> NaN) /\
  (TestReport.passed r = NaN ->
   jseq (jsadd (jsadd (jsadd (TestReport.passed r) (TestReport.failures r))
                      (TestReport.errors r))
               (TestReport.skipped r))
        (TestReport.tests r) = false).
Proof.
  intros H. rewrite (parseDocument_passed xmlDoc r H). split; [| split].
  - intros [E | [E | [E | E]]]; rewrite E.
    + reflexivity.
    + rewrite (jssub_NaN _ NaN) by auto. reflexivity.
    + rewrite (jssub_NaN _ NaN) by auto. reflexivity.
    + apply jssub_NaN. auto.
  - intros ([t ->] & Hf & He & Hs).
    apply jssub_finite; [| exact Hs]. apply jssub_finite; [| exact He].
    apply jssub_finite; [discriminate | exact Hf].
  - intros ->. reflexivity.
Qed.

Lemma passed_not_a_number_witness :
  (TestReport.tests words_report = NaN \/ TestReport.failures words_report = NaN \/
   TestReport.errors words_report = NaN \/ TestReport.skipped words_report = NaN ->
   TestReport.passed words_report = NaN) /\
  (finite (TestReport.tests words_report) /\ finite (TestReport.failures words_report) /\
   finite (TestReport.errors words_report) /\ finite (TestReport.skipped words_report) ->
   TestReport.passed words_report <> NaN) /\
  (TestReport.passed words_report = NaN ->
   jseq (jsadd (jsadd (jsadd (TestReport.passed words_report)
                             (TestReport.failures words_report))
                      (TestReport.errors words_report))
               (TestReport.skipped words_report))
        (TestReport.tests words_report) = false).
Proof.
  apply (passed_not_a_number words_doc words_report).
  vm_compute. reflexivity.
Defined.

Lemma fold_jsadd_NaN (l : list number) : fold_left jsadd l NaN = NaN.
Proof. induction l as [|x l IH]; [reflexivity | exact IH]. Qed.

Lemma sumNumbers_NaN (l : list number) (a : number) :
  In NaN l -> fold_left jsadd l a = NaN.
Proof.
  revert a; induction l as [|x l IH]; intros a; [intros [] |].
  intros [-> | H]; cbn [fold_left].
  - rewrite (jsadd_NaN a NaN) by auto. apply fold_jsadd_NaN.
  - apply IH. exact H.
Qed.

Lemma sumNumbers_finite (l : list number) (a : number) :
  a <> NaN -> (forall n, In n l -> finite n) -> fold_left jsadd l a <> NaN.
Proof.
  revert a; induction l as [|x l IH]; intros a Ha Hl; [exact Ha |].
  cbn [fold_left]. apply IH.
  - apply jsadd_finite; [exact Ha | apply Hl; left; reflexivity].
  - intros n Hn. apply Hl. right. exact Hn.
Qed.

Lemma In_reports (ds : list Device.t) (r : TestReport.t) :
  In r (reports ds) <-> exists d, In d ds /\ Device.report d = Some r.
Proof.
  unfold reports. rewrite <- list_elem_of_In, list_elem_of_omap.
  split; intros (d & H1 & H2); exists d; [rewrite <- list_elem_of_In | rewrite list_elem_of_In];
    auto.
Qed.

Lemma In_fmap_reports (f : TestReport.t -> number) (ds : list Device.t) (n : number) :
  In n (f <$> reports ds) <->
  exists d r, In d ds /\ Device.report d = Some r /\ f r = n.
Proof.
  rewrite <- list_elem_of_In, list_elem_of_fmap. split.
  - intros (r & E & Hr). rewrite list_elem_of_In, In_reports in Hr.
    destruct Hr as (d & Hd & Hrep). eauto.
  - intros (d & r & Hd & Hrep & E). exists r. split; [auto |].
    rewrite list_elem_of_In, In_reports. eauto.
Qed.

(** What a total is when the values [f r] of the reports are added. *)
Lemma total_NaN (f : TestReport.t -> number) (ds : list Device.t) :
  ((exists d r, In d ds /\ Device.report d = Some r /\ f r = NaN) ->
   sumNumbers (f <$> reports ds) = NaN) /\
  ((forall d r, In d ds -> Device.report d = Some r -> finite (f r)) ->
   sumNumbers (f <$> reports ds) <> NaN).
Proof.
  unfold sumNumbers. split.
  - intros H. apply sumNumbers_NaN. apply In_fmap_reports. exact H.
  - intros H. apply sumNumbers_finite; [discriminate |].
    intros n Hn. apply In_fmap_reports in Hn as (d & r & Hd & Hr & <-). eauto.
Qed.

(** X4: a total of the statistics is NaN whenever a report that enters it
    holds a NaN: totalTests when some device's report has tests NaN,
    passed when some passed is NaN, failed when some failures or errors is
    NaN, skipped when some skipped is NaN; one malformed report turns the
    total of all devices into NaN.  A total is not NaN when every value
    added to it is an integer (for failed: when every failures + errors is
    one). *)
Theorem updateStats_not_a_number (this : DeviceManager.t) :
  (((exists d r, In d (DeviceManager.devicesData this) /\ Device.report d = Some r /\
                 TestReport.tests r = NaN) ->
    Stats.totalTests (updateStats this) = NaN) /\
   ((forall d r, In d (DeviceManager.devicesData this) -> Device.report d = Some r ->
                 finite (TestReport.tests r)) ->
    Stats.totalTests (updateStats this) <> NaN)) /\
  (((exists d r, In d (DeviceManager.devicesData this) /\ Device.report d = Some r /\
                 TestReport.passed r = NaN) ->
    Stats.passed (updateStats this) = NaN) /\
   ((forall d r, In d (DeviceManager.devicesData this) -> Device.report d = Some r ->
                 finite (TestReport.passed r)) ->
    Stats.passed (updateStats this) <> NaN)) /\
  (((exists d r, In d (DeviceManager.devicesData this) /\ Device.report d = Some r /\
                 (TestReport.failures r = NaN \/ TestReport.errors r = NaN)) ->
    Stats.failed (updateStats this) = NaN) /\
   ((forall d r, In d (DeviceManager.devicesData this) -> Device.report d = Some r ->
                 finite (jsadd (TestReport.failures r) (TestReport.errors r))) ->
    Stats.failed (updateStats this) <> NaN)) /\
  (((exists d r, In d (DeviceManager.devicesData this) /\ Device.report d = Some r /\
                 TestReport.skipped r = NaN) ->
    Stats.skipped (updateStats this) = NaN) /\
   ((forall d r, In d (DeviceManager.devicesData this) -> Device.report d = Some r ->
                 finite (TestReport.skipped r)) ->
    Stats.skipped (updateStats this) <> NaN)).
Proof.
  rewrite updateStats_eq.
  cbn [Stats.totalTests Stats.passed Stats.failed Stats.skipped].
  split; [apply total_NaN |]. split; [apply total_NaN |].
  split; [| apply total_NaN].
  pose proof (total_NaN (fun r => jsadd (TestReport.failures r) (TestReport.errors r))
                (DeviceManager.devicesData this)) as [H1 H2].
  split; [| exact H2].
  intros (d & r & Hd & Hr & E). apply H1. exists d, r.
  split; [exact Hd |]. split; [exact Hr |]. apply jsadd_NaN. exact E.
Qed.

(** ** Filtering again and again *)

Lemma append_assoc (a b c : string) : (a ++ b) ++ c = a ++ b ++ c.
Proof. induction a as [|x a IH]; simpl; [reflexivity | rewrite IH; reflexivity]. Qed.

Lemma append_empty_r (a : string) : a ++ "" = a.
Proof. induction a as [|x a IH]; simpl; [reflexivity | rewrite IH; reflexivity]. Qed.

Lemma length_append (a b : string) :
  String.length (a ++ b) = (String.length a + String.length b)%nat.
Proof. induction a as [|x a IH]; simpl; [reflexivity | rewrite IH; reflexivity]. Qed.

Lemma containsCI_trans (s t u : string) :
  containsCI s t -> containsCI t u -> containsCI s u.
Proof.
  rewrite <- !includes_lower, !includes_app.
  intros (a & b & ->) (c & d & ->).
  exists (a ++ c), (d ++ b). rewrite !append_assoc. reflexivity.
Qed.

Lemma filter_sublist_imp {A : Type} (p q : A -> bool) (l : list A) :
  (forall x, p x = true -> q x = true) ->
  sublist (List.filter p l) (List.filter q l).
Proof.
  intros H. induction l as [|x l IH]; [constructor |].
  cbn [List.filter]. destruct (p x) eqn:Hp.
  - rewrite (H x Hp). constructor. exact IH.
  - destruct (q x); [constructor |]; exact IH.
Qed.

Lemma filter_all {A : Type} (p : A -> bool) (l : list A) :
  (forall x, p x = true) -> List.filter p l = l.
Proof.
  intros H. induction l as [|x l IH]; [reflexivity |].
  cbn [List.filter]. rewrite H, IH. reflexivity.
Qed.

(** X5: the empty search term with the type "all" is the identity filter:
    the visible list is the whole device list, in its order, whatever the
    devices are. *)
Theorem filterDevices_identity (this : DeviceManager.t) :
  filterDevices this "" "all" =
  Ret (DeviceManager.mk (DeviceManager.baseUrl this) (DeviceManager.version this)
         (DeviceManager.devicesData this) (DeviceManager.devicesData this) "" "all").
Proof.
  rewrite filterDevices_keeps. rewrite filter_all; [reflexivity |].
  intros d. apply keepsDevice_spec. split; left; [apply containsCI_empty | reflexivity].
Qed.

(** X6: filtering can only narrow.  When the term [t1] occurs in the term
    [t2] up to case (as when the user types on), what [t2] selects is a
    sublist of what [t1] selects for the same type; and for one term, what
    the type "failed" selects is a sublist of what "all" selects. *)
Theorem filterDevices_narrows (this : DeviceManager.t) (t1 t2 filterType : string) :
  containsCI t2 t1 ->
  exists m1 m2 mall mfailed,
    filterDevices this t1 filterType = Ret m1 /\
    filterDevices this t2 filterType = Ret m2 /\
    filterDevices this t1 "all" = Ret mall /\
    filterDevices this t1 "failed" = Ret mfailed /\
    sublist (DeviceManager.filteredDevices m2) (DeviceManager.filteredDevices m1) /\
    sublist (DeviceManager.filteredDevices mfailed) (DeviceManager.filteredDevices mall).
Proof.
  intros Ht. do 4 eexists. rewrite !filterDevices_keeps.
  do 4 (split; [reflexivity |]). cbn [DeviceManager.filteredDevices]. split.
  - apply filter_sublist_imp. intros d. rewrite !keepsDevice_spec.
    intros [[H | (n & Hn & H)] Hty]; (split; [|exact Hty]).
    + left. eapply containsCI_trans; eassumption.
    + right. exists n. split; [exact Hn | eapply containsCI_trans; eassumption].
  - apply filter_sublist_imp. intros d. rewrite !keepsDevice_spec.
    intros [Hs _]. split; [exact Hs | left; reflexivity].
Qed.

Lemma filterDevices_narrows_witness :
  exists m1 m2 mall mfailed,
    filterDevices mixed_manager "ar" "all" = Ret m1 /\
    filterDevices mixed_manager "AR7" "all" = Ret m2 /\
    filterDevices mixed_manager "ar" "all" = Ret mall /\
    filterDevices mixed_manager "ar" "failed" = Ret mfailed /\
    sublist (DeviceManager.filteredDevices m2) (DeviceManager.filteredDevices m1) /\
    sublist (DeviceManager.filteredDevices mfailed) (DeviceManager.filteredDevices mall).
Proof.
  apply (filterDevices_narrows mixed_manager "ar" "AR7" "all").
  exists "", "AR", "7". split; reflexivity.
Defined.

(** X7: filtering keeps no hidden state: it leaves the device list as it
    is, records the term and the type, and calling it again with the
    recorded term and type (the default arguments) gives the same manager. *)
Theorem filterDevices_again (this : DeviceManager.t) (searchTerm filterType : string) :
  exists this',
    filterDevices this searchTerm filterType = Ret this' /\
    DeviceManager.devicesData this' = DeviceManager.devicesData this /\
    DeviceManager.searchTerm this' = searchTerm /\
    DeviceManager.filterType this' = filterType /\
    filterDevices this' (DeviceManager.searchTerm this') (DeviceManager.filterType this')
      = Ret this'.
Proof.
  eexists. split; [apply filterDevices_keeps |].
  do 3 (split; [reflexivity |]). rewrite filterDevices_keeps. reflexivity.
Qed.

(** ** Loading again *)

(** X8: a refresh replaces the device list and merges nothing: when the
    inventory request succeeds, loading from the manager a load has left,
    with the same answers of the server, gives that same manager and the
    same statistics; what the manager held before plays no part. *)
Theorem loadDevices_again (parseFromString : string -> document)
    (net : nat -> string -> fetched string) (this : DeviceManager.t)
    (inventoryResponse : response (list Device.t)) (devices : list Device.t) :
  ok inventoryResponse = true ->
  body inventoryResponse = Ret devices ->
  exists this' stats,
    loadDevices parseFromString net this (Ret inventoryResponse) = Ret (this', stats) /\
    loadDevices parseFromString net this' (Ret inventoryResponse) = Ret (this', stats) /\
    forall stale shown,
      loadDevices parseFromString net
        (DeviceManager.mk (DeviceManager.baseUrl this) (DeviceManager.version this)
           stale shown (DeviceManager.searchTerm this) (DeviceManager.filterType this))
        (Ret inventoryResponse) = Ret (this', stats).
Proof.
  intros Hok Hbody. do 2 eexists.
  split; [apply (loadDevices_ok _ _ _ _ _ Hok Hbody) |]. split.
  - rewrite (loadDevices_ok _ _ _ _ _ Hok Hbody). reflexivity.
  - intros stale shown. rewrite (loadDevices_ok _ _ _ _ _ Hok Hbody). reflexivity.
Qed.

Lemma loadDevices_again_witness :
  exists this' stats,
    loadDevices sample_parser sample_net sample_manager (Ret sample_inventory)
      = Ret (this', stats) /\
    loadDevices sample_parser sample_net this' (Ret sample_inventory) = Ret (this', stats) /\
    forall stale shown,
      loadDevices sample_parser sample_net
        (DeviceManager.mk (DeviceManager.baseUrl sample_manager)
           (DeviceManager.version sample_manager) stale shown
           (DeviceManager.searchTerm sample_manager)
           (DeviceManager.filterType sample_manager))
        (Ret sample_inventory) = Ret (this', stats).
Proof.
  apply (loadDevices_again sample_parser sample_net sample_manager sample_inventory
           sample_devices); reflexivity.
Defined.

(** ** Resource addresses *)

Lemma append_inj_l (a x y : string) : a ++ x = a ++ y -> x = y.
Proof. induction a as [|c a IH]; simpl; [auto | intros [= H]; auto]. Qed.

Lemma append_inj_r (b x y : string) : x ++ b = y ++ b -> x = y.
Proof.
  revert y; induction x as [|c x IH]; intros y H.
  - destruct y as [|d y]; [reflexivity |]. apply (f_equal String.length) in H.
    simpl in H. rewrite length_append in H. lia.
  - destruct y as [|d y].
    + apply (f_equal String.length) in H. simpl in H. rewrite length_append in H. lia.
    + simpl in H. injection H as -> H. rewrite (IH y H). reflexivity.
Qed.

(** X9: the address of a report is fixed by the text
    device-version_name alone: two devices ask for the same address
    exactly when these texts are equal.  So devices with one identifier
    share the address only if their version names are equal, but a part
    between dashes may pass from the end of the identifier to the start of
    the version name without changing the address. *)
Theorem reportUrl_same (this : DeviceManager.t) (d1 d2 : Device.t) :
  (reportUrl this d1 = reportUrl this d2 <->
   Device.device d1 ++ "-" ++ Device.version_name d1
   = Device.device d2 ++ "-" ++ Device.version_name d2) /\
  (Device.device d1 = Device.device d2 ->
   reportUrl this d1 = reportUrl this d2 ->
   Device.version_name d1 = Device.version_name d2) /\
  (forall a b c,
     Device.device d1 = a ++ "-" ++ b -> Device.version_name d1 = c ->
     Device.device d2 = a -> Device.version_name d2 = b ++ "-" ++ c ->
     reportUrl this d1 = reportUrl this d2).
Proof.
  assert (reportUrl this d1 = reportUrl this d2 <->
          Device.device d1 ++ "-" ++ Device.version_name d1
          = Device.device d2 ++ "-" ++ Device.version_name d2) as Hiff.
  { assert (forall d v : string,
              d ++ "-" ++ v ++ "/report.xml" = (d ++ "-" ++ v) ++ "/report.xml") as E
      by (intros; rewrite !append_assoc; reflexivity).
    unfold reportUrl, getResourceUrl.
    change (String.append ?a ?b) with (a ++ b). rewrite !E. split.
    - intros H. do 4 apply append_inj_l in H. apply append_inj_r in H. exact H.
    - intros ->. reflexivity. }
  split; [exact Hiff | split].
  - intros E H. apply Hiff in H. rewrite E in H.
    apply append_inj_l in H. apply (append_inj_l "-") in H. exact H.
  - intros a b c E1 E2 E3 E4. apply Hiff. rewrite E1, E2, E3, E4.
    rewrite !append_assoc. reflexivity.
Qed.

(** ** Utils: markup *)

Lemma lacks_app (c : ascii) (a b : string) :
  lacks c (a ++ b) = lacks c a && lacks c b.
Proof.
  induction a as [|x a IH]; simpl; [reflexivity |].
  rewrite IH, andb_assoc. reflexivity.
Qed.

Lemma lacks_drop (c : ascii) (n : nat) (s : string) :
  lacks c s = true -> lacks c (drop n s) = true.
Proof.
  revert s; induction n as [|n IH]; intros s H; [exact H |].
  destruct s as [|x r]; [reflexivity |]. simpl in *.
  apply IH. apply andb_true_iff in H. tauto.
Qed.

Lemma countChar_app (c : ascii) (a b : string) :
  countChar c (a ++ b) = (countChar c a + countChar c b)%nat.
Proof. induction a as [|x a IH]; simpl; [reflexivity | rewrite IH; lia]. Qed.

Lemma escapeChar_cases (c : ascii) :
  (c = "&"%char /\ escapeChar c = "&amp;") \/
  (c = "<"%char /\ escapeChar c = "&lt;") \/
  (c = ">"%char /\ escapeChar c = "&gt;") \/
  (c = "160"%char /\ escapeChar c = "&nbsp;") \/
  (c <> "&"%char /\ c <> "<"%char /\ c <> ">"%char /\ c <> "160"%char /\
   escapeChar c = String c EmptyString).
Proof.
  unfold escapeChar.
  destruct (Ascii.eqb_spec c "&") as [-> | H1]; [auto |].
  destruct (Ascii.eqb_spec c "<") as [-> | H2]; [auto |].
  destruct (Ascii.eqb_spec c ">") as [-> | H3]; [auto |].
  destruct (Ascii.eqb_spec c "160") as [-> | H4]; [auto 6 |].
  do 4 right. auto 6.
Qed.

Lemma eqb_false (a b : ascii) : a <> b -> Ascii.eqb a b = false.
Proof. intros H. destruct (Ascii.eqb_spec a b); [contradiction | reflexivity]. Qed.

Lemma escapeHtml_lacks_lt (text : string) : lacks "<" (escapeHtml text) = true.
Proof.
  induction text as [|c r IH]; [reflexivity |].
  cbn [escapeHtml]. rewrite lacks_app, IH, andb_true_r.
  destruct (escapeChar_cases c)
    as [[-> ->] | [[-> ->] | [[-> ->] | [[-> ->] | (H1 & H2 & H3 & H4 & ->)]]]];
    try reflexivity.
  cbn. rewrite (eqb_false c "<" H2). reflexivity.
Qed.

(** X10: [escapeHtml] leaves no [<] and no [>] in its result, returns a
    text without [&], [<], [>] and no-break space as it is, and leaves the
    double quotes where they are: as many in the result as in the text. *)
Theorem escapeHtml_markup (text : string) :
  lacks "<" (escapeHtml text) = true /\
  lacks ">" (escapeHtml text) = true /\
  countChar "034" (escapeHtml text) = countChar "034" text /\
  (lacks "&" text = true -> lacks "<" text = true -> lacks ">" text = true ->
   lacks "160" text = true -> escapeHtml text = text).
Proof.
  induction text as [|c r (IH1 & IH2 & IH3 & IH4)]; [repeat split |].
  cbn [escapeHtml]. rewrite !lacks_app, countChar_app, IH1, IH2, IH3.
  destruct (escapeChar_cases c)
    as [[-> ->] | [[-> ->] | [[-> ->] | [[-> ->] | (H1 & H2 & H3 & H4 & ->)]]]];
    repeat split; try reflexivity; try (cbn; intros; discriminate).
  - cbn. rewrite (eqb_false c "<" H2). reflexivity.
  - cbn. rewrite (eqb_false c ">" H3). reflexivity.
  - cbn [countChar]. lia.
  - cbn [lacks]. rewrite !andb_true_iff. intros [_ A] [_ B] [_ C] [_ D].
    cbn. rewrite IH4 by assumption. reflexivity.
Qed.

(** ** Utils: colour codes *)

Lemma replaceAnsi_step (c : ascii) (r : string) (openTags : list string) :
  replaceAnsi (String c r) openTags =
  match matchAnsi (String c r) with
  | Some (codes, rest) =>
      let '(out, tags) := replacer codes openTags in
      let '(more, tags') := replaceAnsi rest tags in
      (out ++ more, tags')
  | None =>
      let '(more, tags') := replaceAnsi r openTags in
      (String c more, tags')
  end.
Proof.
  rewrite replaceAnsi_equation_2.
  assert (forall x : {b : option (string * string) | matchAnsi (String c r) = b},
            replaceAnsi_unfold_clause_2 c r x openTags =
            match proj1_sig x with
            | Some (codes, rest) =>
                let '(out, tags) := replacer codes openTags in
                let '(more, tags') := replaceAnsi rest tags in
                (out ++ more, tags')
            | None =>
                let '(more, tags') := replaceAnsi r openTags in
                (String c more, tags')
            end) as E
    by (intros [[[codes rest]|] H]; reflexivity).
  apply E.
Qed.

Lemma matchAnsi_plain (c : ascii) (r : string) :
  c <> "027"%char -> matchAnsi (String c r) = None.
Proof.
  intros H. unfold matchAnsi. destruct r as [|b r]; [reflexivity |].
  rewrite (eqb_false c "027" H). reflexivity.
Qed.

Lemma replaceAnsi_plain (s : string) (openTags : list string) :
  lacks "027" s = true -> replaceAnsi s openTags = (s, openTags).
Proof.
  induction s as [|c r IH]; intros H.
  - apply replaceAnsi_equation_1.
  - cbn [lacks] in H. apply andb_true_iff in H as [Hc Hr].
    rewrite replaceAnsi_step, matchAnsi_plain, (IH Hr); [reflexivity |].
    intros ->. discriminate.
Qed.

(** X11: a text without escape character goes through [parseAnsiCodes]
    unchanged (and no tag is added). *)
Theorem parseAnsiCodes_plain (text : string) :
  lacks "027" text = true -> parseAnsiCodes text = text.
Proof.
  intros H. unfold parseAnsiCodes. destruct text as [|c r]; [reflexivity |].
  cbn [truthy]. rewrite (replaceAnsi_plain _ [] H). cbn. rewrite append_empty_r.
  reflexivity.
Qed.

Lemma parseAnsiCodes_plain_witness :
  parseAnsiCodes "AssertionError: no link on eth0" = "AssertionError: no link on eth0".
Proof. apply parseAnsiCodes_plain. reflexivity. Defined.

Lemma wellNested_text (d : Z) (a r : string) :
  lacks "<" a = true -> wellNested d (a ++ r) = wellNested d r.
Proof.
  induction a as [|c a IH]; intros H; [reflexivity |].
  cbn [lacks] in H. apply andb_true_iff in H as [Hc Ha].
  cbn [append wellNested]. apply negb_true_iff in Hc. rewrite Hc. apply IH. exact Ha.
Qed.

Lemma wellNested_spanOpen (d : Z) (cls r : string) :
  lacks "<" cls = true ->
  wellNested d (spanOpen cls ++ r) = wellNested (d + 1) r.
Proof.
  intros H. unfold spanOpen, dq. rewrite !append_assoc. cbn.
  rewrite (wellNested_text _ cls _ H). reflexivity.
Qed.

Lemma wellNested_close (l : list string) (d : Z) (r : string) :
  0 <= d ->
  wellNested (Z.of_nat (List.length l) + d)
             (fold_right (fun _ acc => "</span>" ++ acc) EmptyString l ++ r)
  = wellNested d r.
Proof.
  intros Hd. induction l as [|x l IH]; [reflexivity |].
  cbn [fold_right]. set (tl := fold_right _ EmptyString l) in *.
  rewrite append_assoc. cbn [append wellNested startsWith Ascii.eqb Bool.eqb andb].
  replace (Z.of_nat (List.length (x :: l)) + d - 1) with (Z.of_nat (List.length l) + d)
    by (cbn [List.length]; lia).
  rewrite IH. destruct (Z.ltb_spec 0 (Z.of_nat (List.length (x :: l)) + d));
    [reflexivity | cbn [List.length] in *; lia].
Qed.

Lemma wellNested_closeAll (openTags : list string) (r : string) :
  wellNested (Z.of_nat (List.length openTags)) (closeAll openTags ++ r)
  = wellNested 0 r.
Proof.
  unfold closeAll. rewrite <- (length_rev openTags), <- (Z.add_0_r (Z.of_nat _)).
  apply wellNested_close. lia.
Qed.

Lemma at_index_lacks (table : list string) (i : Z) :
  Forall (fun s => lacks "<" s = true) table -> lacks "<" (at_index table i) = true.
Proof.
  intros H. unfold at_index. generalize (Z.to_nat i). clear i.
  induction H as [|x l Hx _ IH]; intros [|n]; try reflexivity; [exact Hx | apply IH].
Qed.

(** One code writes a piece that takes the reading of the tags from the
    depth of the open tags before to the depth of the open tags after. *)
Lemma applyCode_piece (result : string) (openTags : list string) (code : number) :
  exists piece,
    fst (applyCode (result, openTags) code) = result ++ piece /\
    forall r,
      wellNested (Z.of_nat (List.length openTags)) (piece ++ r)
      = wellNested (Z.of_nat (List.length (snd (applyCode (result, openTags) code)))) r.
Proof.
  assert (forall cls tag,
            lacks "<" cls = true ->
            forall r, wellNested (Z.of_nat (List.length openTags)) (spanOpen cls ++ r)
                      = wellNested (Z.of_nat (List.length (openTags ++ [tag])%list)) r)
    as Hopen.
  { intros cls tag Hc r. rewrite wellNested_spanOpen by exact Hc.
    rewrite length_app. cbn [List.length]. f_equal. lia. }
  assert (exists piece, result = result ++ piece /\
            forall r, wellNested (Z.of_nat (List.length openTags)) (piece ++ r)
                      = wellNested (Z.of_nat (List.length openTags)) r) as Hsame
    by (exists EmptyString; rewrite append_empty_r; split; reflexivity).
  unfold applyCode. destruct code as [| neg |z]; [exact Hsame | exact Hsame |].
  destruct (z =? 0); [| destruct (z =? 1); [| destruct (z =? 3); [| destruct (z =? 4);
    [| destruct ((30 <=? z) && (z <=? 37)); [| destruct ((90 <=? z) && (z <=? 97))]]]]];
    cbn [fst snd]; try exact Hsame; eexists; (split; [reflexivity |]).
  - intros r. apply wellNested_closeAll.
  - apply Hopen. reflexivity.
  - apply Hopen. reflexivity.
  - apply Hopen. reflexivity.
  - apply Hopen. apply at_index_lacks. repeat constructor.
  - apply Hopen. apply at_index_lacks. repeat constructor.
Qed.

Lemma applyCodes_piece (codes : list number) (result : string) (openTags : list string) :
  exists piece,
    fst (fold_left applyCode codes (result, openTags)) = result ++ piece /\
    forall r,
      wellNested (Z.of_nat (List.length openTags)) (piece ++ r)
      = wellNested
          (Z.of_nat (List.length (snd (fold_left applyCode codes (result, openTags))))) r.
Proof.
  revert result openTags. induction codes as [|code codes IH]; intros result openTags.
  - exists EmptyString. rewrite append_empty_r. split; reflexivity.
  - cbn [fold_left].
    destruct (applyCode_piece result openTags code) as (p1 & E1 & W1).
    destruct (applyCode (result, openTags) code) as [result1 tags1] eqn:E.
    cbn [fst snd] in E1, W1. subst result1.
    destruct (IH (result ++ p1) tags1) as (p2 & E2 & W2).
    exists (p1 ++ p2). split.
    + rewrite E2. apply append_assoc.
    + intros r. rewrite append_assoc, W1. apply W2.
Qed.

Lemma replacer_nested (codes : string) (openTags : list string) (r : string) :
  wellNested (Z.of_nat (List.length openTags)) (fst (replacer codes openTags) ++ r)
  = wellNested (Z.of_nat (List.length (snd (replacer codes openTags)))) r.
Proof.
  unfold replacer. destruct (truthy (Str codes)); [|reflexivity].
  destruct (applyCodes_piece (toNumber <$> split ";" codes) EmptyString openTags)
    as (piece & E & W).
  rewrite E. apply W.
Qed.

Lemma matchAnsi_lacks (c : ascii) (s codes rest : string) :
  matchAnsi s = Some (codes, rest) -> lacks c s = true -> lacks c rest = true.
Proof.
  destruct s as [|e [|b r]]; try discriminate. cbn [matchAnsi].
  destruct (Ascii.eqb e "027" && Ascii.eqb b "["); [|discriminate].
  intros H L. cbn [lacks] in L.
  apply andb_true_iff in L as [_ L]. apply andb_true_iff in L as [_ L].
  apply (lacks_drop c (String.length (codesPrefix r))) in L.
  destruct (drop _ r) as [|m rest']; [discriminate |].
  destruct (Ascii.eqb m "m"); [|discriminate]. injection H as _ <-.
  cbn [lacks] in L. apply andb_true_iff in L. tauto.
Qed.

(** Replacing the sequences of a text without [<] writes tags only, from
    the depth of the open tags before to the depth of the open tags
    after. *)
Lemma replaceAnsi_nested (n : nat) (s : string) (openTags : list string) (r : string) :
  (String.length s <= n)%nat ->
  lacks "<" s = true ->
  wellNested (Z.of_nat (List.length openTags)) (fst (replaceAnsi s openTags) ++ r)
  = wellNested (Z.of_nat (List.length (snd (replaceAnsi s openTags)))) r.
Proof.
  revert s openTags. induction n as [|n IH]; intros s openTags Hn L.
  - destruct s; [|simpl in Hn; lia]. rewrite replaceAnsi_equation_1. reflexivity.
  - destruct s as [|c s']; [rewrite replaceAnsi_equation_1; reflexivity |].
    rewrite replaceAnsi_step.
    destruct (matchAnsi (String c s')) as [[codes rest]|] eqn:M.
    + pose proof (replacer_nested codes openTags) as W.
      destruct (replacer codes openTags) as [out tags] eqn:E. cbn [fst snd] in W.
      assert (String.length rest <= n)%nat as Hrest
        by (apply matchAnsi_shorter in M; lia).
      specialize (IH rest tags Hrest (matchAnsi_lacks _ _ _ _ M L)).
      destruct (replaceAnsi rest tags) as [more tags'] eqn:E'. cbn [fst snd] in *.
      rewrite append_assoc, W. exact IH.
    + cbn [lacks] in L. apply andb_true_iff in L as [Lc Ls].
      assert (String.length s' <= n)%nat as Hs by (simpl in Hn; lia).
      specialize (IH s' openTags Hs Ls).
      destruct (replaceAnsi s' openTags) as [more tags'] eqn:E'. cbn [fst snd] in *.
      cbn [append wellNested]. apply negb_true_iff in Lc. rewrite Lc. exact IH.
Qed.

Lemma parseAnsiCodes_nested (text : string) :
  lacks "<" text = true -> wellNested 0 (parseAnsiCodes text) = true.
Proof.
  intros L. unfold parseAnsiCodes. destruct (truthy (Str text)); [|reflexivity].
  pose proof (replaceAnsi_nested (String.length text) text [] (closeAll
    (snd (replaceAnsi text []))) (le_n _) L) as W.
  destruct (replaceAnsi text []) as [html openTags]. cbn [fst snd List.length] in W.
  change (Z.of_nat 0) with 0 in W. rewrite W.
  rewrite <- (append_empty_r (closeAll openTags)). apply wellNested_closeAll.
Qed.

(** X12: for every message, the markup [formatTestMessage] returns has
    well nested tags: each tag it opens for a colour code is closed, at a
    reset or at the end, and no closing tag comes before its opening
    tag; the message's own [<] never count, being escaped first. *)
Theorem formatTestMessage_well_nested (message : string) :
  wellNested 0 (formatTestMessage message) = true.
Proof.
  unfold formatTestMessage. destruct (truthy (Str message)); [|reflexivity].
  apply parseAnsiCodes_nested. apply escapeHtml_lacks_lt.
Qed.

(** ** showTestDetails: the groups *)

Lemma own_None (k : string) (g : list (string * list TestCase.t)) :
  own k g = None <-> ~ In k (map fst g).
Proof.
  induction g as [|[k' ts] g IH]; cbn [own map fst In]; [tauto |].
  destruct (String.eqb_spec k' k) as [-> | N].
  - split; [discriminate | tauto].
  - rewrite IH. tauto.
Qed.

Lemma own_Some (k : string) (ts : list TestCase.t) (g : list (string * list TestCase.t)) :
  List.NoDup (map fst g) -> (own k g = Some ts <-> In (k, ts) g).
Proof.
  induction g as [|[k' ts'] g IH]; cbn [own map fst In]; intros ND.
  - split; [discriminate | tauto].
  - inversion ND as [|? ? Hn ND']; subst.
    destruct (String.eqb_spec k' k) as [-> | N].
    + split.
      * intros [= ->]. auto.
      * intros [[= ->] | H]; [reflexivity |].
        exfalso. apply Hn. apply (in_map fst) in H. exact H.
    + rewrite (IH ND'). split; [auto |]. intros [[= -> _] | H]; [contradiction | exact H].
Qed.

Lemma pushTo_keys (k : string) (t : TestCase.t) (g : list (string * list TestCase.t)) :
  map fst (pushTo k t g) = map fst g.
Proof.
  induction g as [|[k' ts] g IH]; [reflexivity |]. cbn [pushTo].
  destruct (String.eqb k' k); cbn [map fst]; [reflexivity | rewrite IH; reflexivity].
Qed.

Lemma pushTo_In (k : string) (t : TestCase.t) (g : list (string * list TestCase.t))
    (k' : string) (ts' : list TestCase.t) :
  List.NoDup (map fst g) ->
  In (k', ts') (pushTo k t g) ->
  (k' = k /\ exists ts0, In (k, ts0) g /\ ts' = (ts0 ++ [t])%list) \/
  (k' <> k /\ In (k', ts') g).
Proof.
  induction g as [|[k0 ts0] g IH]; cbn [pushTo map fst In]; intros ND; [tauto |].
  inversion ND as [|? ? Hn ND']; subst.
  destruct (String.eqb_spec k0 k) as [-> | N]; cbn [In].
  - intros [[= <- <-] | H]; [left; eauto |].
    right. split; [|auto]. intros ->. apply Hn. apply (in_map fst) in H. exact H.
  - intros [[= <- <-] | H]; [right; auto |].
    destruct (IH ND' H) as [(-> & ts1 & H1 & ->) | (Hne & H1)]; [left | right]; eauto.
Qed.

Lemma filter_snoc {A : Type} (f : A -> bool) (l : list A) (x : A) :
  List.filter f (l ++ [x]) = (List.filter f l ++ if f x then [x] else [])%list.
Proof. rewrite List.filter_app. reflexivity. Qed.

Lemma filter_none {A : Type} (f : A -> bool) (l : list A) :
  (forall x, In x l -> f x = false) -> List.filter f l = [].
Proof.
  induction l as [|x l IH]; intros H; [reflexivity |]. cbn [List.filter].
  rewrite (H x (or_introl eq_refl)). apply IH. intros y Hy. apply H. right. exact Hy.
Qed.

Lemma hasKey_of (k k' : string) (tc : TestCase.t) :
  classKey tc = Some k -> hasKey k' tc = String.eqb k k'.
Proof. intros H. unfold hasKey. rewrite H. reflexivity. Qed.

(** One step of the grouping, for a testcase it can file. *)
Lemma groupTest_grouped (seen : list TestCase.t) (g g1 : list (string * list TestCase.t))
    (tc : TestCase.t) :
  grouped seen g -> groupTest g tc = Ret g1 -> grouped (seen ++ [tc]) g1.
Proof.
  intros (ND & Hin & Hkey). unfold groupTest.
  destruct (TestCase.classname tc) as [| |s] eqn:Hc; try discriminate.
  assert (classKey tc = Some (lastSegment s)) as Hk by (unfold classKey; rewrite Hc; reflexivity).
  set (k := lastSegment s) in *. cbv zeta.
  destruct (own k g) as [ts0|] eqn:Hown.
  - intros [= <-]. apply (own_Some k ts0 g ND) in Hown. split; [| split].
    + rewrite pushTo_keys. exact ND.
    + intros k0 ts H.
      destruct (pushTo_In k tc g k0 ts ND H) as [(-> & ts1 & H1 & ->) | (Hdiff & H1)];
        destruct (Hin _ _ H1) as (Hne & Hf & Hi); (split; [| split]); try exact Hi.
      * intros E. apply app_eq_nil in E as [_ E]. discriminate.
      * rewrite filter_snoc, (hasKey_of k k tc Hk), String.eqb_refl, <- Hf. reflexivity.
      * exact Hne.
      * rewrite filter_snoc, (hasKey_of k k0 tc Hk), <- Hf.
        destruct (String.eqb_spec k k0); [congruence | symmetry; apply app_nil_r].
    + intros tc' k' Hin' Hk'. rewrite pushTo_keys.
      apply in_app_or in Hin' as [Hs | [<- | []]]; [eapply Hkey; eassumption |].
      assert (k' = k) as -> by congruence. apply (in_map fst) in Hown. exact Hown.
  - destruct (inherited k) eqn:Hinh; [discriminate |]. intros [= <-].
    apply own_None in Hown. split; [| split].
    + rewrite map_app. cbn [map fst]. apply List.NoDup_app. repeat split.
      * exact ND.
      * repeat constructor. intros [].
      * intros x Hx [<- | []]. contradiction.
    + intros k0 ts H. apply in_app_or in H as [H | [[= <- <-] | []]].
      * destruct (Hin _ _ H) as (Hne & Hf & Hi). split; [exact Hne | split; [| exact Hi]].
        rewrite filter_snoc, (hasKey_of k k0 tc Hk), <- Hf.
        destruct (String.eqb_spec k k0) as [<- | _]; [| symmetry; apply app_nil_r].
        exfalso. apply Hown. apply (in_map fst) in H. exact H.
      * split; [discriminate | split; [| exact Hinh]].
        rewrite filter_snoc, (hasKey_of k k tc Hk), String.eqb_refl.
        rewrite filter_none; [reflexivity |].
        intros x Hx. unfold hasKey. destruct (classKey x) as [kx|] eqn:Ex; [|reflexivity].
        destruct (String.eqb_spec kx k) as [-> | _]; [|reflexivity].
        exfalso. apply Hown. eapply Hkey; eassumption.
    + intros tc' k' Hin' Hk'. rewrite map_app. apply in_or_app.
      apply in_app_or in Hin' as [Hs | [<- | []]]; [left; eapply Hkey; eassumption |].
      right. left. cbn. congruence.
Qed.

Lemma groupTest_groupable (seen : list TestCase.t) (g : list (string * list TestCase.t))
    (tc : TestCase.t) :
  grouped seen g ->
  (groupable tc -> exists g1, groupTest g tc = Ret g1) /\
  (~ groupable tc -> exists msg, groupTest g tc = Throw (TypeError msg)).
Proof.
  intros (ND & Hin & Hkey). unfold groupable, groupTest, classKey.
  destruct (TestCase.classname tc) as [| |s].
  - split; [intros (k & E & _); discriminate | eauto].
  - split; [intros (k & E & _); discriminate | eauto].
  - cbv zeta. destruct (own (lastSegment s) g) as [ts0|] eqn:Hown.
    + split; [eauto |]. intros N. exfalso. apply N. exists (lastSegment s).
      split; [reflexivity |]. apply (own_Some _ _ _ ND) in Hown.
      destruct (Hin _ _ Hown) as (_ & _ & Hi). exact Hi.
    + destruct (inherited (lastSegment s)) eqn:Hinh.
      * split; [|eauto]. intros (k & [= <-] & Hk). congruence.
      * split; [eauto |]. intros N. exfalso. apply N. eauto.
Qed.

Lemma groupTests_run (l seen : list TestCase.t) (g : list (string * list TestCase.t)) :
  grouped seen g ->
  (Forall groupable l ->
   exists g', forEachM l groupTest g = Ret g' /\ grouped (seen ++ l) g') /\
  (Exists (fun tc => ~ groupable tc) l ->
   exists msg, forEachM l groupTest g = Throw (TypeError msg)).
Proof.
  revert seen g. induction l as [|tc l IH]; intros seen g Hg.
  - split.
    + intros _. exists g. rewrite app_nil_r. split; [reflexivity | exact Hg].
    + intros H. inversion H.
  - destruct (groupTest_groupable seen g tc Hg) as (Hyes & Hno). cbn [forEachM]. split.
    + intros HF. inversion HF as [|? ? Htc HF']; subst.
      destruct (Hyes Htc) as (g1 & E1). rewrite E1. cbn [mbind exn_bind].
      destruct (IH (seen ++ [tc])%list g1 (groupTest_grouped _ _ _ _ Hg E1)) as (Hrun & _).
      destruct (Hrun HF') as (g' & E' & Hg'). exists g'. split; [exact E' |].
      rewrite <- app_assoc in Hg'. exact Hg'.
    + intros HE. destruct (groupTest g tc) as [g1 | e] eqn:E1.
      * cbn [mbind exn_bind].
        destruct (IH (seen ++ [tc])%list g1 (groupTest_grouped _ _ _ _ Hg E1)) as (_ & Hthrow).
        apply Hthrow. inversion HE as [? ? Hn | ? ? HE']; subst; [|exact HE'].
        destruct (Hno Hn) as (msg & Em). congruence.
      * cbn [mbind exn_bind].
        assert (~ groupable tc) as Hn.
        { intros Hy. destruct (Hyes Hy) as (g1 & Ey). congruence. }
        destruct (Hno Hn) as (msg & Em). exists msg. congruence.
Qed.

Lemma grouped_nil : grouped [] [].
Proof.
  repeat split; try constructor; intros; try contradiction.
Qed.

Lemma groupable_dec (tc : TestCase.t) : groupable tc \/ ~ groupable tc.
Proof.
  unfold groupable. destruct (classKey tc) as [k|].
  - destruct (inherited k) eqn:E; [right | left; eauto].
    intros (k' & [= <-] & H). congruence.
  - right. intros (k & H & _). discriminate.
Qed.

Lemma Forall_or_Exists_not (l : list TestCase.t) :
  Forall groupable l \/ Exists (fun tc => ~ groupable tc) l.
Proof.
  induction l as [|tc l [IH | IH]]; [left; constructor | |].
  - destruct (groupable_dec tc) as [H | H]; [left | right]; constructor; assumption.
  - right. apply Exists_cons_tl. exact IH.
Qed.

Lemma Forall2_In_l {A B : Type} (R : A -> B -> Prop) (l1 : list A) (l2 : list B) (x : A) :
  Forall2 R l1 l2 -> In x l1 -> exists y, In y l2 /\ R x y.
Proof.
  intros H. induction H as [|a b l1 l2 Hab _ IH]; intros Hin; [contradiction |].
  destruct Hin as [<- | Hin].
  - exists b. split; [left; reflexivity | exact Hab].
  - destruct (IH Hin) as (y & Hy & Hr). exists y. split; [right; exact Hy | exact Hr].
Qed.

Lemma Forall2_In_r {A B : Type} (R : A -> B -> Prop) (l1 : list A) (l2 : list B) (y : B) :
  Forall2 R l1 l2 -> In y l2 -> exists x, In x l1 /\ R x y.
Proof.
  intros H. induction H as [|a b l1 l2 Hab _ IH]; intros Hin; [contradiction |].
  destruct Hin as [<- | Hin].
  - exists a. split; [left; reflexivity | exact Hab].
  - destruct (IH Hin) as (x & Hx & Hr). exists x. split; [right; exact Hx | exact Hr].
Qed.

(** X13: a testcase element without classname attribute parses without
    complaint (its classname is null), but the grouping of the test
    details then throws a TypeError, whatever else the report holds. *)
Theorem grouping_needs_classname (xmlDoc : document) (r : TestReport.t) :
  parseDocument xmlDoc = Ret (Some r) ->
  (exists e, In e (querySelectorAll (subtrees xmlDoc) "testcase") /\
             getAttribute e "classname" = Null) ->
  exists msg, groupTests (TestReport.testcases r) = Throw (TypeError msg).
Proof.
  intros H (e & He & Hnull). apply parseDocument_testcases in H.
  destruct (Forall2_In_l _ _ _ e H He) as (tc & Htc & Hp).
  destruct (parseTestcase_fields e tc Hp) as (Hc & _).
  destruct (groupTests_run (TestReport.testcases r) [] [] grouped_nil) as (_ & Hthrow).
  apply Hthrow. apply Exists_exists. exists tc. split; [apply list_elem_of_In; exact Htc |].
  intros (k & Hk & _). unfold classKey in Hk. rewrite Hc, Hnull in Hk. discriminate.
Qed.

Lemma grouping_needs_classname_witness :
  exists msg, groupTests (TestReport.testcases nameless_report) = Throw (TypeError msg).
Proof.
  apply (grouping_needs_classname nameless_doc nameless_report).
  - vm_compute. reflexivity.
  - eexists. split; [left; reflexivity | reflexivity].
Defined.

(** X14: the grouping succeeds exactly when every testcase has a string
    classname whose last dot-separated segment is not a name inherited
    from Object.prototype; the groups it then builds part the testcases:
    one group per class and none empty, each group holding the testcases
    of its class in their order, and every testcase in the group of its
    class. *)
Theorem groupTests_partition (testcases : list TestCase.t) :
  ((exists g, groupTests testcases = Ret g) <-> Forall groupable testcases) /\
  (forall g,
     groupTests testcases = Ret g ->
     List.NoDup (map fst g) /\
     (forall k ts, In (k, ts) g ->
        ts <> [] /\ ts = List.filter (hasKey k) testcases) /\
     (forall tc, In tc testcases ->
        exists k ts, classKey tc = Some k /\ In (k, ts) g /\ In tc ts)).
Proof.
  destruct (groupTests_run testcases [] [] grouped_nil) as (Hrun & Hthrow).
  assert ((exists g, groupTests testcases = Ret g) -> Forall groupable testcases) as Hall.
  { intros (g & E). destruct (Forall_or_Exists_not testcases) as [H | H]; [exact H |].
    destruct (Hthrow H) as (msg & Em). unfold groupTests in E. congruence. }
  split; [split; [exact Hall |] |].
  - intros HF. destruct (Hrun HF) as (g & E & _). eauto.
  - intros g E. pose proof (Hall (ex_intro _ g E)) as HF.
    destruct (Hrun HF) as (g' & E' & ND & Hin & Hkey).
    unfold groupTests in E. assert (g' = g) as -> by congruence.
    cbn [app] in Hin, Hkey. split; [exact ND | split].
    + intros k ts H. destruct (Hin k ts H) as (Hne & Hf & _). auto.
    + intros tc Htc. rewrite Forall_forall in HF.
      destruct (HF tc (proj2 (list_elem_of_In _ _) Htc)) as (k & Hk & _).
      pose proof (Hkey tc k Htc Hk) as Hk'. apply in_map_iff in Hk' as ([k' ts] & Ek & Hts).
      cbn in Ek. subst k'. exists k, ts. split; [exact Hk | split; [exact Hts |]].
      destruct (Hin k ts Hts) as (_ & -> & _). apply filter_In. split; [exact Htc |].
      rewrite (hasKey_of k k tc Hk). apply String.eqb_refl.
Qed.

Lemma class_counts (ts : list TestCase.t) :
  Forall (fun tc => TestCase.status tc = "passed" \/ TestCase.status tc = "failed" \/
                    TestCase.status tc = "error" \/ TestCase.status tc = "skipped") ts ->
  (List.length (passedTests ts) + List.length (skippedTests ts)
   + List.length (failedTests ts) = List.length ts)%nat.
Proof.
  unfold passedTests, skippedTests, failedTests.
  induction 1 as [|tc ts Hs _ IH]; [reflexivity |].
  cbn [List.filter]. destruct Hs as [-> | [-> | [-> | ->]]]; cbn; lia.
Qed.

Lemma parsed_statuses (xmlDoc : document) (r : TestReport.t) :
  parseDocument xmlDoc = Ret (Some r) ->
  Forall (fun tc => TestCase.status tc = "passed" \/ TestCase.status tc = "failed" \/
                    TestCase.status tc = "error" \/ TestCase.status tc = "skipped")
         (TestReport.testcases r).
Proof.
  intros H. apply parseDocument_testcases in H.
  induction H as [|e tc es tcs Hp _ IH]; constructor; [|exact IH].
  destruct (parseTestcase_fields e tc Hp) as (_ & _ & H & _). exact H.
Qed.

(** X15: for a parsed report, in every group of the test details the
    three counts shown in the header (passed, skipped, and failed with
    error) add up to the size of the group: no testcase is left out of
    the counts or counted twice. *)
Theorem class_counts_add_up (xmlDoc : document) (r : TestReport.t)
    (g : list (string * list TestCase.t)) :
  parseDocument xmlDoc = Ret (Some r) ->
  groupTests (TestReport.testcases r) = Ret g ->
  Forall (fun kt =>
            (List.length (passedTests (snd kt)) + List.length (skippedTests (snd kt))
             + List.length (failedTests (snd kt)) = List.length (snd kt))%nat) g.
Proof.
  intros Hp Hg. pose proof (parsed_statuses xmlDoc r Hp) as Hst.
  destruct (groupTests_run (TestReport.testcases r) [] [] grouped_nil) as (Hrun & Hthrow).
  destruct (Forall_or_Exists_not (TestReport.testcases r)) as [HF | HE].
  - destruct (Hrun HF) as (g' & E' & _ & Hin & _). unfold groupTests in Hg.
    assert (g' = g) as -> by congruence. cbn [app] in Hin.
    apply Forall_forall. intros [k ts] Hkt. apply list_elem_of_In in Hkt.
    destruct (Hin k ts Hkt) as (_ & Hf & _). cbn [snd]. apply class_counts.
    rewrite Hf. apply Forall_forall. intros tc Htc.
    apply list_elem_of_In, filter_In in Htc as [Htc _].
    rewrite Forall_forall in Hst. apply Hst. apply list_elem_of_In. exact Htc.
  - destruct (Hthrow HE) as (msg & Em). unfold groupTests in Hg. congruence.
Qed.

Lemma class_counts_add_up_witness :
  Forall (fun kt =>
            (List.length (passedTests (snd kt)) + List.length (skippedTests (snd kt))
             + List.length (failedTests (snd kt)) = List.length (snd kt))%nat)
         [("test_base", TestReport.testcases scenario_result)].
Proof.
  apply (class_counts_add_up scenario_doc scenario_result); vm_compute; reflexivity.
Defined.

(** ** createDeviceRow *)

Lemma status_pass (r : TestReport.t) :
  jseq (TestReport.failures r) (Num 0) && jseq (TestReport.errors r) (Num 0) = true <->
  TestReport.failures r = Num 0 /\ TestReport.errors r = Num 0.
Proof.
  rewrite andb_true_iff.
  destruct (TestReport.failures r) as [| nf |f], (TestReport.errors r) as [| ne |e]; cbn;
    try (split; intros [H1 H2]; discriminate).
  rewrite !Z.eqb_eq. split; intros [H1 H2]; split; congruence.
Qed.

(** X16: the badge of a row and the "failed" filter agree on reports with
    counts that are numbers not below 0, and only there.  Every device the
    "failed" filter keeps has the class "status-failures"; with failures
    and errors numbers not below 0, a row has "status-failures" exactly
    when the filter keeps the device; a report whose failures count is NaN
    (and whose errors are not above 0) is shown as failed and is not kept
    by the filter; a device without report is shown as "status-loading"
    and is never kept. *)
Theorem rowStatus_and_failed_filter (d : Device.t) :
  (typeMatches d "failed" -> fst (rowStatus d) = "status-failures") /\
  (forall r f e,
     Device.report d = Some r ->
     TestReport.failures r = Num f -> TestReport.errors r = Num e ->
     0 <= f -> 0 <= e ->
     (fst (rowStatus d) = "status-failures" <-> typeMatches d "failed")) /\
  (forall r,
     Device.report d = Some r ->
     TestReport.failures r = NaN -> jsgt (TestReport.errors r) (Num 0) = false ->
     fst (rowStatus d) = "status-failures" /\ ~ typeMatches d "failed") /\
  (Device.report d = None ->
   fst (rowStatus d) = "status-loading" /\ ~ typeMatches d "failed").
Proof.
  unfold rowStatus, typeMatches. split; [| split; [| split]].
  - intros [H | (_ & r & -> & Hc)]; [discriminate |].
    destruct (jseq (TestReport.failures r) (Num 0) && jseq (TestReport.errors r) (Num 0))
      eqn:E; [|reflexivity].
    apply status_pass in E as [E1 E2]. rewrite E1, E2 in Hc. destruct Hc; discriminate.
  - intros r f e -> Hf He Hf0 He0.
    destruct (jseq (TestReport.failures r) (Num 0) && jseq (TestReport.errors r) (Num 0))
      eqn:E.
    + apply status_pass in E as [E1 E2]. split; [discriminate |].
      intros [H | (_ & r' & [= <-] & Hc)]; [discriminate |].
      rewrite E1, E2 in Hc. destruct Hc; discriminate.
    + split; [|reflexivity]. intros _. right. split; [reflexivity |].
      exists r. split; [reflexivity |]. rewrite Hf, He in *. cbn in *.
      destruct (Z.eqb_spec f 0), (Z.eqb_spec e 0); cbn in E; try discriminate;
        [right | left | left]; apply Z.ltb_lt; lia.
  - intros r -> Hf He. rewrite Hf. cbn. split; [reflexivity |].
    intros [H | (_ & r' & [= <-] & Hc)]; [discriminate |].
    rewrite Hf, He in Hc. destruct Hc; discriminate.
  - intros ->. split; [reflexivity |].
    intros [H | (_ & r' & Hr' & _)]; discriminate.
Qed.

(** ** Trimmed text *)

Lemma trimStart_head (s : string) :
  match trimStart s with
  | String c _ => isWhiteSpace c = false
  | EmptyString => True
  end.
Proof.
  induction s as [|c r IH]; [exact I |]. cbn [trimStart].
  destruct (isWhiteSpace c) eqn:E; [exact IH | exact E].
Qed.

Lemma trimEnd_head (c : ascii) (r : string) :
  isWhiteSpace c = false -> exists r', trimEnd (String c r) = String c r'.
Proof.
  intros H. cbn [trimEnd]. rewrite H. destruct (trimEnd r); eauto.
Qed.

Lemma trimEnd_idem (s : string) : trimEnd (trimEnd s) = trimEnd s.
Proof.
  induction s as [|c r IH]; [reflexivity |]. cbn [trimEnd].
  destruct (trimEnd r) as [|d t] eqn:E.
  - destruct (isWhiteSpace c) eqn:W; [reflexivity |]. cbn [trimEnd]. rewrite W. reflexivity.
  - change (trimEnd (String c (String d t))) with
      (match trimEnd (String d t) with
       | EmptyString => if isWhiteSpace c then EmptyString else String c EmptyString
       | r' => String c r'
       end).
    rewrite IH. reflexivity.
Qed.

(** Trimming twice is trimming once. *)
Lemma trim_idem (s : string) : trim (trim s) = trim s.
Proof.
  unfold trim. pose proof (trimStart_head s) as H.
  destruct (trimStart s) as [|c r]; [reflexivity |].
  destruct (trimEnd_head c r H) as (r' & E). rewrite E.
  cbn [trimStart]. rewrite H, <- E. apply trimEnd_idem.
Qed.

Lemma parseTestcase_details (testcase : element) (tc : TestCase.t) :
  parseTestcase testcase = Ret tc ->
  TestCase.details tc = Undefined \/ exists text, TestCase.details tc = Str (trim text).
Proof.
  unfold parseTestcase. marker_cases testcase;
    cbn [found deref mbind exn_bind]; intros [= <-];
    repeat match goal with
           | |- context [textContent ?m] => destruct (textContent m) eqn:?
           end;
    cbn [TestCase.details TestCase.set_details TestCase.set_message TestCase.set_status
         truthy]; eauto.
Qed.

(** X17: in every parsed report, the details of a testcase, when present,
    have no white space at either end: trimming them again changes
    nothing. *)
Theorem details_are_trimmed (xmlDoc : document) (r : TestReport.t) :
  parseDocument xmlDoc = Ret (Some r) ->
  Forall (fun tc => forall s, TestCase.details tc = Str s -> trim s = s)
         (TestReport.testcases r).
Proof.
  intros H. apply parseDocument_testcases in H.
  induction H as [|e tc es tcs Hp _ IH]; constructor; [|exact IH].
  intros s Hs. destruct (parseTestcase_details e tc Hp) as [Hd | (text & Hd)].
  - congruence.
  - assert (s = trim text) as -> by congruence. apply trim_idem.
Qed.

Lemma details_are_trimmed_witness :
  Forall (fun tc => forall s, TestCase.details tc = Str s -> trim s = s)
         (TestReport.testcases scenario_result).
Proof.
  apply (details_are_trimmed scenario_doc scenario_result). vm_compute. reflexivity.
Defined.

Lemma startsWith_append (p s : string) : startsWith (p ++ s) p = true.
Proof. apply startsWith_app. eauto. Qed.

Lemma drop_append (p s : string) : drop (String.length p) (p ++ s) = s.
Proof. induction p as [|c p IH]; [reflexivity | exact IH]. Qed.

Lemma replaceFirst_prefix (p s r : string) : replaceFirst (p ++ s) p r = r ++ s.
Proof.
  destruct (p ++ s) as [|c t] eqn:E; cbn [replaceFirst]; rewrite <- E;
    rewrite startsWith_append, drop_append; reflexivity.
Qed.

(** X18: the name shown for a device has no white space at either end;
    it is made from the name when the device has a non-empty one and from
    the identifier otherwise; and a name of the form name:text is shown
    as the trimmed text. *)
Theorem displayName_shown (d : Device.t) :
  trim (displayName d) = displayName d /\
  (truthy (Device.name d) = false ->
   displayName d = trim (replaceFirst (Device.device d) "name:" "")) /\
  (forall text, Device.name d = Str ("name:" ++ text) -> displayName d = trim text).
Proof.
  unfold displayName. repeat split.
  - apply trim_idem.
  - intros H. destruct (Device.name d) as [| |[|c n]]; try reflexivity. discriminate.
  - intros text ->. change (or_str (Str ("name:" ++ text)) (Device.device d))
      with ("name:" ++ text).
    rewrite replaceFirst_prefix. reflexivity.
Qed.

(** ** The inventory request *)

(** X19: [loadDevices] resolves exactly when the inventory request
    succeeds (a response with [ok] whose body is read); when the request
    is rejected or the body cannot be read it rejects with that very
    error, and for a response without [ok] it rejects with the error
    "Failed to load devices.json: status statusText"; the outcomes of the
    report requests play no part in a rejection. *)
Theorem loadDevices_resolves_iff (parseFromString : string -> document)
    (net : nat -> string -> fetched string) (this : DeviceManager.t)
    (inventory : fetched (list Device.t)) :
  ((exists result, loadDevices parseFromString net this inventory = Ret result) <->
   exists inventoryResponse devices,
     inventory = Ret inventoryResponse /\ ok inventoryResponse = true /\
     body inventoryResponse = Ret devices) /\
  (forall e, inventory = Throw e ->
     loadDevices parseFromString net this inventory = Throw e) /\
  (forall inventoryResponse e,
     inventory = Ret inventoryResponse -> ok inventoryResponse = true ->
     body inventoryResponse = Throw e ->
     loadDevices parseFromString net this inventory = Throw e) /\
  (forall inventoryResponse,
     inventory = Ret inventoryResponse -> ok inventoryResponse = false ->
     loadDevices parseFromString net this inventory =
     Throw (Error ("Failed to load devices.json: " ++ showZ (status inventoryResponse)
                     ++ " " ++ statusText inventoryResponse))).
Proof.
  assert (forall e, inventory = Throw e ->
            loadDevices parseFromString net this inventory = Throw e) as H1
    by (intros e ->; reflexivity).
  assert (forall inventoryResponse e,
            inventory = Ret inventoryResponse -> ok inventoryResponse = true ->
            body inventoryResponse = Throw e ->
            loadDevices parseFromString net this inventory = Throw e) as H2.
  { intros resp e -> Hok Hb. unfold loadDevices, try_catch. cbn [mbind exn_bind].
    rewrite Hok, Hb. reflexivity. }
  assert (forall inventoryResponse,
            inventory = Ret inventoryResponse -> ok inventoryResponse = false ->
            loadDevices parseFromString net this inventory =
            Throw (Error ("Failed to load devices.json: " ++ showZ (status inventoryResponse)
                            ++ " " ++ statusText inventoryResponse))) as H3.
  { intros resp -> Hok. unfold loadDevices, try_catch. cbn [mbind exn_bind].
    rewrite Hok. reflexivity. }
  split; [| split; [exact H1 | split; [exact H2 | exact H3]]]. split.
  - intros (result & E). destruct inventory as [resp | e].
    + destruct (ok resp) eqn:Hok.
      * destruct (body resp) as [devices | e] eqn:Hb; [eauto 6 |].
        rewrite (H2 resp e eq_refl Hok Hb) in E. discriminate.
      * rewrite (H3 resp eq_refl Hok) in E. discriminate.
    + rewrite (H1 e eq_refl) in E. discriminate.
  - intros (resp & devices & -> & Hok & Hb).
    rewrite (loadDevices_ok _ _ _ _ _ Hok Hb). eauto.
Qed.

(** ** The statistics as a whole *)

Lemma onlineCount_bounds (ds : list Device.t) :
  0 <= onlineCount ds <= Z.of_nat (List.length ds).
Proof.
  induction ds as [|d ds IH]; cbn [onlineCount List.length]; [lia |].
  destruct (jsstr_eq_dec (Device.status d) (Str "online")); lia.
Qed.

Lemma consistent_tests (l : list TestReport.t) :
  Forall consistentReport l -> 0 <= sumZ ((fun r => valueOf (TestReport.tests r)) <$> l).
Proof.
  induction 1 as [|r l (t & f & e & s & Ht & _ & _ & _ & _ & Hf & He & Hs & Hle) _ IH];
    cbn [fmap list_fmap sumZ fold_right]; [lia |].
  fold (sumZ ((fun r => valueOf (TestReport.tests r)) <$> l)).
  rewrite Ht. cbn [valueOf]. lia.
Qed.

(** Over consistent reports whose tests add up to at most 2^53, the four
    counters of the loop stay exact and keep passed + failed + skipped
    equal to the tests. *)
Lemma consistent_sums (l : list TestReport.t) (T P F S : Z) :
  Forall consistentReport l ->
  0 <= P -> 0 <= F -> 0 <= S -> P + F + S = T ->
  T + sumZ ((fun r => valueOf (TestReport.tests r)) <$> l) <= maxExact ->
  exists T' P' F' S',
    fold_left jsadd (TestReport.tests <$> l) (Num T) = Num T' /\
    fold_left jsadd (TestReport.passed <$> l) (Num P) = Num P' /\
    fold_left jsadd ((fun r => jsadd (TestReport.failures r) (TestReport.errors r)) <$> l)
              (Num F) = Num F' /\
    fold_left jsadd (TestReport.skipped <$> l) (Num S) = Num S' /\
    P' + F' + S' = T' /\ 0 <= P' /\ 0 <= F' /\ 0 <= S' /\ T' <= maxExact.
Proof.
  intros Hl. revert T P F S.
  induction Hl as [|r l (t & f & e & s & Ht & Hf & He & Hs & Hp & Hf0 & He0 & Hs0 & Hle)
                     Hl IH]; intros T P F S HP HF HS Hsum Hb.
  - exists T, P, F, S. cbn [fmap list_fmap sumZ fold_right] in Hb.
    repeat split; try assumption. lia.
  - cbn [fmap list_fmap sumZ fold_right fold_left] in *.
    fold (sumZ ((fun r => valueOf (TestReport.tests r)) <$> l)) in Hb.
    pose proof (consistent_tests l Hl) as Hrest.
    rewrite Ht, Hf, He, Hs, Hp in *. cbn [valueOf] in Hb.
    rewrite (jsadd_exact f e) by lia.
    rewrite !jsadd_exact by lia.
    apply IH; lia.
Qed.

(** X20: the online count is never below 0 nor above the total; and when
    every report of the device list has counts that are integers, not
    negative, with no more failures, errors and skipped tests together than
    tests and with passed = tests - failures - errors - skipped (as the
    parser makes it), and the tests of all reports add up to at most 2^53,
    the four totals agree: passed + failed + skipped == totalTests. *)
Theorem updateStats_consistent (this : DeviceManager.t) :
  (exists n t, Stats.online (updateStats this) = Num n /\
               Stats.total (updateStats this) = Num t /\ 0 <= n <= t) /\
  ((forall d r, In d (DeviceManager.devicesData this) -> Device.report d = Some r ->
                consistentReport r) ->
   sumZ ((fun r => valueOf (TestReport.tests r))
           <$> reports (DeviceManager.devicesData this)) <= maxExact ->
   jseq (jsadd (jsadd (Stats.passed (updateStats this)) (Stats.failed (updateStats this)))
               (Stats.skipped (updateStats this)))
        (Stats.totalTests (updateStats this)) = true).
Proof.
  rewrite updateStats_eq. cbn [Stats.online Stats.total Stats.passed Stats.failed
    Stats.skipped Stats.totalTests]. split.
  - do 2 eexists. split; [reflexivity | split; [reflexivity |]].
    apply onlineCount_bounds.
  - intros H Hb.
    assert (Forall consistentReport (reports (DeviceManager.devicesData this))) as HF.
    { apply Forall_forall. intros r Hr. apply list_elem_of_In, In_reports in Hr.
      destruct Hr as (d & Hd & Hrep). eapply H; eassumption. }
    unfold sumNumbers.
    destruct (consistent_sums _ 0 0 0 0 HF) as
      (T & P & F & S & -> & -> & -> & -> & Hsum & HP & HF' & HS & HT); try lia.
    rewrite !jsadd_exact by lia. cbn [jseq]. apply Z.eqb_eq. exact Hsum.
Qed.

(** ** The case of the search term *)

Lemma keepsDevice_lower (t1 t2 filterType : string) (d : Device.t) :
  lower t1 = lower t2 -> keepsDevice t1 filterType d = keepsDevice t2 filterType d.
Proof. intros H. unfold keepsDevice. rewrite H. reflexivity. Qed.

(** X21: the search ignores the case of the term: two terms that are
    equal up to case select the same devices, for every device list and
    type. *)
Theorem filterDevices_term_case (this : DeviceManager.t) (t1 t2 filterType : string) :
  lower t1 = lower t2 ->
  exists m1 m2,
    filterDevices this t1 filterType = Ret m1 /\
    filterDevices this t2 filterType = Ret m2 /\
    DeviceManager.filteredDevices m1 = DeviceManager.filteredDevices m2.
Proof.
  intros H. do 2 eexists. rewrite !filterDevices_keeps.
  do 2 (split; [reflexivity |]). cbn [DeviceManager.filteredDevices].
  apply filter_ext. intros d. apply keepsDevice_lower. exact H.
Qed.

Lemma filterDevices_term_case_witness :
  exists m1 m2,
    filterDevices mixed_manager "AR71" "all" = Ret m1 /\
    filterDevices mixed_manager "ar71" "all" = Ret m2 /\
    DeviceManager.filteredDevices m1 = DeviceManager.filteredDevices m2.
Proof. apply filterDevices_term_case. reflexivity. Defined.

(** ** Counts followed by other text *)

Lemma digitsPrefix_stop (ds rest : string) :
  allDigits ds = true -> stopsNumber rest = true ->
  digitsPrefix 10 (ds ++ rest) = digitsPrefix 10 ds.
Proof.
  intros Hd Hr. induction ds as [|c ds IH].
  - destruct rest as [|x rest']; [reflexivity |]. cbn [append digitsPrefix].
    cbn [stopsNumber] in Hr. apply andb_true_iff in Hr as [Hr _].
    apply andb_true_iff in Hr as [Hr _]. apply negb_true_iff in Hr.
    rewrite (radixDigit_other x Hr). reflexivity.
  - cbn [allDigits] in Hd. apply andb_true_iff in Hd as [Hc Hd].
    cbn [append digitsPrefix]. rewrite (radixDigit_digit c Hc), (IH Hd). reflexivity.
Qed.

Lemma no_hex_prefix (ds rest : string) (x : ascii) :
  ds <> EmptyString -> allDigits ds = true -> stopsNumber rest = true ->
  isDigit x = false -> (x = "x"%char \/ x = "X"%char) ->
  startsWith (ds ++ rest) (String "0" (String x EmptyString)) = false.
Proof.
  intros Hne Hd Hr Hx Hxx. destruct ds as [|c [|c' ds]]; [congruence | |].
  - cbn [append]. destruct rest as [|y rest']; cbn [startsWith]; [apply andb_false_r |].
    cbn [stopsNumber] in Hr. apply andb_true_iff in Hr as [Hr HX].
    apply andb_true_iff in Hr as [_ Hx']. apply negb_true_iff in Hx', HX.
    destruct Hxx as [-> | ->]; [rewrite Hx' | rewrite HX]; apply andb_false_r.
  - cbn [allDigits] in Hd. apply andb_true_iff in Hd as [_ Hd].
    apply andb_true_iff in Hd as [Hc' _]. cbn [append startsWith].
    rewrite (digit_not_char c' x Hc' Hx). apply andb_false_r.
Qed.

(** [parseInt] reads the digits a string starts with and leaves the rest. *)
Lemma parseInt_leading (ds rest : string) (z : Z) :
  digitString ds = Some z -> stopsNumber rest = true ->
  parseInt (ds ++ rest) = roundDouble z.
Proof.
  intros Hz Hr.
  destruct (digitsPrefix_digits ds z Hz) as (d & l & Hp & Hval & _).
  unfold digitString in Hz. destruct ds as [|c ds']; [discriminate |].
  destruct (allDigits (String c ds')) eqn:Hd; [|discriminate].
  pose proof Hd as Hd'. cbn [allDigits] in Hd'. apply andb_true_iff in Hd' as [Hc _].
  assert (String c ds' <> EmptyString) as Hne by discriminate.
  unfold parseInt.
  assert (trimStart (String c ds' ++ rest) = String c ds' ++ rest) as ->
    by (cbn [append trimStart]; rewrite (digit_not_space c Hc); reflexivity).
  assert (startsWith (String c ds' ++ rest) "-" = false) as ->
    by (cbn [append startsWith]; rewrite (digit_not_char c "-" Hc eq_refl); reflexivity).
  assert (startsWith (String c ds' ++ rest) "+" = false) as ->
    by (cbn [append startsWith]; rewrite (digit_not_char c "+" Hc eq_refl); reflexivity).
  cbn [orb].
  rewrite (no_hex_prefix _ rest "x" Hne Hd Hr eq_refl (or_introl eq_refl)).
  rewrite (no_hex_prefix _ rest "X" Hne Hd Hr eq_refl (or_intror eq_refl)).
  cbn [orb]. cbv iota beta.
  rewrite (digitsPrefix_stop _ rest Hd Hr), Hp, Hval. f_equal; lia.
Qed.

(** X22: a count attribute that starts with decimal digits is read as
    the value of these digits (as a Number: the nearest double, which is
    the value itself up to 2^53), whatever follows them that is not a
    digit (a decimal part, a unit, any text): tests="3 tests" is 3 and
    failures="1.0" is 1.  This holds of tests, failures, errors and
    skipped alike. *)
Theorem counts_read_leading_digits (xmlDoc : document) (testsuite : element)
    (ds rest : string) (z : Z) :
  firstWith "testsuite" (subtrees xmlDoc) testsuite ->
  digitString ds = Some z ->
  stopsNumber rest = true ->
  exists r,
    parseDocument xmlDoc = Ret (Some r) /\
    (getAttribute testsuite "tests" = Str (ds ++ rest) ->
     readsAs (TestReport.tests r) z) /\
    (getAttribute testsuite "failures" = Str (ds ++ rest) ->
     readsAs (TestReport.failures r) z) /\
    (getAttribute testsuite "errors" = Str (ds ++ rest) ->
     readsAs (TestReport.errors r) z) /\
    (getAttribute testsuite "skipped" = Str (ds ++ rest) ->
     readsAs (TestReport.skipped r) z).
Proof.
  intros Hts Hz Hr. apply querySelector_first in Hts.
  destruct (parseDocument_Some xmlDoc testsuite Hts) as (tcs & -> & _).
  eexists. split; [reflexivity |].
  cbn [TestReport.tests TestReport.failures TestReport.errors TestReport.skipped].
  assert (or_str (Str (ds ++ rest)) "0" = ds ++ rest) as E.
  { unfold digitString in Hz. destruct ds; [discriminate | reflexivity]. }
  split; [| split; [| split]]; intros ->; rewrite E, (parseInt_leading ds rest z Hz Hr);
    apply roundDouble_readsAs.
Qed.

Lemma counts_read_leading_digits_witness :
  exists r,
    parseDocument wordy_doc = Ret (Some r) /\
    (getAttribute wordy_suite "tests" = Str ("3" ++ " tests") ->
     readsAs (TestReport.tests r) 3) /\
    (getAttribute wordy_suite "failures" = Str ("3" ++ " tests") ->
     readsAs (TestReport.failures r) 3) /\
    (getAttribute wordy_suite "errors" = Str ("3" ++ " tests") ->
     readsAs (TestReport.errors r) 3) /\
    (getAttribute wordy_suite "skipped" = Str ("3" ++ " tests") ->
     readsAs (TestReport.skipped r) 3).
Proof.
  apply (counts_read_leading_digits wordy_doc wordy_suite "3" " tests" 3).
  - apply querySelector_first. reflexivity.
  - reflexivity.
  - reflexivity.
Defined.
